(** * Recommendation core of the learning platform: a shallow embedding

    The development follows the Python sources file by file:

    - [Py]: the Python builtins the sources rely on (exceptions, [print],
      [str], [str.lower], [in] on strings, [sorted], slicing);
    - [Re]: a backtracking matcher for the fragment of [re] used by
      [extract_youtube_id];
    - [Store]: the records of the [contents] and [users] nodes of the
      database;
    - [App]: [extract_youtube_id] and [generate_recommendations] of
      [app.py];
    - [RecommendationMethods]: [vectorize_user_profile], [KNN_similarity]
      and the second [generate_recommendations] of
      [modules/recommendation_methods.py];
    - [Evaluation]: [create_ratings_df], [evaluate_surprise_models] and the
      two training helpers of [modules/evaluation.py];
    - [Recommender]: [get_knn_recommendations] and
      [get_svd_recommendations] of [modules/recommender.py];
    - [Reference], [Examples]: a concrete environment and example data;
    - [Spec]: the predicates the properties are stated with;
    - [PyMore]: [enumerate], slices, [str.strip] and [str.split];
    - [Pages], [ProfileUpdate]: the handlers [home] and [update_profile]
      of [app.py];
    - [Similar]: [get_global_recommendations], [get_user_recommendations]
      and [add_user_to_dataset] of [modules/recommender.py];
    - [SpecMore], [MoreExamples]: more predicates and example data.

    Conventions.  A dictionary whose iteration order matters is an
    association list in insertion order.  A field that the code reads
    without testing its type has the type the code assumes (a title is a
    string, a rating is a number); where the code tests a type with
    [isinstance] the alternatives are kept.  Strings are byte strings and
    [lower] acts on ASCII letters.  Floating-point scores are binary64
    ([PrimFloat]).  Third-party libraries (scikit-learn, Surprise, pandas'
    [read_csv], [ast.literal_eval], [int]) are interfaces: type classes
    whose methods may raise. *)

From Stdlib Require Import ZArith QArith Floats List String Ascii Bool Lia.
From Stdlib Require Import Sorting.Sorted Sorting.Permutation DecimalString.
From Stdlib Require Import FunctionalExtensionality DecimalZ.
Import ListNotations.

Set Implicit Arguments.
#[local] Set Warnings "-register-all".

(** ** Python builtins *)

Module Py.

Inductive exn_kind : Set :=
| NameError | AttributeError | TypeError | ValueError | SyntaxError
| KeyError | IndexError | ZeroDivisionError | OSError.

(** An exception: its class and [str(e)]. *)
Record exn : Set := Exn { exn_kind_of : exn_kind; exn_msg : string }.

Inductive result (A : Type) : Type :=
| Ok (a : A)
| Raise (e : exn).
Arguments Ok {A} a.
Arguments Raise {A} e.

Definition bind {A B} (m : result A) (f : A -> result B) : result B :=
  match m with
  | Ok a => f a
  | Raise e => Raise e
  end.

(** [for x in xs: ys.append(f x)], stopping at the first exception. *)
Fixpoint mapM {A B} (f : A -> result B) (xs : list A) : result (list B) :=
  match xs with
  | [] => Ok []
  | x :: xs' =>
      bind (f x) (fun y => bind (mapM f xs') (fun ys => Ok (y :: ys)))
  end.

(** Computations that also write lines to standard output ([print]). *)
Definition io (A : Type) : Type := (list string * result A)%type.

Definition ret {A} (a : A) : io A := ([], Ok a).
Definition lift {A} (r : result A) : io A := ([], r).
Definition print (line : string) : io unit := ([line], Ok tt).

Definition io_bind {A B} (m : io A) (f : A -> io B) : io B :=
  match m with
  | (out, Ok a) => let (out', r) := f a in ((out ++ out')%list, r)
  | (out, Raise e) => (out, Raise e)
  end.

(** [try: m except Exception as e: h e]. *)
Definition try_except {A} (m : io A) (h : exn -> io A) : io A :=
  match m with
  | (out, Raise e) => let (out', r) := h e in ((out ++ out')%list, r)
  | (out, Ok a) => (out, Ok a)
  end.

Definition stdout {A} (m : io A) : list string := fst m.
Definition outcome {A} (m : io A) : result A := snd m.

(** [str(n)] for an [int]. *)
Definition str_int (z : Z) : string := NilZero.string_of_int (Z.to_int z).

(** [s.lower()], on ASCII letters; other bytes are kept, so the function
    agrees with [str.lower] on ASCII text.  The general properties below
    use nothing of its values (they hold for whatever function stands
    here); the examples are ASCII. *)
Definition lower_ascii (c : ascii) : ascii :=
  let n := nat_of_ascii c in
  if ((65 <=? n) && (n <=? 90))%nat then ascii_of_nat (n + 32) else c.

Fixpoint lower (s : string) : string :=
  match s with
  | EmptyString => EmptyString
  | String c s' => String (lower_ascii c) (lower s')
  end.

(** [k in t] for two strings: [k] occurs in [t] as a substring. *)
Fixpoint contains (k t : string) : bool :=
  String.prefix k t ||
  match t with
  | EmptyString => false
  | String _ t' => contains k t'
  end.

(** [x in l] for a list of strings. *)
Definition mem (x : string) (l : list string) : bool :=
  existsb (String.eqb x) l.

(** Scalars that occur inside the list fields of a stored profile.  A
    float is kept as its [repr], which identifies it. *)
Inductive scalar : Type :=
| SStr (s : string)
| SInt (z : Z)
| SBool (b : bool)
| SFloat (repr : string)
| SOther.

Section Sorting.
Variables (A K : Type) (ltb : K -> K -> bool) (key : A -> K).

(** Insertion in front of the first element that is not smaller: only
    [<] is used, as in CPython's list sort. *)
Fixpoint insert (x : A) (l : list A) : list A :=
  match l with
  | [] => [x]
  | y :: l' => if ltb (key y) (key x) then y :: insert x l' else x :: l
  end.

Definition stable_sort (l : list A) : list A := fold_right insert [] l.

(** [sorted(l, key=key, reverse=reverse)]: with [reverse=True] the list
    is reversed, sorted and reversed again, which keeps the sort stable. *)
Definition sorted (reverse : bool) (l : list A) : list A :=
  if reverse then rev (stable_sort (rev l)) else stable_sort l.

End Sorting.

Definition Qltb (a b : Q) : bool := negb (Qle_bool b a).

(** [for x in xs: acc = f acc x], stopping at the first exception. *)
Fixpoint foldM {A B} (f : B -> A -> result B) (xs : list A) (acc : B)
    : result B :=
  match xs with
  | [] => Ok acc
  | x :: xs' => bind (f acc x) (foldM f xs')
  end.

(** [d.get(k)] on a dictionary kept as an association list. *)
Fixpoint lookup {V} (k : string) (d : list (string * V)) : option V :=
  match d with
  | [] => None
  | (k', v) :: d' => if String.eqb k' k then Some v else lookup k d'
  end.

(** The values a cell of the students' table holds once it is parsed: a
    string, a list, an integer, or the NaN pandas puts in an empty cell. *)
Inductive pyobj : Type :=
| OStr (s : string)
| OList (l : list pyobj)
| OInt (z : Z)
| ONaN.

Fixpoint pyobj_eqb (a b : pyobj) : bool :=
  match a, b with
  | OStr s, OStr t => String.eqb s t
  | OList l, OList m =>
      (fix all2 (l m : list pyobj) : bool :=
         match l, m with
         | [], [] => true
         | x :: l', y :: m' => pyobj_eqb x y && all2 l' m'
         | _, _ => false
         end) l m
  | OInt x, OInt y => Z.eqb x y
  | _, _ => false                    (* NaN equals nothing *)
  end.

Definition type_name (v : pyobj) : string :=
  match v with
  | OStr _ => "str"
  | OList _ => "list"
  | OInt _ => "int"
  | ONaN => "float"
  end.

Fixpoint chars (s : string) : list pyobj :=
  match s with
  | EmptyString => []
  | String c s' => OStr (String c EmptyString) :: chars s'
  end.

(** [len(v)]. *)
Definition len (v : pyobj) : result nat :=
  match v with
  | OStr s => Ok (String.length s)
  | OList l => Ok (List.length l)
  | OInt _ | ONaN =>
      Raise (Exn TypeError
               ("object of type '" ++ type_name v ++ "' has no len()"))
  end.

(** The elements [for x in v] goes through. *)
Definition iter (v : pyobj) : result (list pyobj) :=
  match v with
  | OStr s => Ok (chars s)
  | OList l => Ok l
  | OInt _ | ONaN =>
      Raise (Exn TypeError ("'" ++ type_name v ++ "' object is not iterable"))
  end.

(** [x in v]. *)
Definition py_in (x v : pyobj) : result bool :=
  match v with
  | OList l => Ok (existsb (pyobj_eqb x) l)
  | OStr t =>
      match x with
      | OStr k => Ok (contains k t)
      | _ => Raise (Exn TypeError "'in <string>' requires string as left operand")
      end
  | OInt _ | ONaN =>
      Raise (Exn TypeError
               ("argument of type '" ++ type_name v ++ "' is not iterable"))
  end.

(** Builtins taken as an interface: each may raise. *)
Class Builtins : Type := {
  literal_eval : string -> result pyobj;   (* ast.literal_eval *)
  int_of_str : string -> result Z          (* int(s) *)
}.

(** Binary64 arithmetic.  An integer is converted by rounding to nearest. *)
Definition float_of_Z (z : Z) : float :=
  SF2Prim (binary_normalize prec emax z 0 false).

Definition float_of_nat (n : nat) : float := float_of_Z (Z.of_nat n).

(** [min(a, b)]: [b] only when [b < a]. *)
Definition min (a b : float) : float :=
  if PrimFloat.ltb b a then b else a.

(** [sum(xs)]: additions from the left, starting from 0. *)
Definition sum (xs : list float) : float :=
  fold_left PrimFloat.add xs 0%float.

(** The integer nearest to [m * 100 / d], ties to the even one. *)
Definition round_half_even_100 (m d : Z) : Z :=
  let q := (m * 100 / d)%Z in
  let r := (m * 100 mod d)%Z in
  match (2 * r ?= d)%Z with
  | Lt => q
  | Gt => (q + 1)%Z
  | Eq => if Z.even q then q else (q + 1)%Z
  end.

(** [round(x, 2)]: the exact value of [x] is rounded to two decimals,
    ties to even, and the decimal is read back as the nearest float.  An
    integral, infinite or NaN [x] is returned as it is. *)
Definition round2 (x : float) : float :=
  match Prim2SF x with
  | S754_finite sign m (Zneg p) =>
      let n := round_half_even_100 (Zpos m) (Z.pow_pos 2 p) in
      let y := (float_of_Z n / 100)%float in
      if sign then PrimFloat.opp y else y
  | _ => x
  end.

End Py.

Import Py.

Declare Scope py_scope.
Delimit Scope py_scope with py.
Notation "x <- m ;; k" := (bind m (fun x => k))
  (at level 61, m at next level, right associativity) : py_scope.
Notation "x <~ m ;; k" := (io_bind m (fun x => k))
  (at level 61, m at next level, right associativity) : py_scope.

(** ** The fragment of [re] used by the sources *)

Module Re.

Inductive regex : Set :=
| Eps
| Chr (c : ascii)
| Dot                          (* any character but a newline *)
| NoneOf (cs : list ascii)     (* [^...] *)
| Seq (r1 r2 : regex)
| Alt (r1 r2 : regex)
| Opt (r : regex)              (* r?, greedy *)
| Plus (r : regex)             (* r+, greedy *)
| Group (n : nat) (r : regex). (* capturing group number n *)

Fixpoint Lit (s : string) : regex :=
  match s with
  | EmptyString => Eps
  | String c s' => Seq (Chr c) (Lit s')
  end.

(** [r{n}]. *)
Fixpoint Rep (n : nat) (r : regex) : regex :=
  match n with
  | O => Eps
  | S n' => Seq r (Rep n' r)
  end.

Definition groups : Set := list (nat * string).

Definition set_group (n : nat) (s : string) (g : groups) : groups :=
  (n, s) :: filter (fun p => negb (Nat.eqb (fst p) n)) g.

Fixpoint group (n : nat) (g : groups) : option string :=
  match g with
  | [] => None
  | (m, s) :: g' => if Nat.eqb m n then Some s else group n g'
  end.

(** The part of [s] consumed when [rest] is what remains of it. *)
Definition consumed (s rest : string) : string :=
  String.substring 0 (String.length s - String.length rest) s.

Definition orelse {A} (a b : option A) : option A :=
  match a with Some _ => a | None => b end.

(** The continuation of a match: what is left of the input, and the
    groups captured so far. *)
Definition cont : Type := string -> groups -> option groups.

(** [r+] for a matcher [m] of [r], greedy: after one [r], first one more
    round, then the rest of the pattern.  A further round has to consume
    input, so more than [length s] rounds never happen on [s]. *)
Fixpoint plus_loop (m : string -> groups -> cont -> option groups) (k : cont)
    (fuel : nat) (s : string) (g : groups) : option groups :=
  match fuel with
  | O => None
  | S fuel' =>
      m s g (fun s' g' =>
        if (String.length s' <? String.length s)%nat
        then orelse (plus_loop m k fuel' s' g') (k s' g')
        else k s' g')
  end.

(** Backtracking matching with a continuation for the rest of the
    pattern: alternatives are tried left to right and the first complete
    match wins, as in [re]. *)
Fixpoint rmatch (r : regex) (s : string) (g : groups) (k : cont) {struct r}
    : option groups :=
  match r with
  | Eps => k s g
  | Chr c =>
      match s with
      | String a s' => if Ascii.eqb a c then k s' g else None
      | EmptyString => None
      end
  | Dot =>
      match s with
      | String a s' => if Ascii.eqb a "010"%char then None else k s' g
      | EmptyString => None
      end
  | NoneOf cs =>
      match s with
      | String a s' => if existsb (Ascii.eqb a) cs then None else k s' g
      | EmptyString => None
      end
  | Seq r1 r2 => rmatch r1 s g (fun s' g' => rmatch r2 s' g' k)
  | Alt r1 r2 => orelse (rmatch r1 s g k) (rmatch r2 s g k)
  | Opt r1 => orelse (rmatch r1 s g k) (k s g)
  | Plus r1 => plus_loop (rmatch r1) k (S (String.length s)) s g
  | Group n r1 =>
      rmatch r1 s g (fun s' g' => k s' (set_group n (consumed s s') g'))
  end.

(** [re.match(r, s)]: anchored at the start, free at the end. *)
Definition re_match (r : regex) (s : string) : option groups :=
  rmatch r s [] (fun _ g => Some g).

End Re.

(** ** The documents of the real-time database *)

Module Store.

(** The value a stored course may hold under a key ["id"] of its own.
    The code reads it through [str] only. *)
Inductive id_value : Set :=
| IdStr (s : string)
| IdInt (z : Z)
| IdBool (b : bool)
| IdOther (str : string).   (* a float, a list, a dictionary: its [str] *)

(** [str(v)]. *)
Definition str_id_value (v : id_value) : string :=
  match v with
  | IdStr s => s
  | IdInt z => str_int z
  | IdBool b => if b then "True" else "False"
  | IdOther s => s
  end.

(** A record of the [contents] node.  The courses of the platform are
    stored without a key ["id"], but nothing prevents a stored course from
    having one. *)
Record content : Type := Content {
  id : option id_value;
  Title : option string;
  Category : option string;
  Description : option string;
  Link : option string;
  Rating : option Q
}.

(** A child of the [contents] node: a record, or anything else (a hole
    of a sparse list, a scalar). *)
Inductive entry : Type :=
| Item (c : content)
| NotADict.

(** What [rt_db.child("contents").get()] returns. *)
Inductive contents_raw : Type :=
| RawNone
| RawDict (d : list (string * entry))
| RawList (l : list entry)
| RawOther.

(** A record of the [users] node, with the keys the recommenders read;
    [other_keys] names the remaining keys (email, provider, ...). *)
Record profile : Type := Profile {
  name : option string;
  bio : option string;
  photo_url : option string;
  Competences : option (list scalar);
  Centres_d_Interet : option (list scalar);
  Communautes : option (list scalar);
  Derniers_Cours_Interagis : option (list scalar);
  other_keys : list string
}.

(** [d.get(k, default)]. *)
Definition get {A} (default : A) (field : option A) : A :=
  match field with Some v => v | None => default end.

Definition absent {A} (field : option A) : bool :=
  match field with Some _ => false | None => true end.

(** [not p] for a dictionary: it has no key at all. *)
Definition is_empty_dict (p : profile) : bool :=
  absent (name p) && absent (bio p) && absent (photo_url p) &&
  absent (Competences p) && absent (Centres_d_Interet p) &&
  absent (Communautes p) && absent (Derniers_Cours_Interagis p) &&
  match other_keys p with [] => true | _ :: _ => false end.

(** The value under ["id"] of an element of [all_contents_list]: the
    storage key, the list position, or the course's own ["id"]. *)
Inductive ident : Set :=
| Key (k : string)
| Index (i : nat)
| Own (v : id_value).

(** [str(content_item.get("id"))]. *)
Definition str_ident (i : ident) : string :=
  match i with
  | Key k => k
  | Index n => str_int (Z.of_nat n)
  | Own v => str_id_value v
  end.

(** The ["id"] of [{"id": default, **c}]: the keys of [c] come last, so
    an ["id"] of [c] replaces [default]. *)
Definition attach (default : ident) (c : content) : ident :=
  match id c with
  | Some v => Own v
  | None => default
  end.

(** [[{"id": cid, **c} for cid, c in d.items() if isinstance(c, dict)]] *)
Fixpoint dict_items (d : list (string * entry)) : list (ident * content) :=
  match d with
  | [] => []
  | (cid, Item c) :: d' => (attach (Key cid) c, c) :: dict_items d'
  | (_, NotADict) :: d' => dict_items d'
  end.

(** [[{"id": i, **c} for i, c in enumerate(l) if isinstance(c, dict)]],
    counting from [i]. *)
Fixpoint list_items (i : nat) (l : list entry) : list (ident * content) :=
  match l with
  | [] => []
  | Item c :: l' => (attach (Index i) c, c) :: list_items (S i) l'
  | NotADict :: l' => list_items (S i) l'
  end.

(** The output record of the content recommender. *)
Record recommendation : Type := Recommendation {
  rec_id : string;
  rec_Title : string;
  rec_Category : string;
  rec_Description : string;
  rec_Link : string;
  rec_EmbedLink : option string;
  rec_Rating : Q
}.

(** [[s.lower() for s in l if isinstance(s, str)]] *)
Fixpoint lower_strs (l : list scalar) : list string :=
  match l with
  | [] => []
  | SStr s :: l' => lower s :: lower_strs l'
  | _ :: l' => lower_strs l'
  end.

(** [[str(c) for c in l if isinstance(c, (int, str))]] *)
Fixpoint str_ids (l : list scalar) : list string :=
  match l with
  | [] => []
  | SStr s :: l' => s :: str_ids l'
  | SInt z :: l' => str_int z :: str_ids l'
  | SBool b :: l' => (if b then "True" else "False")%string :: str_ids l'
  | _ :: l' => str_ids l'
  end.

End Store.

(** ** app.py *)

Module App.
Import Re Store.

(** [(https?://)?(www\.)?(youtube|youtu|youtube-nocookie)\.(com|be)/
     (watch\?v=|embed/|v/|.+\?v=)?([^&=%\?]{11})] *)
Definition youtube_regex : regex :=
  Seq (Opt (Group 1 (Seq (Lit "http") (Seq (Opt (Chr "s")) (Lit "://")))))
 (Seq (Opt (Group 2 (Lit "www.")))
 (Seq (Group 3 (Alt (Lit "youtube") (Alt (Lit "youtu") (Lit "youtube-nocookie"))))
 (Seq (Chr ".")
 (Seq (Group 4 (Alt (Lit "com") (Lit "be")))
 (Seq (Chr "/")
 (Seq (Opt (Group 5 (Alt (Lit "watch?v=")
                    (Alt (Lit "embed/")
                    (Alt (Lit "v/")
                         (Seq (Plus Dot) (Lit "?v=")))))))
      (Group 6 (Rep 11 (NoneOf ["&"; "="; "%"; "?"]%char))))))))).

Definition extract_youtube_id (url : option string) : option string :=
  match url with
  | None => None
  | Some EmptyString => None
  | Some u =>
      match re_match youtube_regex u with
      | Some g => group 6 g
      | None => None
      end
  end.

Definition interacted_course_ids (p : profile) : list string :=
  str_ids (get [] (Derniers_Cours_Interagis p)).

Definition keywords (p : profile) : list string :=
  (lower_strs (get [] (Competences p)) ++
   lower_strs (get [] (Centres_d_Interet p)))%list.

(** The test of the loop body: some keyword occurs in the category, the
    description or the title. *)
Definition matches (kws : list string) (c : content) : bool :=
  let content_category := lower (get ""%string (Category c)) in
  let content_description := lower (get ""%string (Description c)) in
  let content_title := lower (get ""%string (Title c)) in
  existsb (fun keyword =>
    contains keyword content_category ||
    contains keyword content_description ||
    contains keyword content_title) kws.

Definition embed_link (youtube_id : option string) : option string :=
  match youtube_id with
  | Some (String _ _ as y) => Some ("https://www.youtube.com/embed/" ++ y)%string
  | _ => None
  end.

Definition record_of (content_id : string) (c : content) : recommendation :=
  {| rec_id := content_id;
     rec_Title := get "Unknown Title"%string (Title c);
     rec_Category := get "Unknown Category"%string (Category c);
     rec_Description := get "No description available"%string (Description c);
     rec_Link := get "#"%string (Link c);
     rec_EmbedLink := embed_link (extract_youtube_id (Link c));
     rec_Rating := get 0%Q (Rating c) |}.

(** One turn of [for content_item in all_contents_list]. *)
Definition step (kws interacted : list string)
    (recommendations : list recommendation) (content_item : ident * content)
    : list recommendation :=
  let content_id := str_ident (fst content_item) in
  if mem content_id interacted then recommendations
  else if matches kws (snd content_item)
       then (recommendations ++ [record_of content_id (snd content_item)])%list
       else recommendations.

Definition generate_recommendations (user_profile : option profile)
    (all_contents_raw : contents_raw) : list recommendation :=
  match user_profile with
  | None => []
  | Some p =>
      if is_empty_dict p then [] else
      let continue_with all_contents_list :=
        let recommendations :=
          fold_left (step (keywords p) (interacted_course_ids p))
                    all_contents_list [] in
        firstn 10 (sorted Qltb rec_Rating true recommendations) in
      match all_contents_raw with
      | RawNone => []
      | RawDict d => continue_with (dict_items d)
      | RawList l => continue_with (list_items 0 l)
      | RawOther => []
      end
  end.

(** The courses of the catalog with their identifiers, in catalog order. *)
Definition items (all_contents_raw : contents_raw) : list (ident * content) :=
  match all_contents_raw with
  | RawDict d => dict_items d
  | RawList l => list_items 0 l
  | RawNone | RawOther => []
  end.

(** The list [recommendations] as the loop leaves it, before the sort. *)
Definition candidates (user_profile : option profile)
    (all_contents_raw : contents_raw) : list recommendation :=
  match user_profile with
  | None => []
  | Some p =>
      if is_empty_dict p then []
      else fold_left (step (keywords p) (interacted_course_ids p))
                     (items all_contents_raw) []
  end.

End App.

(** ** modules/recommendation_methods.py *)

Module RecommendationMethods.
Import Store.

(** *** numpy arrays and the scikit-learn index *)

Record ndarray : Type := NdArray { shape : list nat; data : list Z }.

Definition ndim (a : ndarray) : nat := List.length (shape a).

(** [np.zeros(n)]. *)
Definition zeros (n : nat) : list Z := repeat 0%Z n.

(** [v.reshape(1, -1)] for a vector [v]. *)
Definition reshape_1_m1 (v : list Z) : ndarray :=
  NdArray [1%nat; List.length v] v.

(** The array numpy makes of the one-element list [[a]]. *)
Definition array_of_singleton (a : ndarray) : ndarray :=
  NdArray (1%nat :: shape a) (data a).

(** [NearestNeighbors(n_neighbors=k, metric='cosine')]: fitting on a
    matrix, and the neighbour indices of the rows of a 2-D query. *)
Class NearestNeighbors : Type := {
  nn_index : Type;
  nn_fit : nat -> list (list Z) -> result nn_index;
  nn_search : nn_index -> ndarray -> result (list (list nat))
}.

(** [nn.kneighbors(X)] validates [X] first: scikit-learn's [check_array]
    accepts arrays of dimension 2 only. *)
Definition kneighbors `{NearestNeighbors} (nn : nn_index) (X : ndarray)
    : result (list (list nat)) :=
  if (3 <=? ndim X)%nat then
    Raise (Exn ValueError
      ("Found array with dim " ++ str_int (Z.of_nat (ndim X)) ++
       ". NearestNeighbors expected <= 2."))
  else if (ndim X <? 2)%nat then
    Raise (Exn ValueError "Expected 2D array, got 1D array instead")
  else nn_search nn X.

(** *** Fetching the users *)

(** What reading [rt_db.child("users")] gives. *)
Inductive users_node : Type :=
| NoDatabase
| GetFails (e : exn)
| UsersNone
| UsersDict (d : list (string * profile))
| UsersOther.

Definition get_all_users_for_recommendation (rt_db : users_node)
    : list (string * profile) :=
  match rt_db with
  | UsersDict users_data => users_data
  | _ => []
  end.

(** *** Vectorization *)

(** [[str(x).lower() for x in l if isinstance(x, (str, int, float))]] *)
Fixpoint terms_of (l : list scalar) : list string :=
  match l with
  | [] => []
  | SStr s :: l' => lower s :: terms_of l'
  | SInt z :: l' => lower (str_int z) :: terms_of l'
  | SBool b :: l' => (if b then "true" else "false")%string :: terms_of l'
  | SFloat x :: l' => lower x :: terms_of l'
  | SOther :: l' => terms_of l'
  end.

Definition profile_terms (user_profile : profile) : list string :=
  (terms_of (get [] (Competences user_profile)) ++
   terms_of (get [] (Centres_d_Interet user_profile)) ++
   terms_of (get [] (Communautes user_profile)))%list.

(** [l.index(x)]: the first position of [x], if any. *)
Fixpoint index (x : string) (l : list string) : option nat :=
  match l with
  | [] => None
  | y :: l' =>
      if String.eqb y x then Some 0%nat
      else match index x l' with Some i => Some (S i) | None => None end
  end.

(** [v[i] = x] for [i] within the vector. *)
Fixpoint set_nth (i : nat) (x : Z) (v : list Z) : list Z :=
  match v, i with
  | [], _ => []
  | _ :: v', O => x :: v'
  | y :: v', S i' => y :: set_nth i' x v'
  end.

Definition vectorize_user_profile (user_profile : profile)
    (all_possible_terms : list string) : list Z :=
  fold_left
    (fun vector term =>
       match index term all_possible_terms with
       | Some i => set_nth i 1%Z vector
       | None => vector              (* except ValueError: pass *)
       end)
    (profile_terms user_profile)
    (zeros (List.length all_possible_terms)).

(** [sorted(list(set(l)))]. *)
Definition sorted_set (l : list string) : list string :=
  stable_sort String.ltb (fun s => s) (nodup string_dec l).

(** *** The peer recommender *)

Record peer : Type := Peer {
  peer_ID_Etudiant : string;
  peer_Nom : string;
  peer_Bio : string;
  peer_Skills : list scalar;
  peer_Interests : list scalar;
  peer_Communities : list scalar;
  peer_Photo_URL : string
}.

Definition peer_of (uid : string) (user_detail : profile) : peer :=
  {| peer_ID_Etudiant := uid;
     peer_Nom := get ("User " ++ uid)%string (name user_detail);
     peer_Bio := get "No bio available."%string (bio user_detail);
     peer_Skills := get [] (Competences user_detail);
     peer_Interests := get [] (Centres_d_Interet user_detail);
     peer_Communities := get [] (Communautes user_detail);
     peer_Photo_URL := get "/static/default-avatar.png"%string (photo_url user_detail) |}.

(** Steps 4 and 5: from the neighbour indices to the peers' details. *)
Definition details_of (all_users_data : list (string * profile))
    (other_user_ids : list string) (indices : list (list nat))
    : result (list peer) :=
  match indices with
  | [] => Ok []
  | recommended_user_indices :: _ =>
      (recommended_user_ids <-
         mapM (fun i =>
                 match nth_error other_user_ids i with
                 | Some uid => Ok uid
                 | None => Raise (Exn IndexError "list index out of range")
                 end) recommended_user_indices ;;
       Ok (flat_map
             (fun uid =>
                match lookup uid all_users_data with
                | Some user_detail =>
                    if is_empty_dict user_detail then []
                    else [peer_of uid user_detail]
                | None => []
                end) recommended_user_ids))%py
  end.

Definition KNN_similarity `{NearestNeighbors}
    (rt_db : users_node) (current_user_id : string)
    (num_recommendations : Z) : list peer :=
  let all_users_data := get_all_users_for_recommendation rt_db in
  match all_users_data with
  | [] => []
  | _ :: _ =>
  let other_users_data :=
    filter (fun u => negb (String.eqb (fst u) current_user_id)) all_users_data in
  match other_users_data with
  | [] => []
  | _ :: _ =>
  match lookup current_user_id all_users_data with
  | None => []
  | Some current_user_profile =>
  if is_empty_dict current_user_profile then [] else
  let all_possible_terms :=
    sorted_set (flat_map (fun u => profile_terms (snd u)) all_users_data) in
  match all_possible_terms with
  | [] => []
  | _ :: _ =>
  let user_vectors :=
    map (fun u => (fst u, vectorize_user_profile (snd u) all_possible_terms))
        all_users_data in
  match lookup current_user_id user_vectors with
  | None => []
  | Some current_user_vector =>
  let other_user_ids := map fst other_users_data in
  let other_user_vectors :=
    flat_map (fun uid => match lookup uid user_vectors with
                         | Some v => [v]
                         | None => []
                         end) other_user_ids in
  let n_others := Z.of_nat (List.length other_user_vectors) in
  let k_neighbors :=
    if (n_others <? num_recommendations)%Z then n_others
    else num_recommendations in
  if (k_neighbors <? 1)%Z || (n_others =? 0)%Z then [] else
  match (nn <- nn_fit (Z.to_nat k_neighbors) other_user_vectors ;;
         indices <- kneighbors nn
                      (array_of_singleton (reshape_1_m1 current_user_vector)) ;;
         details_of all_users_data other_user_ids indices)%py with
  | Ok recommended_users_details => recommended_users_details
  | Raise _ => []                    (* except Exception: return [] *)
  end
  end end end end end.

(** *** The content recommender of this module *)

(** Evaluating a name that is bound nowhere. *)
Definition unbound (name : string) : exn :=
  Exn NameError ("name '" ++ name ++ "' is not defined").

(** [[i.lower() for i in l if isinstance(item, (str, int, float))]]: the
    condition names [item], which no scope binds, so the first element
    already raises. *)
Definition user_interests_of (l : list scalar) : result (list string) :=
  match l with
  | [] => Ok []
  | _ :: _ => Raise (unbound "item")
  end.

Definition matches (kws : list string) (c : content) : bool :=
  let content_category := lower (get ""%string (Category c)) in
  let content_description := lower (get ""%string (Description c)) in
  let content_title := lower (get ""%string (Title c)) in
  existsb (fun keyword =>
    contains keyword content_category ||
    contains keyword content_description ||
    contains keyword content_title) kws.

(** One turn of the loop.  The module neither defines nor imports
    [extract_youtube_id], so the first matching course raises. *)
Definition step (kws interacted : list string)
    (recommendations : list recommendation) (content_item : ident * content)
    : result (list recommendation) :=
  let content_id := str_ident (fst content_item) in
  if mem content_id interacted then Ok recommendations
  else if matches kws (snd content_item)
       then Raise (unbound "extract_youtube_id")
       else Ok recommendations.

Definition generate_recommendations (user_profile : option profile)
    (all_contents_raw : contents_raw) : result (list recommendation) :=
  match user_profile with
  | None => Ok []
  | Some p =>
      if is_empty_dict p then Ok [] else
      let continue_with all_contents_list :=
        let user_skills := lower_strs (get [] (Competences p)) in
        (user_interests <- user_interests_of (get [] (Centres_d_Interet p)) ;;
         let interacted_course_ids :=
           str_ids (get [] (Derniers_Cours_Interagis p)) in
         let keywords := (user_skills ++ user_interests)%list in
         recommendations <-
           foldM (step keywords interacted_course_ids) all_contents_list [] ;;
         Ok (firstn 10 (sorted Qltb rec_Rating true recommendations)))%py in
      match all_contents_raw with
      | RawNone => Ok []
      | RawDict d => continue_with (dict_items d)
      | RawList l => continue_with (list_items 0 l)
      | RawOther => Ok []
      end
  end.

End RecommendationMethods.

(** ** modules/evaluation.py *)

Module Evaluation.

(** A cell of a list-valued column as [pd.read_csv] delivers it: text, or
    a value that is no string (NaN for an empty cell). *)
Inductive cell : Type :=
| CellStr (s : string)
| CellObj (v : pyobj).

(** A row of [dataset_etudiants.csv]. *)
Record student : Type := Student {
  ID_Etudiant : Z;
  Nom : string;
  Coequipiers : cell;
  Communautes : cell;
  Competences : cell;
  Centres_d_Interet : cell;
  Travaux_Collaboratifs : Z;
  Nombre_Interactions : Z
}.

(** [pd.read_csv(path)]. *)
Class Files : Type := read_csv : string -> result (list student).

(** A row of the ratings table: user, item, rating. *)
Definition rating : Type := (string * pyobj * float)%type.

Record dataframe : Type := DataFrame {
  columns : list string;
  rows : list rating
}.

(** [df.empty]. *)
Definition empty (df : dataframe) : bool :=
  match rows df with [] => true | _ :: _ => false end.

(** [lambda x: ast.literal_eval(x) if isinstance(x, str) else x] *)
Definition parse_cell `{Builtins} (x : cell) : result pyobj :=
  match x with
  | CellStr s => literal_eval s
  | CellObj v => Ok v
  end.

(** [min((n / 100.0) * 5, 5) * (1 + len / 10)] in binary64. *)
Definition normalized_score (num_interactions : Z) (n_competences : nat)
    : float :=
  (Py.min (float_of_Z num_interactions / 100 * 5) 5
   * (1 + float_of_nat n_competences / 10))%float.

(** The body of [for _, row in df.iterrows()] for one row. *)
Definition row_ratings (ratings : list rating) (row : student * pyobj)
    : result (list rating) :=
  let student_id := ID_Etudiant (fst row) in
  let num_interactions := Nombre_Interactions (fst row) in
  let competences := snd row in
  (n <- len competences ;;
   let normalized_score := normalized_score num_interactions n in
   items <- iter competences ;;
   Ok (fold_left
         (fun ratings competence =>
            ratings ++ [(str_int student_id, competence, normalized_score)])
         items ratings)%list)%py.

Definition ratings_columns : list string :=
  ["user"; "item"; "rating"]%string.

Definition create_ratings_df `{Builtins} `{Files} (csv_path : string)
    : io dataframe :=
  (df <~ lift (read_csv csv_path) ;;
   match mapM parse_cell (map Competences df) with
   | Raise e =>
       _ <~ print ("Error parsing 'Compétences' column: " ++ exn_msg e) ;;
       ret (DataFrame [] [])
   | Ok parsed =>
       ratings <~ lift (foldM row_ratings (combine df parsed) []) ;;
       ret (DataFrame ratings_columns ratings)
   end)%py.

Definition default_csv_path : string := "dataset/dataset_etudiants.csv".

(** *** The Surprise library *)

Inductive algo : Set :=
| KNNBasic              (* KNNBasic() *)
| KNNBasic_cosine_user  (* KNNBasic(sim_options={cosine, user_based}) *)
| SVD.

Record cv_results : Type := CvResults {
  test_rmse : list float;
  test_mae : list float
}.

Record prediction : Type := Prediction {
  uid : string;
  iid : pyobj;
  est : float
}.

Class Surprise : Type := {
  model : Type;
  (* cross_validate(algo, data, measures=["RMSE", "MAE"], cv=cv) *)
  cross_validate : algo -> list rating -> nat -> result cv_results;
  (* algo.fit(data.build_full_trainset()) *)
  fit : algo -> list rating -> result model;
  (* model.test(trainset.build_anti_testset()) *)
  test_anti_testset : model -> list rating -> result (list prediction)
}.

(** [Dataset.load_from_df(df[cols], reader)]: selecting a column the
    frame does not have is a [KeyError]. *)
Definition load_from_df (df : dataframe) (cols : list string)
    : result (list rating) :=
  if forallb (fun c => mem c (columns df)) cols then Ok (rows df)
  else Raise (Exn KeyError "None of [Index(['user', 'item', 'rating'], dtype='object')] are in the [columns]").

(** [round(float(sum(xs) / len(xs)), 2)]. *)
Definition mean2 (xs : list float) : result float :=
  match xs with
  | [] => Raise (Exn ZeroDivisionError "division by zero")
  | _ :: _ => Ok (round2 (Py.sum xs / float_of_nat (List.length xs))%float)
  end.

Record metrics : Type := Metrics { RMSE : float; MAE : float }.

(** The dictionary [evaluate_surprise_models] returns. *)
Inductive report : Type :=
| ReportError (error : string)
| Report (KNN SVD_ : metrics).

Definition evaluate_body `{Builtins} `{Files} `{Surprise} (csv_path : string)
    : io report :=
  (ratings_df <~ create_ratings_df csv_path ;;
   if empty ratings_df then
     ret (ReportError "No valid ratings data available")
   else
     data <~ lift (load_from_df ratings_df ratings_columns) ;;
     knn_results <~ lift (cross_validate KNNBasic data 5) ;;
     svd_results <~ lift (cross_validate SVD data 5) ;;
     knn_rmse <~ lift (mean2 (test_rmse knn_results)) ;;
     knn_mae <~ lift (mean2 (test_mae knn_results)) ;;
     svd_rmse <~ lift (mean2 (test_rmse svd_results)) ;;
     svd_mae <~ lift (mean2 (test_mae svd_results)) ;;
     ret (Report (Metrics knn_rmse knn_mae) (Metrics svd_rmse svd_mae)))%py.

Definition evaluate_surprise_models `{Builtins} `{Files} `{Surprise}
    (csv_path : string) : io report :=
  try_except (evaluate_body csv_path)
    (fun e =>
       (_ <~ print ("Error in evaluate_surprise_models: " ++ exn_msg e) ;;
        ret (ReportError (exn_msg e)))%py).

Definition train `{Builtins} `{Files} `{Surprise} (a : algo)
    : io (list rating * model) :=
  (ratings_df <~ create_ratings_df default_csv_path ;;
   trainset <~ lift (load_from_df ratings_df ratings_columns) ;;
   m <~ lift (fit a trainset) ;;
   ret (trainset, m))%py.

Definition train_knn_model `{Builtins} `{Files} `{Surprise}
    : io (list rating * model) := train KNNBasic_cosine_user.

Definition train_svd_model `{Builtins} `{Files} `{Surprise}
    : io (list rating * model) := train SVD.

End Evaluation.

(** ** modules/recommender.py *)

Module Recommender.
Import Evaluation.

Definition load_data `{Files} : result (list student) :=
  read_csv "dataset/dataset_etudiants.csv".

(** A row once [preprocess_features] has parsed its list columns. *)
Record features : Type := Features {
  row : student;
  f_Coequipiers : pyobj;
  f_Communautes : pyobj;
  f_Competences : pyobj;
  f_Centres_d_Interet : pyobj;
  combined_features : string
}.

(** [" ".join(l)]: every element has to be a string. *)
Fixpoint join (l : list pyobj) : result string :=
  match l with
  | [] => Ok EmptyString
  | OStr s :: l' =>
      match l' with
      | [] => Ok s
      | _ :: _ => bind (join l') (fun t => Ok (s ++ " " ++ t)%string)
      end
  | _ :: _ =>
      Raise (Exn TypeError "sequence item: expected str instance")
  end.

Definition list_items_of (v : pyobj) : list pyobj :=
  match v with OList l => l | _ => [] end.

Definition combine_features (s : student) (com comp ci : pyobj)
    : result string :=
  join (list_items_of com ++ list_items_of comp ++ list_items_of ci ++
        [OStr (str_int (Travaux_Collaboratifs s));
         OStr (str_int (Nombre_Interactions s))])%list.

(** The four columns are parsed one after the other, then the combined
    feature is computed row by row. *)
Definition preprocess_features `{Builtins} (df : list student)
    : result (list features) :=
  (coeq <- mapM parse_cell (map Coequipiers df) ;;
   com <- mapM parse_cell (map Communautes df) ;;
   comp <- mapM parse_cell (map Competences df) ;;
   ci <- mapM parse_cell (map Centres_d_Interet df) ;;
   mapM (fun r =>
           match r with
           | (s, (a, (b, (c, d)))) =>
               cf <- combine_features s b c d ;;
               Ok (Features s a b c d cf)
           end)
        (combine df (combine coeq (combine com (combine comp ci)))))%py.

Record knn_recommendation : Type := KnnRecommendation {
  knn_Nom : string;
  knn_Competence : pyobj;
  knn_Score : float
}.

Record svd_recommendation : Type := SvdRecommendation {
  svd_Nom : string;
  svd_Score : float
}.

(** [sorted(user_skills, key=lambda x: x.est, reverse=True)]: the elements
    are item identifiers, which have no attribute [est]; the key function
    raises on the first element. *)
Definition sorted_by_est (user_skills : list pyobj) : result (list pyobj) :=
  match user_skills with
  | [] => Ok []
  | x :: _ =>
      Raise (Exn AttributeError
               ("'" ++ type_name x ++ "' object has no attribute 'est'"))
  end.

(** The students whose skills hold [skill], each with its score. *)
Definition skilled_students (df : list features) (skill : pyobj)
    : result (list knn_recommendation) :=
  (selected <- mapM (fun f => b <- py_in skill (f_Competences f) ;; Ok (f, b)) df ;;
   Ok (map (fun fb =>
              let student := row (fst fb) in
              KnnRecommendation (Nom student) skill
                (float_of_Z (Nombre_Interactions student) / 100)%float)
           (filter snd selected)))%py.

Definition knn_body `{Builtins} `{Files} `{Surprise}
    (user_id : Z) (top_n : nat) : io (list knn_recommendation) :=
  (tm <~ train_knn_model ;;
   predictions <~ lift (test_anti_testset (snd tm) (fst tm)) ;;
   let user_skills :=
     map iid (filter (fun p => String.eqb (uid p) (str_int user_id)) predictions) in
   user_skills <~ lift (sorted_by_est user_skills) ;;
   let user_skills := firstn top_n user_skills in
   df <~ lift (bind load_data preprocess_features) ;;
   recommendations <~
     lift (foldM (fun recommendations skill =>
                    bind (skilled_students df skill)
                         (fun l => Ok (recommendations ++ l)%list))
                 user_skills []) ;;
   ret (firstn top_n (sorted PrimFloat.ltb knn_Score true recommendations)))%py.

Definition get_knn_recommendations `{Builtins} `{Files} `{Surprise}
    (user_id : Z) (top_n : nat) : io (list knn_recommendation) :=
  try_except (knn_body user_id top_n)
    (fun e => (_ <~ print ("KNN Error: " ++ exn_msg e) ;; ret [])%py).

(** [int(x)]. *)
Definition py_int `{Builtins} (x : pyobj) : result Z :=
  match x with
  | OStr s => int_of_str s
  | OList _ =>
      Raise (Exn TypeError "int() argument must be a string, a bytes-like object or a real number, not 'list'")
  | OInt z => Ok z
  | ONaN => Raise (Exn ValueError "cannot convert float NaN to integer")
  end.

(** [df[df["ID_Étudiant"] == n]["Nom"].values[0]]. *)
Definition nom_of (df : list features) (n : Z) : result string :=
  match filter (fun f => Z.eqb (ID_Etudiant (row f)) n) df with
  | f :: _ => Ok (Nom (row f))
  | [] => Raise (Exn IndexError "index 0 is out of bounds for axis 0 with size 0")
  end.

(** [df] is the module's global table. *)
Definition svd_body `{Builtins} `{Files} `{Surprise}
    (df : list features) (user_id : Z) (top_n : nat)
    : io (list svd_recommendation) :=
  (tm <~ train_svd_model ;;
   predictions <~ lift (test_anti_testset (snd tm) (fst tm)) ;;
   let user_preds :=
     filter (fun p => String.eqb (uid p) (str_int user_id)) predictions in
   let user_preds := sorted PrimFloat.ltb est true user_preds in
   lift (mapM (fun p =>
                 n <- py_int (iid p) ;;
                 nom <- nom_of df n ;;
                 Ok (SvdRecommendation nom (est p)))
              (firstn top_n user_preds)))%py.

Definition get_svd_recommendations `{Builtins} `{Files} `{Surprise}
    (df : list features) (user_id : Z) (top_n : nat)
    : io (list svd_recommendation) :=
  try_except (svd_body df user_id top_n)
    (fun e => (_ <~ print ("SVD Error: " ++ exn_msg e) ;; ret [])%py).

End Recommender.

(** ** A concrete environment

    Instances of the interfaces on which the definitions can be run: a
    parser for the literals the dataset uses, a table of files, an index
    that ranks by exact cosine similarity, and recorded runs of Surprise. *)

Module Reference.
Import Evaluation RecommendationMethods.

(** *** Literals

    A parser for the literals of the dataset: lists, possibly nested, of
    quoted strings without escape sequences and of unsigned decimal
    integers, with blanks between the tokens.  Anything else is reported
    as a syntax error with the one message [invalid syntax]; CPython
    accepts more literals and words its messages differently. *)

Fixpoint skip_ws (s : string) : string :=
  match s with
  | String " " s' => skip_ws s'
  | _ => s
  end.

(** The text up to the closing quote [q], and what follows it.  Escape
    sequences are outside the fragment. *)
Fixpoint quoted (q : ascii) (s : string) : option (string * string) :=
  match s with
  | EmptyString => None
  | String c s' =>
      if Ascii.eqb c q then Some (EmptyString, s')
      else if Ascii.eqb c "\"%char then None
      else match quoted q s' with
           | Some (t, r) => Some (String c t, r)
           | None => None
           end
  end.

Definition is_digit (c : ascii) : bool :=
  let n := nat_of_ascii c in ((48 <=? n) && (n <=? 57))%nat.

(** The value of the digits at the head of [s], after the digits of
    value [acc], and what follows them. *)
Fixpoint digits (acc : Z) (s : string) : Z * string :=
  match s with
  | String c s' =>
      if is_digit c
      then digits (10 * acc + Z.of_nat (nat_of_ascii c - 48)) s'
      else (acc, s)
  | EmptyString => (acc, s)
  end.

(** A numeral: [0], or digits that start with another digit than [0]. *)
Definition numeral (s : string) : option (pyobj * string) :=
  match s with
  | String "0" (String c _ as s') =>
      if is_digit c then None else Some (OInt 0, s')
  | _ => let (z, r) := digits 0 s in Some (OInt z, r)
  end.

Fixpoint value (fuel : nat) (s : string) : option (pyobj * string) :=
  match fuel with
  | O => None
  | S fuel' =>
      match skip_ws s with
      | EmptyString => None
      | String c s' =>
          if Ascii.eqb c "'"%char || Ascii.eqb c "034"%char then
            match quoted c s' with
            | Some (t, r) => Some (OStr t, r)
            | None => None
            end
          else if Ascii.eqb c "["%char then
            match elements fuel' s' with
            | Some (vs, r) => Some (OList vs, r)
            | None => None
            end
          else if is_digit c then numeral (String c s')
          else None
      end
  end
with elements (fuel : nat) (s : string) : option (list pyobj * string) :=
  match fuel with
  | O => None
  | S fuel' =>
      match skip_ws s with
      | String "]" r => Some ([], r)
      | _ =>
          match value fuel' s with
          | Some (v, r) =>
              match skip_ws r with
              | String "," r' =>
                  match elements fuel' r' with
                  | Some (vs, r'') => Some (v :: vs, r'')
                  | None => None
                  end
              | String "]" r' => Some ([v], r')
              | _ => None
              end
          | None => None
          end
      end
  end.

Definition literal_eval (s : string) : result pyobj :=
  match value (2 * S (String.length s)) s with
  | Some (v, r) =>
      match skip_ws r with
      | EmptyString => Ok v
      | _ => Raise (Exn SyntaxError "invalid syntax")
      end
  | None => Raise (Exn SyntaxError "invalid syntax")
  end.

(** [int(s)] for a decimal numeral with an optional sign. *)
Definition int_of_str (s : string) : result Z :=
  match NilZero.int_of_string s with
  | Some d => Ok (Z.of_int d)
  | None =>
      Raise (Exn ValueError
               ("invalid literal for int() with base 10: '" ++ s ++ "'"))
  end.

#[export] Instance builtins : Builtins :=
  {| Py.literal_eval := literal_eval; Py.int_of_str := int_of_str |}.

(** *** Files *)

Definition files (table : list (string * list student)) : Files :=
  fun path =>
    match lookup path table with
    | Some df => Ok df
    | None =>
        Raise (Exn OSError
                 ("[Errno 2] No such file or directory: '" ++ path ++ "'"))
    end.

(** *** Nearest neighbours by exact cosine similarity *)

Definition dot (a b : list Z) : Z :=
  fold_left Z.add (map (fun p => (fst p * snd p)%Z) (combine a b)) 0%Z.

(** The square of the cosine of two vectors with entries 0 and 1; 0 when
    one of them is the zero vector. *)
Definition cos2 (a b : list Z) : Q :=
  if ((dot a a =? 0) || (dot b b =? 0))%Z then 0%Q
  else Qmake (dot a b * dot a b) (Z.to_pos (dot a a * dot b b)).

Fixpoint enumerate {A} (i : nat) (l : list A) : list (nat * A) :=
  match l with
  | [] => []
  | x :: l' => (i, x) :: enumerate (S i) l'
  end.

(** The rows of an array of shape [(m, n)]. *)
Fixpoint split_rows (m n : nat) (d : list Z) : list (list Z) :=
  match m with
  | O => []
  | S m' => firstn n d :: split_rows m' n (skipn n d)
  end.

Definition rows_of (a : ndarray) : list (list Z) :=
  match shape a with
  | [m; n] => split_rows m n (data a)
  | _ => []
  end.

(** The [k] training rows most similar to [q], most similar first, ties
    by position. *)
Definition nearest (k : nat) (X : list (list Z)) (q : list Z) : list nat :=
  map fst (firstn k (sorted Qltb (fun r => cos2 q (snd r)) true (enumerate 0 X))).

#[export] Instance exact_cosine : NearestNeighbors :=
  {| nn_index := (nat * list (list Z))%type;
     nn_fit k X := Ok (k, X);
     nn_search nn Q := Ok (map (nearest (fst nn) (snd nn)) (rows_of Q)) |}.

(** *** A recorded run of Surprise: what each call returned *)

(** Surprise's [KFold.split] refuses to cut the ratings into more folds
    than there are ratings, or into fewer than two folds. *)
Definition kfold_guard (data : list rating) (n_splits : nat)
    (r : result cv_results) : result cv_results :=
  if ((List.length data <? n_splits) || (n_splits <? 2))%nat
  then Raise (Exn ValueError
                ("Incorrect value for n_splits="
                 ++ str_int (Z.of_nat (List.length data))
                 ++ ". Must be >=2 and less than the number of ratings"))
  else r.

Definition recorded (cv : algo -> nat -> result cv_results)
    (fitted : algo -> result unit) (predictions : result (list prediction))
    : Surprise :=
  {| model := unit;
     cross_validate a data n := kfold_guard data n (cv a n);
     fit a _ := fitted a;
     test_anti_testset _ _ := predictions |}.

End Reference.

(** ** Example data *)

Module Examples.
Import Store RecommendationMethods Evaluation Reference.

Definition course (title category : string) (rating : Q) : content :=
  {| id := None; Title := Some title; Category := Some category;
     Description := None; Link := None; Rating := Some rating |}.


(** The catalog and the user of the round trip described for the content
    matcher. *)
Definition two_courses : contents_raw :=
  RawList [Item (course "Intro to Rust" "Systems" 4);
           Item (course "Cooking 101" "Food" 9)].

Definition member (nm : string) (skills : list scalar) : profile :=
  Profile (Some nm) (Some EmptyString) (Some EmptyString)
          (Some skills) (Some []) (Some []) (Some [])
          ["email"; "provider"; "created_at"]%string.

Definition rust_user : profile := member "Ferris" [SStr "rust"].


(** A profile as the first sign-in creates it. *)
Definition new_user : profile := member "Nouveau" [].

(** Two users with the same single skill, and a third one. *)
Definition three_users : list (string * profile) :=
  [("u1", member "Ada" [SStr "Python"]);
   ("u2", member "Bob" [SStr "python"]);
   ("u3", member "Cy" [SStr "java"])]%string.

Definition row (id : Z) (nm skills : string) (interactions : Z) : student :=
  Student id nm (CellStr "[]") (CellStr "[]") (CellStr skills) (CellStr "[]")
          0 interactions.

(** Three datasets: a well-formed one with three ratings, one whose
    second row has a skills cell that is no literal, and a well-formed one
    with five ratings. *)
Definition disk : Files :=
  files
    [("dataset/dataset_etudiants.csv",
      [row 1 "Ada" "['a', 'b']" 50; row 2 "Bob" "['x']" 100]);
     ("dataset/malformed.csv",
      [row 1 "Ada" "['a', 'b']" 50; row 2 "Bob" "[python, 'java'" 100]);
     ("dataset/five_ratings.csv",
      [row 1 "Ada" "['a', 'b', 'c']" 50; row 2 "Bob" "['x', 'y']" 100])]%string.

(** A run in which cross-validation returned five scores per measure. *)
Definition five_folds : cv_results :=
  {| test_rmse := [1; 2; 1.5; 1; 2]%float;
     test_mae := [0.5; 1; 0.5; 1; 0.75]%float |}.

Definition good_run : Surprise :=
  recorded (fun _ _ => Ok five_folds) (fun _ => Ok tt)
           (Ok [Prediction "1" (OStr "x") 4; Prediction "2" (OStr "a") 3]%float).

(** A run in which fitting failed. *)
Definition failing_fit : Surprise :=
  recorded (fun _ _ => Ok five_folds)
           (fun _ => Raise (Exn ValueError "training failed"))
           (Ok []).

(** A run in which predicting failed. *)
Definition failing_test : Surprise :=
  recorded (fun _ _ => Ok five_folds) (fun _ => Ok tt)
           (Raise (Exn ValueError "prediction failed")).

End Examples.

(** ** The vocabulary of the properties *)

Module Spec.

(** Most popular first. *)
Definition rating_order (a b : Store.recommendation) : Prop :=
  (Store.rec_Rating b <= Store.rec_Rating a)%Q.

(** The records whose rating is [q]. *)
Definition rated (q : Q) (r : Store.recommendation) : bool :=
  Qeq_bool (Store.rec_Rating r) q.

(** What one course contributes to the list of the loop. *)
Definition select (kws interacted : list string)
    (it : Store.ident * Store.content) : list Store.recommendation :=
  if mem (Store.str_ident (fst it)) interacted then []
  else if App.matches kws (snd it)
       then [App.record_of (Store.str_ident (fst it)) (snd it)]
       else [].

(** The course [c] is stored in the catalog under [default]: a key of the
    dictionary, or a position of the list (the entries that are no records
    keep their positions). *)
Definition stored_under (all_contents_raw : Store.contents_raw)
    (default : Store.ident) (c : Store.content) : Prop :=
  match all_contents_raw with
  | Store.RawDict d =>
      exists k, default = Store.Key k /\ In (k, Store.Item c) d
  | Store.RawList l =>
      exists i, default = Store.Index i /\ nth_error l i = Some (Store.Item c)
  | Store.RawNone | Store.RawOther => False
  end.

(** The identifier of a course stored under [default], as a string: the
    value of its own ["id"] when it has one, else the key or the position
    it is stored under. *)
Definition identifier (default : Store.ident) (c : Store.content) : string :=
  match Store.id c with
  | Some v => Store.str_id_value v
  | None => Store.str_ident default
  end.

(** The profile has no skill, no interest and no community. *)
Definition no_tags (p : Store.profile) : Prop :=
  Store.get [] (Store.Competences p) = [] /\
  Store.get [] (Store.Centres_d_Interet p) = [] /\
  Store.get [] (Store.Communautes p) = [].

(** The score of the specification,
    [min(interactions/100*5, 5) * (1 + skillCount/10)], in binary64: the
    first factor is [interactions/100*5] unless that exceeds 5, and 5 then. *)
Definition score (interactions : Z) (skill_count : nat) : float :=
  let uncapped := (float_of_Z interactions / 100 * 5)%float in
  ((if PrimFloat.ltb 5 uncapped then 5 else uncapped)
   * (1 + float_of_nat skill_count / 10))%float.

(** One row per skill of the student, all with the score of the
    specification. *)
Definition skill_rows (s : Evaluation.student) (skills : list pyobj)
    : list Evaluation.rating :=
  map (fun skill =>
         (str_int (Evaluation.ID_Etudiant s), skill,
          score (Evaluation.Nombre_Interactions s) (List.length skills)))
      skills.

(** The rating rows of one student whose skills are the list [skills]. *)
Definition student_ratings (s : Evaluation.student) (skills : list pyobj)
    : list Evaluation.rating :=
  map (fun competence =>
         (str_int (Evaluation.ID_Etudiant s), competence,
          Evaluation.normalized_score (Evaluation.Nombre_Interactions s)
            (List.length skills)))
      skills.

(** Every record's skills cell holds, or parses to, a list. *)
Definition skills_are `{Builtins} (df : list Evaluation.student)
    (skills : list (list pyobj)) : Prop :=
  Forall2 (fun s l =>
             Evaluation.parse_cell (Evaluation.Competences s) = Ok (OList l))
          df skills.

(** [s] is the first record of [df] whose skills cell does not parse, and
    [e] is the exception its parse raises. *)
Definition first_parse_error `{Builtins} (df : list Evaluation.student)
    (s : Evaluation.student) (e : exn) : Prop :=
  exists before after,
    df = (before ++ s :: after)%list /\
    Forall (fun s0 =>
              exists v, Evaluation.parse_cell (Evaluation.Competences s0) = Ok v)
           before /\
    Evaluation.parse_cell (Evaluation.Competences s) = Raise e.

(** The mean of the five scores of a measure, rounded to two decimals. *)
Definition mean_of_folds (xs : list float) : float :=
  round2 (Py.sum xs / 5)%float.

(** The exception [e] is raised while the model is trained (reading and
    building the ratings, fitting) or while it predicts the missing
    ratings. *)
Definition raised_in_training_or_prediction `{Evaluation.Surprise}
    (train : io (list Evaluation.rating * Evaluation.model)) (e : exn)
    : Prop :=
  outcome train = Raise e \/
  exists tm, outcome train = Ok tm /\
             Evaluation.test_anti_testset (snd tm) (fst tm) = Raise e.

(** The call printed [line] last and returned the empty list. *)
Definition degraded {A} (m : io (list A)) (line : string) : Prop :=
  outcome m = Ok [] /\ exists out, stdout m = (out ++ [line])%list.

(** Whatever a match returns, its continuation returned. *)
Definition through
    (m : string -> Re.groups -> Re.cont -> option Re.groups) : Prop :=
  forall s g k res, m s g k = Some res -> exists s' g', k s' g' = Some res.

End Spec.

Import Spec.

(** ** More Python builtins: [enumerate], [str.strip], [str.split] *)

Module PyMore.

(** [enumerate(l)], counting from [i]. *)
Fixpoint enumerate {A} (i : nat) (l : list A) : list (nat * A) :=
  match l with
  | [] => []
  | x :: l' => (i, x) :: enumerate (S i) l'
  end.

(** [l[start:stop]] for [0 <= start <= stop]. *)
Definition slice {A} (l : list A) (start stop : nat) : list A :=
  firstn (stop - start) (skipn start l).

(** The ASCII whitespace that [str.strip] removes.  [strip] agrees with
    [str.strip] on text whose white space is ASCII; the properties below
    use only that stripping is idempotent and keeps a part of the
    string. *)
Definition is_space (c : ascii) : bool :=
  let n := nat_of_ascii c in
  (((9 <=? n) && (n <=? 13)) || ((28 <=? n) && (n <=? 32)))%nat.

Fixpoint lstrip (s : string) : string :=
  match s with
  | EmptyString => EmptyString
  | String c s' => if is_space c then lstrip s' else s
  end.

Fixpoint rstrip (s : string) : string :=
  match s with
  | EmptyString => EmptyString
  | String c s' =>
      match rstrip s' with
      | EmptyString => if is_space c then EmptyString else String c EmptyString
      | String _ _ as r => String c r
      end
  end.

(** [s.strip()]. *)
Definition strip (s : string) : string := rstrip (lstrip s).

(** [s.split(sep)] for a separator of one character. *)
Fixpoint split (sep : ascii) (s : string) : list string :=
  match s with
  | EmptyString => [EmptyString]
  | String c s' =>
      if Ascii.eqb c sep then EmptyString :: split sep s'
      else match split sep s' with
           | piece :: pieces => String c piece :: pieces
           | [] => [String c EmptyString]
           end
  end.

End PyMore.

(** ** app.py: the home page *)

Module Pages.
Import Store PyMore.

(** [list(d.values())], the list itself, or no content at all. *)
Definition contents_list (all_contents_raw : contents_raw) : list entry :=
  match all_contents_raw with
  | RawDict d => map snd d
  | RawList l => l
  | RawNone | RawOther => []
  end.

(** The sort key [item.get("Rating", 0)] beside its item.  What is no
    dictionary (the [None] of a hole, a scalar) has no [get]. *)
Definition rating_key (item : entry) : result (content * Q) :=
  match item with
  | Item c => Ok (c, get 0%Q (Rating c))
  | NotADict =>
      Raise (Exn AttributeError "'NoneType' object has no attribute 'get'")
  end.

(** [sorted(l, key=lambda item: item.get("Rating", 0), reverse=True)]:
    the keys of all the elements are computed before any comparison. *)
Definition sorted_by_rating (l : list entry) : result (list content) :=
  (keyed <- mapM rating_key l ;;
   Ok (map fst (sorted Qltb snd true keyed)))%py.

(** A course as the home page shows it: the stored record, with
    [course_id] for the value the handler assigns to ["id"] (it replaces
    an ["id"] of the stored record) and the added [EmbedLink]. *)
Record course_with_id : Type := CourseWithId {
  course_data : content;
  course_id : nat;
  EmbedLink : option string
}.

(** The entries of [data] that the handler computes. *)
Record page_data : Type := PageData {
  data_recommendations : list recommendation;
  data_general_courses : list course_with_id;
  data_total_pages : nat;
  data_current_page : nat;
  data_per_page : nat
}.

(** The body of [for index, course_data in enumerate(paginated_contents)]. *)
Definition with_id (start_index : nat) (ic : nat * content) : course_with_id :=
  let index := fst ic in
  let course_data := snd ic in
  CourseWithId course_data (start_index + index)
    (App.embed_link (App.extract_youtube_id (Link course_data))).

(** The handler of [GET /].  [rt_db] is the database client, if any, with
    what fetching the [contents] node gives; [user] is the session user,
    if any, with what fetching the profile gives.  [page] and [per_page]
    are declared [Query(..., ge=1)]: the framework rejects smaller values
    before the handler runs.  The whole work is inside one [try]; an
    exception leaves the variables as they are at that point. *)
Definition home (rt_db : option (result contents_raw))
    (user : option (result (option profile)))
    (page per_page : positive) : page_data :=
  let current_page := Pos.to_nat page in
  let per_page := Pos.to_nat per_page in
  match rt_db with
  | Some (Ok all_contents_raw) =>
      let all_contents_list := contents_list all_contents_raw in
      let total_courses := List.length all_contents_list in
      let total_pages := ((total_courses + per_page - 1) / per_page)%nat in
      match sorted_by_rating all_contents_list with
      | Ok sorted_contents_list =>
          let start_index := ((current_page - 1) * per_page)%nat in
          let end_index := (start_index + per_page)%nat in
          let paginated_contents :=
            slice sorted_contents_list start_index end_index in
          let general_courses :=
            map (with_id start_index) (enumerate 0 paginated_contents) in
          let recommendations :=
            match user with
            | Some (Ok user_profile) =>
                (* [user_profile or {}]: no profile and the empty
                   profile give no recommendation alike *)
                App.generate_recommendations user_profile all_contents_raw
            | Some (Raise _) | None => []
            end in
          PageData recommendations general_courses total_pages
                   current_page per_page
      | Raise _ => PageData [] [] total_pages current_page per_page
      end
  | Some (Raise _) | None => PageData [] [] 0 current_page per_page
  end.

End Pages.

(** ** app.py: the profile update *)

Module ProfileUpdate.
Import PyMore.

(** An element of a JSON array. *)
Inductive element : Type :=
| EStr (s : string)
| EInt (z : Z)
| EBool (b : bool)
| ENull
| EOther (str : string).   (* a float, an array, an object, with its [str] *)

(** [str(item)]. *)
Definition str (item : element) : string :=
  match item with
  | EStr s => s
  | EInt z => str_int z
  | EBool b => if b then "True" else "False"
  | ENull => "None"
  | EOther s => s
  end.

(** A value of the request body. *)
Inductive value : Type :=
| VStr (s : string)
| VList (l : list element)
| VBool (b : bool)
| VInt (z : Z)
| VNull
| VOther (truth : bool).   (* a float, an object, with its truth value *)

(** [bool(value)]. *)
Definition truth_value (v : value) : bool :=
  match v with
  | VStr s => match s with EmptyString => false | String _ _ => true end
  | VList l => match l with [] => false | _ :: _ => true end
  | VBool b => b
  | VInt z => negb (Z.eqb z 0)
  | VNull => false
  | VOther t => t
  end.

(** What the handler stores under a field. *)
Inductive stored : Type :=
| Tags (l : list string)
| Flag (b : bool)
| Raw (v : value).

Definition allowed_fields : list string :=
  ["Nom"; "title"; "bio"; "linkedin"; "website"; "location";
   "Communautés"; "Compétences"; "Centres_d'Intérêt";
   "notify_email"; "notify_push"; "notify_club"]%string.

Definition list_fields : list string :=
  ["Communautés"; "Compétences"; "Centres_d'Intérêt"]%string.

Definition notify_fields : list string :=
  ["notify_email"; "notify_push"; "notify_club"]%string.

(** [if item.strip()]. *)
Definition nonblank (s : string) : bool :=
  match strip s with EmptyString => false | String _ _ => true end.

(** The value stored for [field] when the body holds [value]. *)
Definition field_value (field : string) (value : value) : stored :=
  if mem field list_fields then
    match value with
    | VStr s => Tags (map strip (filter nonblank (split "," s)))
    | VList l =>
        Tags (map (fun item => strip (str item))
                  (filter (fun item => nonblank (str item)) l))
    | _ => Tags []
    end
  else if mem field notify_fields then Flag (truth_value value)
  else Raw value.

(** One turn of [for field in allowed_fields]. *)
Definition step (profile_data : list (string * value))
    (update_data : list (string * stored)) (field : string)
    : list (string * stored) :=
  match lookup field profile_data with
  | Some value => (update_data ++ [(field, field_value field value)])%list
  | None => update_data
  end.

Definition update_data (profile_data : list (string * value))
    : list (string * stored) :=
  fold_left (step profile_data) allowed_fields [].

Inductive response : Type :=
| JSONResponse (status message : string)
| HTTPException (status_code : nat) (detail : string).

(** The handler of [POST /profile/update].  [rt_db] is the database
    client, if any, as the method [user_ref.update], which may raise.  The
    result is the list of the calls made to that method, with their
    argument, and the response. *)
Definition update_profile
    (rt_db : option (list (string * stored) -> result unit))
    (profile_data : list (string * value))
    : list (list (string * stored)) * response :=
  match rt_db with
  | Some update =>
      let update_data := update_data profile_data in
      match update_data with
      | _ :: _ =>
          match update update_data with
          | Ok _ =>
              ([update_data],
               JSONResponse "ok" "Profile updated successfully")
          | Raise _ =>
              ([update_data], HTTPException 500 "Failed to update profile.")
          end
      | [] => ([], JSONResponse "ok" "No profile fields were updated.")
      end
  | None => ([], HTTPException 503 "Database service unavailable.")
  end.

End ProfileUpdate.

(** ** modules/recommender.py: the rankings by interactions and by
    similarity *)

Module Similar.
Import Evaluation Recommender PyMore.

(** [compute_similarity_matrix(df)]: scikit-learn's [TfidfVectorizer] and
    [cosine_similarity] on the column [combined_features]. *)
Class Sklearn : Type :=
  compute_similarity_matrix : list features -> result (list (list float)).

(** [df.sort_values("Nombre_Interactions", ascending=False)]. *)
Class Pandas : Type := sort_values : list features -> list features.

(** What pandas documents of it: the rows are kept and come from the
    largest value to the smallest; the order of rows of equal value is
    left open (the default sort is not stable). *)
Definition sort_values_contract `{Pandas} : Prop :=
  forall df,
    Permutation (sort_values df) df /\
    StronglySorted
      (fun a b => (Nombre_Interactions (row b)
                   <= Nombre_Interactions (row a))%Z)
      (sort_values df).

Record global_recommendation : Type := GlobalRecommendation {
  g_ID : Z;
  g_Nom : string;
  g_Nombre_Interactions : Z
}.

Definition global_record (f : features) : global_recommendation :=
  GlobalRecommendation (ID_Etudiant (row f)) (Nom (row f))
                       (Nombre_Interactions (row f)).

(** [df] is the module's global table. *)
Definition get_global_recommendations `{Pandas} (df : list features)
    : list global_recommendation :=
  let top_students := firstn 6 (sort_values df) in
  map global_record top_students.

Record user_recommendation : Type := UserRecommendation {
  u_ID : Z;
  u_Nom : string;
  u_Similarity : float
}.

(** [a[i]] on a list, an array or [df.iloc]. *)
Definition at_index {A} (l : list A) (i : nat) : result A :=
  match nth_error l i with
  | Some x => Ok x
  | None => Raise (Exn IndexError "index out of bounds")
  end.

Definition get_user_recommendations `{Builtins} `{Files} `{Sklearn}
    (user_id : Z) (top_n : nat) : result (list user_recommendation) :=
  (df0 <- load_data ;;
   df <- preprocess_features df0 ;;
   cosine_sim <- compute_similarity_matrix df ;;
   let idx_list :=
     map fst (filter (fun ir => Z.eqb (ID_Etudiant (row (snd ir))) user_id)
                     (enumerate 0 df)) in
   match idx_list with
   | [] => Ok []
   | idx :: _ =>
       sim_row <- at_index cosine_sim idx ;;
       let sim_scores := enumerate 0 sim_row in
       let sim_scores := sorted PrimFloat.ltb snd true sim_scores in
       let sim_scores :=
         firstn top_n
           (filter (fun score => negb (Nat.eqb (fst score) idx)) sim_scores) in
       mapM (fun score =>
               student <- at_index df (fst score) ;;
               Ok (UserRecommendation (ID_Etudiant (row student))
                                      (Nom (row student)) (snd score)))
            sim_scores
   end)%py.

(** [updated_df.to_csv(temp_path, index=False)] followed by
    [os.replace(temp_path, final_path)]. *)
Class Disk : Type :=
  to_csv_replace : list student -> string -> string -> result unit.

(** [new_user["ID_Étudiant"] = new_id]. *)
Definition set_ID (new_id : Z) (new_user : student) : student :=
  Student new_id (Nom new_user) (Coequipiers new_user)
          (Communautes new_user) (Competences new_user)
          (Centres_d_Interet new_user) (Travaux_Collaboratifs new_user)
          (Nombre_Interactions new_user).

(** [a + b] on [numpy.int64], the type of the identifiers of the table:
    the sum wraps around at [2^63]. *)
Definition int64_add (a b : Z) : Z :=
  ((a + b + 2 ^ 63) mod 2 ^ 64 - 2 ^ 63)%Z.

(** [global_df["ID_Étudiant"].max()] on a table with a row. *)
Definition max_ID (first : student) (others : list student) : Z :=
  fold_left (fun m s => Z.max m (ID_Etudiant s)) others (ID_Etudiant first).

(** What a call leaves behind: the table it has put in place of the
    dataset file, if it came that far; the values it has assigned to the
    globals [df] and [cosine_sim], if it came that far; the lines printed;
    and the exception it raises again, if any. *)
Record added : Type := Added {
  replaced : option (list student);
  new_df : option (list features);
  new_cosine_sim : option (list (list float));
  printed : list string;
  raised : option exn
}.

Definition add_user_to_dataset `{Builtins} `{Files} `{Sklearn} `{Disk}
    (new_user : student) : added :=
  let failed (replaced : option (list student))
             (new_df : option (list features)) (e : exn) :=
    Added replaced new_df None
          [("Error in add_user_to_dataset: " ++ exn_msg e)%string] (Some e) in
  match load_data with
  | Raise e => failed None None e
  | Ok global_df =>
      let new_id :=
        match global_df with
        | [] => 1%Z
        | first :: others => int64_add (max_ID first others) 1
        end in
      let new_user := set_ID new_id new_user in
      let updated_df := (global_df ++ [new_user])%list in
      let temp_path := "dataset/temp.csv"%string in
      let final_path := "dataset/dataset_etudiants.csv"%string in
      match to_csv_replace updated_df temp_path final_path with
      | Raise e => failed None None e
      | Ok _ =>
          match preprocess_features updated_df with
          | Raise e => failed (Some updated_df) None e
          | Ok df =>
              match compute_similarity_matrix df with
              | Raise e => failed (Some updated_df) (Some df) e
              | Ok cosine_sim =>
                  Added (Some updated_df) (Some df) (Some cosine_sim) [] None
              end
          end
      end
  end.

End Similar.

(** ** More vocabulary and example data *)

Module SpecMore.
Import Evaluation.

(** The cell parses to a value that can be iterated, with these items. *)
Definition cell_items `{Builtins} (c : cell) (items : list pyobj) : Prop :=
  exists v, parse_cell c = Ok v /\ iter v = Ok items.

(** The cell parses to a number or is NaN: a value without a length. *)
Definition cell_unsized `{Builtins} (c : cell) : Prop :=
  exists v, parse_cell c = Ok v /\ (v = ONaN \/ exists z, v = OInt z).

(** The predictions made for a user. *)
Definition predictions_for (user_id : Z) (predictions : list prediction)
    : list prediction :=
  filter (fun p => String.eqb (uid p) (str_int user_id)) predictions.

(** The characters [[^&=%\?]] accepts. *)
Definition id_char (c : ascii) : bool :=
  negb (existsb (Ascii.eqb c) ["&"; "="; "%"; "?"]%char).

Fixpoint all_chars (f : ascii -> bool) (s : string) : bool :=
  match s with
  | EmptyString => true
  | String c s' => f c && all_chars f s'
  end.

(** Some skill or interest of the profile that is a string occurs,
    lower-cased, in the lower-cased category, description or title of the
    course (a missing text counts as empty). *)
Definition mentions (p : Store.profile) (c : Store.content) : Prop :=
  exists tag text,
    In (SStr tag)
       (Store.get [] (Store.Competences p)
        ++ Store.get [] (Store.Centres_d_Interet p)) /\
    In text [Store.get EmptyString (Store.Category c);
             Store.get EmptyString (Store.Description c);
             Store.get EmptyString (Store.Title c)] /\
    contains (lower tag) (lower text) = true.

(** The profile lists [cid] among the courses interacted with: as a
    string, or as an integer or a Boolean that prints as [cid]. *)
Definition interacted (p : Store.profile) (cid : string) : Prop :=
  exists v,
    In v (Store.get [] (Store.Derniers_Cours_Interagis p)) /\
    match v with
    | SStr s => cid = s
    | SInt z => cid = str_int z
    | SBool b => cid = (if b then "True" else "False")%string
    | SFloat _ | SOther => False
    end.

(** No stored course has an ["id"] of its own, and the keys of a
    dictionary catalog are pairwise different. *)
Definition without_own_id (all_contents_raw : Store.contents_raw) : Prop :=
  match all_contents_raw with
  | Store.RawDict d =>
      NoDup (map fst d) /\
      forall k c, In (k, Store.Item c) d -> Store.id c = None
  | Store.RawList l => forall c, In (Store.Item c) l -> Store.id c = None
  | Store.RawNone | Store.RawOther => True
  end.

(** A tag as the profile update stores it: not empty, no white space
    around. *)
Definition tidy (tag : string) : Prop :=
  tag <> EmptyString /\ PyMore.strip tag = tag.




(** [me], at position [idx], is the first row of the table that carries
    the identifier [user_id]. *)
Definition first_row_of (user_id : Z) (df : list Recommender.features)
    (idx : nat) (me : Recommender.features) : Prop :=
  nth_error df idx = Some me /\
  Evaluation.ID_Etudiant (Recommender.row me) = user_id /\
  forall j f,
    (j < idx)%nat -> nth_error df j = Some f ->
    Evaluation.ID_Etudiant (Recommender.row f) <> user_id.


(** Most interactions first. *)
Definition by_interactions (a b : Recommender.features) : Prop :=
  (Evaluation.Nombre_Interactions (Recommender.row b)
   <= Evaluation.Nombre_Interactions (Recommender.row a))%Z.

End SpecMore.

Import SpecMore.

Module MoreExamples.
Import Store RecommendationMethods Evaluation Reference Examples.

(** A dataset whose second student has a quoted string for skills, and
    one whose second student has a number. *)
Definition odd_disk : Files :=
  files
    [("dataset/quoted.csv",
      [row 1 "Ada" "['a', 'b']" 50; row 2 "Bob" "'sql'" 100]);
     ("dataset/number.csv",
      [row 1 "Ada" "['a', 'b']" 50; row 2 "Bob" "7" 100]);
     ("dataset/dataset_etudiants.csv",
      [row 1 "Ada" "['a', 'b']" 50; row 2 "Bob" "[python, 'java'" 100]);
     ("dataset/idle.csv",
      [row 1 "Ada" "[]" 50; row 2 "Bob" "[]" 100])]%string.

(** A user who saved an empty skill. *)
Definition blank_user : profile := member "Blank" [SStr ""].

(** A catalog stored under keys. *)
Definition keyed_courses : contents_raw :=
  RawDict [("c1", Item (course "Intro to Rust" "Systems" 4));
           ("c2", Item (course "Rust in depth" "Systems" 5))]%string.

(** A catalog stored as a list, with the hole of an erased course. *)
Definition sparse_courses : contents_raw :=
  RawList [Item (course "Intro to Rust" "Systems" 4); NotADict].

(** A run whose predicted items read as student identifiers. *)
Definition numeric_run : Surprise :=
  recorded (fun _ _ => Ok five_folds) (fun _ => Ok tt)
           (Ok [Prediction "1" (OStr "2") 4.5; Prediction "1" (OStr "x") 3;
                Prediction "2" (OStr "1") 2]%float).

(** The well-formed dataset once its list columns are parsed. *)
Definition parsed (s : student) (skills : list pyobj) (combined : string)
    : Recommender.features :=
  Recommender.Features s (OList []) (OList []) (OList skills) (OList [])
                       combined.

Definition table : list Recommender.features :=
  [parsed (row 1 "Ada" "['a', 'b']" 50) [OStr "a"; OStr "b"] "a b 0 50";
   parsed (row 2 "Bob" "['x']" 100) [OStr "x"] "x 0 100"]%string.

(** A similarity matrix with 1 on the diagonal and 0.5 elsewhere. *)
Definition half_similar : Similar.Sklearn :=
  fun df =>
    let n := List.length df in
    Ok (map (fun i => map (fun j => if Nat.eqb i j then 1 else 0.5)%float
                          (seq 0 n))
            (seq 0 n)).

(** Sorting by stable insertion. *)
Definition by_insertion : Similar.Pandas :=
  fun df =>
    sorted Z.ltb
      (fun f => Nombre_Interactions (Recommender.row f)) true df.

(** A dataset whose only student has the largest 64-bit identifier. *)
Definition full_disk : Files :=
  files [("dataset/dataset_etudiants.csv",
          [row 9223372036854775807 "Ada" "['a']" 50])]%string.

(** A disk that accepts every write. *)
Definition writable : Similar.Disk := fun _ _ _ => Ok tt.

(** A request body with an allow-listed tag field and a field that is not
    allow-listed. *)
Definition body : list (string * ProfileUpdate.value) :=
  [("Compétences", ProfileUpdate.VStr " python , ,sql ");
   ("Nombre_Interactions", ProfileUpdate.VInt 1000)]%string.

End MoreExamples.

(** * Properties *)

(** ** Lists and the stable sort *)

Section ListFacts.
Context {A : Type}.

Lemma Forall_firstn (P : A -> Prop) (n : nat) (l : list A) :
  Forall P l -> Forall P (firstn n l).
Proof.
  intros H. revert n.
  induction H as [|x l Hx Hl IH]; intros [|n]; simpl; constructor; auto.
Qed.

Lemma StronglySorted_firstn (R : A -> A -> Prop) (n : nat) (l : list A) :
  StronglySorted R l -> StronglySorted R (firstn n l).
Proof.
  revert l. induction n as [|n IH]; intros l H; simpl.
  - constructor.
  - destruct l as [|a l]; [constructor|].
    apply StronglySorted_inv in H. destruct H as [Hs Hf].
    constructor; [now apply IH | now apply Forall_firstn].
Qed.

Lemma StronglySorted_snoc (R : A -> A -> Prop) (l : list A) (a : A) :
  StronglySorted R l -> Forall (fun b => R b a) l ->
  StronglySorted R (l ++ [a]).
Proof.
  induction l as [|b l IH]; intros Hs Hf; simpl.
  - repeat constructor.
  - apply StronglySorted_inv in Hs. destruct Hs as [Hs Hb].
    inversion Hf; subst.
    constructor; [now apply IH|].
    apply Forall_app. split; [assumption | now repeat constructor].
Qed.

Lemma StronglySorted_rev (R : A -> A -> Prop) (l : list A) :
  StronglySorted R l -> StronglySorted (fun a b => R b a) (rev l).
Proof.
  induction 1 as [|a l Hs IH Hf]; simpl.
  - constructor.
  - apply StronglySorted_snoc; [assumption|].
    rewrite Forall_forall in *. intros b Hb. apply Hf. now apply in_rev.
Qed.

(** What a filter keeps of a prefix is a prefix of what it keeps. *)
Lemma filter_firstn_prefix (f : A -> bool) (n : nat) (l : list A) :
  exists rest, filter f l = filter f (firstn n l) ++ rest.
Proof.
  exists (filter f (skipn n l)).
  rewrite <- filter_app. now rewrite firstn_skipn.
Qed.

End ListFacts.

Section SortingFacts.
Variables (A K : Type) (ltb : K -> K -> bool) (key : A -> K).
Variable le : K -> K -> Prop.
Hypothesis ltb_le : forall a b, ltb a b = true -> le a b.
Hypothesis nltb_le : forall a b, ltb a b = false -> le b a.
Hypothesis le_trans : forall a b c, le a b -> le b c -> le a c.

(** A class of keys that compare equal: no two of them are apart. *)
Variable same : K -> bool.
Hypothesis same_not_lt :
  forall a b, same a = true -> same b = true -> ltb a b = false.

Definition ascending (x y : A) : Prop := le (key x) (key y).
Definition descending (x y : A) : Prop := le (key y) (key x).

Lemma insert_Forall (P : A -> Prop) (x : A) (l : list A) :
  P x -> Forall P l -> Forall P (insert ltb key x l).
Proof.
  intros Hx. induction 1 as [|y l Hy Hl IH]; simpl.
  - now repeat constructor.
  - destruct (ltb (key y) (key x)); now repeat constructor.
Qed.

Lemma insert_sorted (x : A) (l : list A) :
  StronglySorted ascending l -> StronglySorted ascending (insert ltb key x l).
Proof.
  induction 1 as [|y l Hs IH Hf]; simpl.
  - repeat constructor.
  - destruct (ltb (key y) (key x)) eqn:E.
    + constructor; [assumption|].
      apply insert_Forall; [now apply ltb_le | assumption].
    + constructor; [now constructor|].
      constructor; [now apply nltb_le|].
      eapply Forall_impl; [|exact Hf].
      intros z Hz. eapply le_trans; [apply nltb_le; exact E | exact Hz].
Qed.

Lemma stable_sort_sorted (l : list A) :
  StronglySorted ascending (stable_sort ltb key l).
Proof.
  induction l as [|x l IH]; simpl; [constructor | now apply insert_sorted].
Qed.

Lemma insert_perm (x : A) (l : list A) :
  Permutation (insert ltb key x l) (x :: l).
Proof.
  induction l as [|y l IH]; simpl; [reflexivity|].
  destruct (ltb (key y) (key x)); [|reflexivity].
  rewrite IH. apply perm_swap.
Qed.

Lemma stable_sort_perm (l : list A) : Permutation (stable_sort ltb key l) l.
Proof.
  induction l as [|x l IH]; simpl; [reflexivity|].
  rewrite insert_perm. now constructor.
Qed.

(** Stability: the elements of one class keep their order. *)
Lemma insert_filter (x : A) (l : list A) :
  filter (fun a => same (key a)) (insert ltb key x l)
  = filter (fun a => same (key a)) (x :: l).
Proof.
  induction l as [|y l IH]; [reflexivity|].
  simpl insert. destruct (ltb (key y) (key x)) eqn:E; [|reflexivity].
  change (filter (fun a => same (key a)) (y :: insert ltb key x l))
    with (if same (key y)
          then y :: filter (fun a => same (key a)) (insert ltb key x l)
          else filter (fun a => same (key a)) (insert ltb key x l)).
  rewrite IH. simpl.
  destruct (same (key y)) eqn:Ey, (same (key x)) eqn:Ex; try reflexivity.
  rewrite (@same_not_lt _ _ Ey Ex) in E. discriminate.
Qed.

Lemma stable_sort_filter (l : list A) :
  filter (fun a => same (key a)) (stable_sort ltb key l)
  = filter (fun a => same (key a)) l.
Proof.
  induction l as [|x l IH]; [reflexivity|].
  simpl stable_sort. rewrite insert_filter. simpl. now rewrite IH.
Qed.

Lemma sorted_reverse_descending (l : list A) :
  StronglySorted descending (sorted ltb key true l).
Proof.
  unfold sorted.
  apply (StronglySorted_rev (R := ascending)), stable_sort_sorted.
Qed.

Lemma sorted_reverse_filter (l : list A) :
  filter (fun a => same (key a)) (sorted ltb key true l)
  = filter (fun a => same (key a)) l.
Proof.
  unfold sorted.
  now rewrite filter_rev, stable_sort_filter, filter_rev, rev_involutive.
Qed.

Lemma sorted_reverse_perm (l : list A) :
  Permutation (sorted ltb key true l) l.
Proof.
  unfold sorted.
  rewrite <- Permutation_rev, stable_sort_perm. symmetry. apply Permutation_rev.
Qed.

End SortingFacts.

(** ** Ratings as sort keys *)

Unset Implicit Arguments.

Lemma Qltb_le (a b : Q) : Qltb a b = true -> (a <= b)%Q.
Proof.
  unfold Qltb. intros H. apply negb_true_iff in H.
  apply Qlt_le_weak, Qnot_le_lt. intros Hle.
  apply Qle_bool_iff in Hle. congruence.
Qed.

Lemma Qltb_ge (a b : Q) : Qltb a b = false -> (b <= a)%Q.
Proof.
  unfold Qltb. intros H. apply negb_false_iff in H. now apply Qle_bool_iff.
Qed.

Lemma Qeq_not_ltb (q a b : Q) :
  Qeq_bool a q = true -> Qeq_bool b q = true -> Qltb a b = false.
Proof.
  intros Ha Hb. apply Qeq_bool_iff in Ha, Hb.
  unfold Qltb. apply negb_false_iff, Qle_bool_iff.
  rewrite Ha, Hb. apply Qle_refl.
Qed.

(** ** The content recommender *)

Section ContentFacts.
Import Store.

Lemma mem_In (x : string) (l : list string) : mem x l = true <-> In x l.
Proof.
  unfold mem. rewrite existsb_exists. split.
  - intros [y [Hy E]]. apply String.eqb_eq in E. now subst.
  - intros H. exists x. split; [assumption | apply String.eqb_refl].
Qed.

Lemma fold_left_step kws interacted l acc :
  fold_left (App.step kws interacted) l acc
  = acc ++ flat_map (select kws interacted) l.
Proof.
  revert acc. induction l as [|it l IH]; intros acc; simpl.
  - now rewrite app_nil_r.
  - rewrite IH. unfold App.step, select.
    destruct (mem (str_ident (fst it)) interacted); [reflexivity|].
    destruct (App.matches kws (snd it)); [|reflexivity].
    now rewrite <- app_assoc.
Qed.

Lemma candidates_flat_map (p : profile) raw :
  is_empty_dict p = false ->
  App.candidates (Some p) raw
  = flat_map (select (App.keywords p) (App.interacted_course_ids p))
             (App.items raw).
Proof.
  intros E. unfold App.candidates. rewrite E. apply fold_left_step.
Qed.

Lemma generate_recommendations_candidates user_profile raw :
  App.generate_recommendations user_profile raw
  = firstn 10 (sorted Qltb rec_Rating true (App.candidates user_profile raw)).
Proof.
  unfold App.generate_recommendations, App.candidates, App.items.
  destruct user_profile as [p|]; [|reflexivity].
  destruct (is_empty_dict p); [reflexivity|].
  destruct raw; reflexivity.
Qed.

Lemma In_firstn {A} (x : A) n l : In x (firstn n l) -> In x l.
Proof.
  intros H. rewrite <- (firstn_skipn n l). apply in_or_app. now left.
Qed.

Lemma generate_recommendations_incl user_profile raw r :
  In r (App.generate_recommendations user_profile raw) ->
  In r (App.candidates user_profile raw).
Proof.
  rewrite generate_recommendations_candidates. intros H.
  apply In_firstn in H.
  eapply Permutation_in; [apply sorted_reverse_perm | exact H].
Qed.

(** Every candidate is the record of a course of the catalog that the
    user has not interacted with and that matches a keyword. *)
Lemma candidates_provenance (p : profile) raw r :
  In r (App.candidates (Some p) raw) ->
  exists it,
    In it (App.items raw) /\
    ~ In (str_ident (fst it)) (App.interacted_course_ids p) /\
    App.matches (App.keywords p) (snd it) = true /\
    r = App.record_of (str_ident (fst it)) (snd it).
Proof.
  destruct (is_empty_dict p) eqn:E.
  - unfold App.candidates. rewrite E. intros [].
  - rewrite (candidates_flat_map p raw E). intros H.
    apply in_flat_map in H. destruct H as [it [Hit Hr]].
    exists it. unfold select in Hr.
    destruct (mem (str_ident (fst it)) (App.interacted_course_ids p)) eqn:Em;
      [destruct Hr|].
    destruct (App.matches (App.keywords p) (snd it)) eqn:Ek; [|destruct Hr].
    destruct Hr as [Hr|[]]. repeat split; auto.
    intros Hin. apply mem_In in Hin. congruence.
Qed.

(** The second implementation returns nothing but the empty list. *)
Lemma foldM_step_acc kws interacted l acc r :
  foldM (RecommendationMethods.step kws interacted) l acc = Ok r -> r = acc.
Proof.
  revert acc. induction l as [|it l IH]; intros acc; simpl.
  - congruence.
  - unfold RecommendationMethods.step at 1.
    destruct (mem (str_ident (fst it)) interacted); simpl; [apply IH|].
    destruct (RecommendationMethods.matches kws (snd it)); simpl;
      [discriminate | apply IH].
Qed.

Lemma methods_generate_recommendations_nil user_profile raw out :
  RecommendationMethods.generate_recommendations user_profile raw = Ok out ->
  out = [].
Proof.
  unfold RecommendationMethods.generate_recommendations.
  destruct user_profile as [p|]; [|congruence].
  destruct (is_empty_dict p); [congruence|].
  assert (G : forall l,
    bind (RecommendationMethods.user_interests_of (get [] (Centres_d_Interet p)))
      (fun user_interests =>
         bind (foldM (RecommendationMethods.step
                        (lower_strs (get [] (Competences p)) ++ user_interests)
                        (str_ids (get [] (Derniers_Cours_Interagis p)))) l [])
              (fun recommendations =>
                 Ok (firstn 10 (sorted Qltb rec_Rating true recommendations))))
    = Ok out -> out = []).
  { intros l.
    destruct (RecommendationMethods.user_interests_of _) as [ui|e]; simpl;
      [|discriminate].
    destruct (foldM _ l []) as [recs|e] eqn:F; simpl; [|discriminate].
    apply foldM_step_acc in F. subst recs. simpl. congruence. }
  destruct raw; try congruence; apply G.
Qed.

Lemma foldM_step_fold_left kws interacted l acc r :
  foldM (RecommendationMethods.step kws interacted) l acc = Ok r ->
  fold_left (App.step kws interacted) l acc = acc.
Proof.
  revert acc. induction l as [|it l IH]; intros acc; simpl; [reflexivity|].
  unfold RecommendationMethods.step at 1. unfold App.step at 2.
  change (RecommendationMethods.matches kws (snd it))
    with (App.matches kws (snd it)).
  destruct (mem (str_ident (fst it)) interacted); simpl; [apply IH|].
  destruct (App.matches kws (snd it)); simpl; [discriminate | apply IH].
Qed.

(** Where the copy returns, it returns what [app.py] returns. *)
Lemma methods_generate_recommendations_refines user_profile raw out :
  RecommendationMethods.generate_recommendations user_profile raw = Ok out ->
  App.generate_recommendations user_profile raw = out.
Proof.
  intros E. rewrite (methods_generate_recommendations_nil _ _ _ E).
  revert E.
  unfold RecommendationMethods.generate_recommendations,
         App.generate_recommendations, App.keywords,
         App.interacted_course_ids.
  destruct user_profile as [p|]; [|reflexivity].
  destruct (is_empty_dict p); [reflexivity|].
  destruct (get [] (Centres_d_Interet p)) as [|i l]; simpl;
    [|destruct raw; [reflexivity | discriminate | discriminate | reflexivity]].
  destruct raw as [|d|l|]; try reflexivity.
  - destruct (foldM _ (dict_items d) []) as [r|e] eqn:F; simpl;
      [|discriminate].
    intros _. now rewrite (foldM_step_fold_left _ _ _ _ _ F).
  - destruct (foldM _ (list_items 0 l) []) as [r|e] eqn:F; simpl;
      [|discriminate].
    intros _. now rewrite (foldM_step_fold_left _ _ _ _ _ F).
Qed.

(** C4: the output of [generate_recommendations] is sorted by [Rating],
    highest first, a missing [Rating] counting as 0 (each record is the
    record of a course, whose rating is the course's or 0); records of
    equal rating keep the order the catalog gave them (those of any one
    rating are a prefix of the candidates of that rating); and there are
    at most 10.  The copy in [recommendation_methods.py] satisfies the
    same whenever it returns. *)
Theorem generate_recommendations_sorted_top10
    (user_profile : option profile) (all_contents_raw : contents_raw) :
  let out := App.generate_recommendations user_profile all_contents_raw in
  (List.length out <= 10)%nat /\
  StronglySorted rating_order out /\
  (forall q, exists rest,
      filter (rated q) (App.candidates user_profile all_contents_raw)
      = filter (rated q) out ++ rest) /\
  Forall (fun r => exists it,
            In it (App.items all_contents_raw) /\
            rec_Rating r = get 0%Q (Rating (snd it))) out /\
  match RecommendationMethods.generate_recommendations
          user_profile all_contents_raw with
  | Ok out' => (List.length out' <= 10)%nat /\ StronglySorted rating_order out'
  | Raise _ => True
  end.
Proof.
  cbv zeta. repeat split.
  - rewrite generate_recommendations_candidates. apply firstn_le_length.
  - rewrite generate_recommendations_candidates.
    apply StronglySorted_firstn.
    apply (sorted_reverse_descending Qltb rec_Rating Qle Qltb_le Qltb_ge Qle_trans).
  - intros q. rewrite generate_recommendations_candidates.
    destruct (filter_firstn_prefix (rated q) 10
                (sorted Qltb rec_Rating true
                   (App.candidates user_profile all_contents_raw)))
      as [rest Hrest].
    exists rest. rewrite <- Hrest. symmetry.
    apply (sorted_reverse_filter Qltb rec_Rating (fun k => Qeq_bool k q)).
    intros a b. apply Qeq_not_ltb.
  - apply Forall_forall. intros r Hr.
    apply generate_recommendations_incl in Hr.
    destruct user_profile as [p|]; [|destruct Hr].
    apply candidates_provenance in Hr.
    destruct Hr as [it [Hit [_ [_ ->]]]]. now exists it.
  - destruct (RecommendationMethods.generate_recommendations _ _)
      as [out'|e] eqn:E; [|exact I].
    apply methods_generate_recommendations_nil in E. subst out'.
    split; [simpl; lia | constructor].
Qed.

(** The identifiers of a catalog: for each course its own ["id"] when it
    has one, else its key in a dictionary, its position in a list. *)
Lemma dict_items_In (d : list (string * entry)) (it : ident * content) :
  In it (dict_items d) <->
  exists k, In (k, Item (snd it)) d /\ fst it = attach (Key k) (snd it).
Proof.
  destruct it as [a c]. simpl.
  induction d as [|[k' [c'|]] d IH]; simpl.
  - split; [tauto | intros [k [[] _]]].
  - rewrite IH. split.
    + intros [E|[k [Hin Ha]]].
      * injection E as <- <-. exists k'. split; [now left | reflexivity].
      * exists k. split; [now right | exact Ha].
    + intros [k [[E|Hin] Ha]].
      * injection E as <- <-. left. now rewrite Ha.
      * right. now exists k.
  - rewrite IH. split.
    + intros [k [Hin Ha]]. exists k. split; [now right | exact Ha].
    + intros [k [[E|Hin] Ha]]; [discriminate | now exists k].
Qed.

Lemma list_items_In (l : list entry) (n : nat) (it : ident * content) :
  In it (list_items n l) <->
  exists i, (n <= i)%nat /\ nth_error l (i - n) = Some (Item (snd it)) /\
            fst it = attach (Index i) (snd it).
Proof.
  destruct it as [a c]. simpl.
  revert n. induction l as [|[c'|] l IH]; intros n; simpl.
  - split; [tauto | intros [i [_ [E _]]]; now destruct (i - n)%nat].
  - rewrite IH. split.
    + intros [E|[i [Hle [E Ha]]]].
      * injection E as <- <-. exists n. rewrite Nat.sub_diag. auto.
      * exists i. split; [lia|]. split; [|exact Ha].
        replace (i - n)%nat with (S (i - S n)) by lia. exact E.
    + intros [i [Hle [E Ha]]]. destruct (i - n)%nat as [|j] eqn:D.
      * left. injection E as <-. rewrite Ha.
        now replace i with n by lia.
      * right. exists i. split; [lia|]. split; [|exact Ha].
        now replace (i - S n)%nat with j by lia.
  - rewrite IH. split.
    + intros [i [Hle [E Ha]]]. exists i. split; [lia|]. split; [|exact Ha].
      replace (i - n)%nat with (S (i - S n)) by lia. exact E.
    + intros [i [Hle [E Ha]]].
      destruct (i - n)%nat as [|j] eqn:D; [discriminate|].
      exists i. split; [lia|]. split; [|exact Ha].
      now replace (i - S n)%nat with j by lia.
Qed.

Lemma str_ident_attach (default : ident) (c : content) :
  str_ident (attach default c) = identifier default c.
Proof. unfold attach, identifier. now destruct (id c). Qed.

Lemma items_stored (all_contents_raw : contents_raw) (it : ident * content) :
  In it (App.items all_contents_raw) <->
  exists default,
    stored_under all_contents_raw default (snd it) /\
    fst it = attach default (snd it).
Proof.
  destruct all_contents_raw as [|d|l|]; simpl.
  - split; [tauto | now intros [? [[] _]]].
  - rewrite dict_items_In. split.
    + intros [k [Hin E]]. exists (Key k). split; [now exists k | exact E].
    + intros [default [[k [-> Hin]] E]]. now exists k.
  - rewrite list_items_In. split.
    + intros [i [_ [Hn E]]]. rewrite Nat.sub_0_r in Hn.
      exists (Index i). split; [now exists i | exact E].
    + intros [default [[i [-> Hn]] E]]. exists i.
      rewrite Nat.sub_0_r. split; [lia | now split].
  - split; [tauto | now intros [? [[] _]]].
Qed.


End ContentFacts.

(** ** The peer recommender *)

Section PeerFacts.
Import Store RecommendationMethods.
Context `{NearestNeighbors}.

(** The query handed to the index has three dimensions. *)
Lemma query_ndim (v : list Z) :
  ndim (array_of_singleton (reshape_1_m1 v)) = 3%nat.
Proof. reflexivity. Qed.

Lemma kneighbors_rejects_query (nn : nn_index) (v : list Z) :
  exists e, kneighbors nn (array_of_singleton (reshape_1_m1 v)) = Raise e
            /\ exn_kind_of e = ValueError.
Proof. eexists. split; reflexivity. Qed.

(** Every path through [KNN_similarity] ends in the empty list. *)
Lemma KNN_similarity_nil (rt_db : users_node) (current_user_id : string)
    (num_recommendations : Z) :
  KNN_similarity rt_db current_user_id num_recommendations = [].
Proof.
  unfold KNN_similarity.
  destruct (get_all_users_for_recommendation rt_db) as [|u0 us];
    [reflexivity|].
  destruct (filter _ (u0 :: us)); [reflexivity|].
  destruct (lookup current_user_id (u0 :: us)) as [cur|]; [|reflexivity].
  destruct (is_empty_dict cur); [reflexivity|].
  destruct (sorted_set _); [reflexivity|].
  destruct (lookup current_user_id (map _ (u0 :: us))) as [v|]; [|reflexivity].
  match goal with |- (if ?c then _ else _) = _ => destruct c end;
    [reflexivity|].
  destruct (nn_fit _ _) as [nn|e]; reflexivity.
Qed.

End PeerFacts.

(** ** Profiles without tags *)

Section EmptyProfiles.
Import Store RecommendationMethods.

Lemma matches_nil (c : content) : App.matches [] c = false.
Proof. reflexivity. Qed.

Lemma fold_left_step_no_keyword interacted l acc :
  fold_left (App.step [] interacted) l acc = acc.
Proof.
  revert acc. induction l as [|it l IH]; intros acc; simpl; [reflexivity|].
  rewrite IH. unfold App.step.
  now destruct (mem (str_ident (fst it)) interacted).
Qed.

Lemma foldM_step_no_keyword interacted l acc :
  foldM (RecommendationMethods.step [] interacted) l acc = Ok acc.
Proof.
  revert acc. induction l as [|it l IH]; intros acc; simpl; [reflexivity|].
  unfold RecommendationMethods.step at 1.
  destruct (mem (str_ident (fst it)) interacted); simpl; apply IH.
Qed.

(** C6: for a profile whose skills, interests and communities are all
    empty, the content recommender (either implementation) returns the
    empty sequence on every catalog, and the peer recommender returns the
    empty sequence on every population of users that stores the profile. *)
Theorem no_tags_no_recommendations `{NearestNeighbors} (p : profile) :
  no_tags p ->
  (forall all_contents_raw,
     App.generate_recommendations (Some p) all_contents_raw = []) /\
  (forall all_contents_raw,
     RecommendationMethods.generate_recommendations (Some p) all_contents_raw
     = Ok []) /\
  (forall users current_user_id num_recommendations,
     lookup current_user_id users = Some p ->
     KNN_similarity (UsersDict users) current_user_id num_recommendations
     = []).
Proof.
  intros [Hs [Hi Hc]]. repeat split.
  - intros raw. unfold App.generate_recommendations, App.keywords.
    destruct (is_empty_dict p); [reflexivity|].
    rewrite Hs, Hi. simpl.
    destruct raw; try reflexivity; now rewrite fold_left_step_no_keyword.
  - intros raw. unfold RecommendationMethods.generate_recommendations.
    destruct (is_empty_dict p); [reflexivity|].
    rewrite Hs, Hi. simpl.
    destruct raw; try reflexivity; now rewrite foldM_step_no_keyword.
  - intros users uid k _. apply KNN_similarity_nil.
Qed.

End EmptyProfiles.

(** ** Concrete runs *)

Section ConcreteRuns.
Import Store RecommendationMethods Reference Examples.

(** C3: the target [u1] has a stored profile and two candidates, and the
    vocabulary is not empty, so [min 5 2 = 2] peers are due, [u2] (the
    same skill) before [u3];
    a query of the right shape gives the index exactly that answer, but
    [KNN_similarity] wraps the reshaped vector in a list, the index
    rejects the 3-dimensional query, and the handler returns the empty
    list. *)
Example KNN_similarity_finds_no_peer :
  lookup "u1"%string three_users = Some (member "Ada" [SStr "Python"]) /\
  map (fun u => vectorize_user_profile (snd u) ["java"; "python"]%string)
      three_users
  = [[0; 1]; [0; 1]; [1; 0]]%Z /\
  bind (nn_fit 2 [[0; 1]; [1; 0]]%Z)
       (fun nn => kneighbors nn (reshape_1_m1 [0; 1]%Z))
  = Ok [[0; 1]%nat] /\
  KNN_similarity (UsersDict three_users) "u1" 5 = [].
Proof. repeat split; vm_compute; reflexivity. Qed.

(** C10: on the round-trip catalog the implementation of [app.py] returns
    the course on Rust, the copy in [recommendation_methods.py] raises
    [NameError] at its call of [extract_youtube_id]. *)
Example generate_recommendations_copies_differ :
  App.generate_recommendations (Some rust_user) two_courses
  = [App.record_of "0" (course "Intro to Rust" "Systems" 4)] /\
  RecommendationMethods.generate_recommendations (Some rust_user) two_courses
  = Raise (unbound "extract_youtube_id").
Proof. split; vm_compute; reflexivity. Qed.



(** A profile as the first sign-in creates it has no tags. *)
Lemma no_tags_no_recommendations_new_user :
  (forall all_contents_raw,
     App.generate_recommendations (Some new_user) all_contents_raw = []) /\
  (forall all_contents_raw,
     RecommendationMethods.generate_recommendations
       (Some new_user) all_contents_raw = Ok []) /\
  (forall users current_user_id num_recommendations,
     lookup current_user_id users = Some new_user ->
     KNN_similarity (UsersDict users) current_user_id num_recommendations
     = []).
Proof.
  apply (no_tags_no_recommendations new_user).
  repeat split; reflexivity.
Defined.

End ConcreteRuns.

(** ** The ratings builder and the evaluator *)

Section MonadFacts.

Lemma io_bind_ok {A B} (out : list string) (a : A) (f : A -> io B) :
  io_bind (out, Ok a) f = ((out ++ stdout (f a))%list, outcome (f a)).
Proof. unfold io_bind, stdout, outcome. now destruct (f a). Qed.

Lemma io_bind_outcome_ok {A B} (m : io A) (a : A) (f : A -> io B) :
  outcome m = Ok a -> outcome (io_bind m f) = outcome (f a).
Proof.
  destruct m as [out [a'|e]]; simpl; intros E; [|discriminate].
  injection E as ->. now destruct (f a).
Qed.

Lemma io_bind_outcome_raise {A B} (m : io A) (e : exn) (f : A -> io B) :
  outcome m = Raise e -> outcome (io_bind m f) = Raise e.
Proof. destruct m as [out [a|e']]; simpl; congruence. Qed.

(** A handler that prints one line and returns a value. *)
Lemma try_except_print {A} (m : io A) (prefix : string) (g : exn -> A) :
  try_except m (fun e => io_bind (print (prefix ++ exn_msg e)%string)
                                 (fun _ => ret (g e)))
  = match outcome m with
    | Ok a => (stdout m, Ok a)
    | Raise e => ((stdout m ++ [(prefix ++ exn_msg e)%string])%list, Ok (g e))
    end.
Proof. destruct m as [out [a|e]]; reflexivity. Qed.

Lemma mapM_raises {A B} (f : A -> result B) (l : list A) (x : A) (e : exn) :
  In x l -> f x = Raise e ->
  exists y e', In y l /\ f y = Raise e' /\ mapM f l = Raise e'.
Proof.
  induction l as [|a l IH]; intros Hin Hx; [destruct Hin|].
  simpl. destruct (f a) as [b|e0] eqn:Ea.
  - destruct Hin as [->|Hin]; [congruence|].
    destruct (IH Hin Hx) as [y [e' [Hy [Hfy Hm]]]].
    exists y, e'. repeat split; [now right | assumption |].
    simpl. now rewrite Hm.
  - exists a, e0. repeat split; [now left | assumption].
Qed.

End MonadFacts.

Section RatingsFacts.
Import Evaluation.
Context `{Builtins} `{Files}.

Lemma fold_left_append {A B} (g : A -> B) (l : list A) (acc : list B) :
  fold_left (fun acc x => acc ++ [g x]) l acc = (acc ++ map g l)%list.
Proof.
  revert acc. induction l as [|x l IH]; intros acc; simpl.
  - now rewrite app_nil_r.
  - rewrite IH. now rewrite <- app_assoc.
Qed.

Lemma row_ratings_list ratings (s : student) (skills : list pyobj) :
  row_ratings ratings (s, OList skills)
  = Ok (ratings ++ student_ratings s skills)%list.
Proof.
  unfold row_ratings, student_ratings. simpl.
  now rewrite (fold_left_append
                 (fun c => (str_int (ID_Etudiant s), c,
                            normalized_score (Nombre_Interactions s)
                              (List.length skills)))).
Qed.

Lemma mapM_parse_cells df skills :
  skills_are df skills ->
  mapM parse_cell (map Competences df) = Ok (map OList skills).
Proof.
  induction 1 as [|s l df skills Hs _ IH]; simpl; [reflexivity|].
  now rewrite Hs, IH.
Qed.

Lemma foldM_row_ratings df skills acc :
  List.length df = List.length skills ->
  foldM row_ratings (combine df (map OList skills)) acc
  = Ok (acc ++ flat_map (fun sl => student_ratings (fst sl) (snd sl))
                        (combine df skills))%list.
Proof.
  revert skills acc. induction df as [|s df IH]; intros [|l skills] acc Hlen;
    simpl in Hlen; try discriminate.
  - simpl. now rewrite app_nil_r.
  - cbn [combine map foldM flat_map fst snd].
    rewrite row_ratings_list. cbn [bind]. rewrite IH by congruence.
    now rewrite <- app_assoc.
Qed.

(** The score the code computes is the score of the specification. *)
Lemma normalized_score_score (num_interactions : Z) (n_competences : nat) :
  normalized_score num_interactions n_competences
  = score num_interactions n_competences.
Proof. reflexivity. Qed.

Lemma student_ratings_skill_rows (s : student) (skills : list pyobj) :
  student_ratings s skills = skill_rows s skills.
Proof.
  unfold student_ratings, skill_rows. apply map_ext. intros skill.
  now rewrite normalized_score_score.
Qed.

(** C1: when every record's skills parse to a list, the ratings table has,
    record after record, one row per skill of the record, all rows of a
    record with the score [min(interactions/100*5, 5) * (1 + skillCount/10)].
    50 interactions and two skills score 3.0, 100 interactions and one
    skill score 5.5; above 100 interactions the first factor stays 5:
    200 interactions and one skill score 5.5, 1000 interactions and two
    skills score 6.0. *)
Theorem create_ratings_df_one_row_per_skill
    (csv_path : string) (df : list student) (skills : list (list pyobj)) :
  read_csv csv_path = Ok df ->
  skills_are df skills ->
  create_ratings_df csv_path
  = ([], Ok (DataFrame ratings_columns
               (flat_map (fun sl => skill_rows (fst sl) (snd sl))
                         (combine df skills)))) /\
  score 50 2 = 3%float /\
  score 100 1 = 5.5%float /\
  score 200 1 = 5.5%float /\
  score 1000 2 = 6%float.
Proof.
  intros Hread Hskills. split; [|repeat split; vm_compute; reflexivity].
  unfold create_ratings_df. rewrite Hread. unfold lift at 1.
  rewrite io_bind_ok. rewrite (mapM_parse_cells _ _ Hskills).
  rewrite foldM_row_ratings by (eapply Forall2_length; eassumption).
  rewrite (flat_map_ext _ _ (fun sl => student_ratings_skill_rows (fst sl) (snd sl))).
  reflexivity.
Qed.

Lemma create_ratings_df_columns (csv_path : string) (ratings_df : dataframe) :
  outcome (create_ratings_df csv_path) = Ok ratings_df ->
  empty ratings_df = false ->
  columns ratings_df = ratings_columns.
Proof.
  unfold create_ratings_df.
  destruct (read_csv csv_path) as [df|e]; [|discriminate].
  unfold lift at 1. rewrite io_bind_ok.
  destruct (mapM parse_cell (map Competences df)) as [parsed|e].
  - destruct (foldM row_ratings (combine df parsed) []) as [ratings|e];
      simpl; [|discriminate].
    intros [= <-]. reflexivity.
  - simpl. intros [= <-]. discriminate.
Qed.

Context `{Surprise}.

(** The parse of the column stops at the first cell that raises. *)
Lemma mapM_parse_first_raise (df : list student) (s : student) (e : exn) :
  In s df ->
  parse_cell (Competences s) = Raise e ->
  exists s' e',
    first_parse_error df s' e' /\
    mapM parse_cell (map Competences df) = Raise e'.
Proof.
  induction df as [|a df IH]; intros Hin Hs; [destruct Hin|].
  simpl. destruct (parse_cell (Competences a)) as [v|e0] eqn:Ea.
  - destruct Hin as [->|Hin]; [congruence|].
    destruct (IH Hin Hs) as [s' [e' [[before [after [-> [Hb Hp]]]] Hm]]].
    exists s', e'. split.
    + exists (a :: before), after. split; [reflexivity|].
      split; [constructor; [now exists v | exact Hb] | exact Hp].
    + simpl. now rewrite Hm.
  - exists a, e0. split; [|reflexivity].
    exists [], df. split; [reflexivity|]. split; [constructor | exact Ea].
Qed.

(** C2, as the code has it: when the skills cell of some record does not
    parse, [create_ratings_df] prints the parse error of the first such
    record and returns the table without columns and rows (no row of any
    record, and no exception); [evaluate_surprise_models] then reports
    that no ratings are available. *)
Theorem create_ratings_df_parse_error_empty
    (csv_path : string) (df : list student) (s : student) (e : exn) :
  read_csv csv_path = Ok df ->
  In s df ->
  parse_cell (Competences s) = Raise e ->
  exists s' e',
    first_parse_error df s' e' /\
    create_ratings_df csv_path
    = (["Error parsing 'Compétences' column: " ++ exn_msg e']%string,
       Ok (DataFrame [] [])) /\
    evaluate_surprise_models csv_path
    = (["Error parsing 'Compétences' column: " ++ exn_msg e']%string,
       Ok (ReportError "No valid ratings data available")).
Proof.
  intros Hread Hin Hs.
  destruct (mapM_parse_first_raise df s e Hin Hs) as [s' [e' [Hfirst Hm]]].
  exists s', e'. split; [assumption|].
  assert (Hc : create_ratings_df csv_path
               = (["Error parsing 'Compétences' column: " ++ exn_msg e']%string,
                  Ok (DataFrame [] []))).
  { unfold create_ratings_df. rewrite Hread. unfold lift at 1.
    rewrite io_bind_ok, Hm. reflexivity. }
  split; [exact Hc|].
  unfold evaluate_surprise_models, evaluate_body. rewrite Hc. reflexivity.
Qed.

Lemma mean2_five (xs : list float) :
  List.length xs = 5%nat -> mean2 xs = Ok (mean_of_folds xs).
Proof.
  destruct xs as [|x xs]; [discriminate|]. intros Hlen.
  unfold mean2, mean_of_folds. rewrite Hlen. reflexivity.
Qed.

(** C7, as the code has it: [evaluate_surprise_models] never raises; on an
    empty ratings table it returns the error object; on a non-empty one,
    when the two cross-validations over 5 folds return their five scores
    per measure, it returns for KNN and for SVD the rounded means of RMSE
    and MAE, and when one of them raises it returns the error object of
    the exception. *)
Theorem evaluate_surprise_models_report (csv_path : string) :
  (exists r, outcome (evaluate_surprise_models csv_path) = Ok r) /\
  (forall ratings_df,
     outcome (create_ratings_df csv_path) = Ok ratings_df ->
     empty ratings_df = true ->
     outcome (evaluate_surprise_models csv_path)
     = Ok (ReportError "No valid ratings data available")) /\
  (forall ratings_df knn svd,
     outcome (create_ratings_df csv_path) = Ok ratings_df ->
     empty ratings_df = false ->
     cross_validate KNNBasic (rows ratings_df) 5 = Ok knn ->
     cross_validate SVD (rows ratings_df) 5 = Ok svd ->
     Forall (fun xs => List.length xs = 5%nat)
            [test_rmse knn; test_mae knn; test_rmse svd; test_mae svd] ->
     outcome (evaluate_surprise_models csv_path)
     = Ok (Report
             (Metrics (mean_of_folds (test_rmse knn))
                      (mean_of_folds (test_mae knn)))
             (Metrics (mean_of_folds (test_rmse svd))
                      (mean_of_folds (test_mae svd))))) /\
  (forall ratings_df e,
     outcome (create_ratings_df csv_path) = Ok ratings_df ->
     empty ratings_df = false ->
     cross_validate KNNBasic (rows ratings_df) 5 = Raise e ->
     outcome (evaluate_surprise_models csv_path)
     = Ok (ReportError (exn_msg e))) /\
  (forall ratings_df knn e,
     outcome (create_ratings_df csv_path) = Ok ratings_df ->
     empty ratings_df = false ->
     cross_validate KNNBasic (rows ratings_df) 5 = Ok knn ->
     cross_validate SVD (rows ratings_df) 5 = Raise e ->
     outcome (evaluate_surprise_models csv_path)
     = Ok (ReportError (exn_msg e))).
Proof.
  unfold evaluate_surprise_models.
  rewrite (try_except_print (evaluate_body csv_path)
             "Error in evaluate_surprise_models: "
             (fun e => ReportError (exn_msg e))).
  unfold evaluate_body.
  split; [|split; [|split; [|split]]].
  - destruct (outcome (io_bind (create_ratings_df csv_path) _));
      eexists; reflexivity.
  - intros ratings_df Hc He.
    rewrite (io_bind_outcome_ok _ _ _ Hc), He. reflexivity.
  - intros ratings_df knn svd Hc He Hk Hs Hf.
    rewrite (io_bind_outcome_ok _ _ _ Hc), He.
    unfold load_from_df.
    rewrite (create_ratings_df_columns _ _ Hc He). simpl forallb. cbv iota.
    unfold lift. rewrite !io_bind_ok. rewrite Hk. rewrite !io_bind_ok.
    rewrite Hs. rewrite !io_bind_ok.
    inversion Hf as [|? ? L1 Hf1]; subst.
    inversion Hf1 as [|? ? L2 Hf2]; subst.
    inversion Hf2 as [|? ? L3 Hf3]; subst.
    inversion Hf3 as [|? ? L4 _]; subst.
    rewrite (mean2_five _ L1), (mean2_five _ L2),
            (mean2_five _ L3), (mean2_five _ L4).
    reflexivity.
  - intros ratings_df e Hc He Hk.
    rewrite (io_bind_outcome_ok _ _ _ Hc), He.
    unfold load_from_df.
    rewrite (create_ratings_df_columns _ _ Hc He). simpl forallb. cbv iota.
    unfold lift. rewrite !io_bind_ok. rewrite Hk. reflexivity.
  - intros ratings_df knn e Hc He Hk Hs.
    rewrite (io_bind_outcome_ok _ _ _ Hc), He.
    unfold load_from_df.
    rewrite (create_ratings_df_columns _ _ Hc He). simpl forallb. cbv iota.
    unfold lift. rewrite !io_bind_ok. rewrite Hk. rewrite !io_bind_ok.
    rewrite Hs. reflexivity.
Qed.

End RatingsFacts.

(** ** Collaborative filtering *)

Section CollaborativeFacts.
Import Evaluation Recommender.
Context `{Builtins} `{Files} `{Surprise}.

Lemma knn_body_raises (user_id : Z) (top_n : nat) (e : exn) :
  raised_in_training_or_prediction train_knn_model e ->
  outcome (knn_body user_id top_n) = Raise e.
Proof.
  unfold knn_body. intros [Ht|[tm [Ht Hp]]].
  - now apply io_bind_outcome_raise.
  - rewrite (io_bind_outcome_ok _ _ _ Ht), Hp. reflexivity.
Qed.

Lemma svd_body_raises df (user_id : Z) (top_n : nat) (e : exn) :
  raised_in_training_or_prediction train_svd_model e ->
  outcome (svd_body df user_id top_n) = Raise e.
Proof.
  unfold svd_body. intros [Ht|[tm [Ht Hp]]].
  - now apply io_bind_outcome_raise.
  - rewrite (io_bind_outcome_ok _ _ _ Ht), Hp. reflexivity.
Qed.

Lemma caught {A} (body : io (list A)) (prefix : string) (e : exn) :
  outcome body = Raise e ->
  degraded (try_except body
              (fun e => io_bind (print (prefix ++ exn_msg e)%string)
                                (fun _ => ret [])))
           (prefix ++ exn_msg e)%string.
Proof.
  intros Hb. rewrite (try_except_print body prefix (fun _ => [])), Hb.
  split; [reflexivity | now exists (stdout body)].
Qed.

Lemma never_raises {A} (body : io (list A)) (prefix : string) :
  exists recs,
    outcome (try_except body
               (fun e => io_bind (print (prefix ++ exn_msg e)%string)
                                 (fun _ => ret [])))
    = Ok recs.
Proof.
  rewrite (try_except_print body prefix (fun _ => [])).
  destruct (outcome body); eexists; reflexivity.
Qed.

(** C8: an exception raised while training or predicting inside
    [get_knn_recommendations] or [get_svd_recommendations] is caught: the
    call prints the error and returns the empty list; and whatever
    happens inside, neither function raises. *)
Theorem cf_recommendations_degrade_to_empty
    (df : list features) (user_id : Z) (top_n : nat) :
  (forall e, raised_in_training_or_prediction train_knn_model e ->
     degraded (get_knn_recommendations user_id top_n)
              ("KNN Error: " ++ exn_msg e)) /\
  (forall e, raised_in_training_or_prediction train_svd_model e ->
     degraded (get_svd_recommendations df user_id top_n)
              ("SVD Error: " ++ exn_msg e)) /\
  (exists recs, outcome (get_knn_recommendations user_id top_n) = Ok recs) /\
  (exists recs, outcome (get_svd_recommendations df user_id top_n) = Ok recs).
Proof.
  split; [|split; [|split]].
  - intros e He. apply caught. now apply knn_body_raises.
  - intros e He. apply caught. now apply svd_body_raises.
  - apply never_raises.
  - apply never_raises.
Qed.

End CollaborativeFacts.

(** ** The video-link normalizer *)

Section RegexFacts.
Import Re.

(** The rounds given to [r+] suffice: any larger number of rounds gives
    the same result, so a failure is never a lack of rounds. *)
Lemma plus_loop_fuel (m : string -> groups -> cont -> option groups)
    (k : cont) (fuel1 fuel2 : nat) (s : string) (g : groups) :
  (String.length s < fuel1)%nat -> (String.length s < fuel2)%nat ->
  plus_loop m k fuel1 s g = plus_loop m k fuel2 s g.
Proof.
  revert fuel2 s g.
  induction fuel1 as [|fuel1 IH]; intros [|fuel2] s g H1 H2; try lia.
  simpl. f_equal.
  apply functional_extensionality. intros s'.
  apply functional_extensionality. intros g'.
  destruct (String.length s' <? String.length s)%nat eqn:E; [|reflexivity].
  apply Nat.ltb_lt in E. rewrite (IH fuel2 s' g') by lia. reflexivity.
Qed.

Lemma orelse_Some {A} (a b : option A) (x : A) :
  orelse a b = Some x -> a = Some x \/ b = Some x.
Proof. destruct a; simpl; auto. Qed.

Lemma plus_loop_through m k fuel :
  through m ->
  forall s g res, plus_loop m k fuel s g = Some res ->
  exists s' g', k s' g' = Some res.
Proof.
  intros Hm. induction fuel as [|fuel IH]; intros s g res; simpl.
  - discriminate.
  - intros E. apply Hm in E. destruct E as [s' [g' E]].
    destruct (String.length s' <? String.length s)%nat; [|eauto].
    apply orelse_Some in E. destruct E as [E|E]; eauto.
Qed.

Lemma rmatch_through (r : regex) : through (rmatch r).
Proof.
  induction r as [|c| |cs|r1 IH1 r2 IH2|r1 IH1 r2 IH2|r1 IH1|r1 IH1|n r1 IH1];
    intros s g k res; simpl.
  - eauto.
  - destruct s as [|a s]; [discriminate|].
    destruct (Ascii.eqb a c); [eauto | discriminate].
  - destruct s as [|a s]; [discriminate|].
    destruct (Ascii.eqb a "010"); [discriminate | eauto].
  - destruct s as [|a s]; [discriminate|].
    destruct (existsb (Ascii.eqb a) cs); [discriminate | eauto].
  - intros E. apply IH1 in E. destruct E as [s' [g' E]]. now apply IH2 in E.
  - intros E. apply orelse_Some in E. destruct E as [E|E]; eauto.
  - intros E. apply orelse_Some in E. destruct E as [E|E]; eauto.
  - intros E.
    exact (plus_loop_through (rmatch r1) k (S (String.length s)) IH1 s g res E).
  - intros E. apply IH1 in E. destruct E as [s' [g' E]]. eauto.
Qed.

(** [r{n}] of a character class consumes exactly [n] characters and
    captures nothing. *)
Lemma rmatch_Rep_NoneOf (cs : list ascii) (n : nat) s g k res :
  rmatch (Rep n (NoneOf cs)) s g k = Some res ->
  exists s', String.length s = (n + String.length s')%nat /\
             k s' g = Some res.
Proof.
  revert s. induction n as [|n IH]; intros s; simpl.
  - intros E. now exists s.
  - destruct s as [|a s]; [discriminate|].
    destruct (existsb (Ascii.eqb a) cs); [discriminate|].
    intros E. apply IH in E. destruct E as [s' [Hl E]].
    exists s'. split; [simpl; lia | exact E].
Qed.

Lemma length_substring_0 (n : nat) (s : string) :
  (n <= String.length s)%nat -> String.length (String.substring 0 n s) = n.
Proof.
  revert s. induction n as [|n IH]; intros [|a s] H; simpl in *;
    try reflexivity; try lia.
  rewrite IH by lia. reflexivity.
Qed.

Lemma group_set_group n s g : group n (set_group n s g) = Some s.
Proof. unfold set_group. simpl. now rewrite Nat.eqb_refl. Qed.

Lemma rmatch_Seq_second r1 r2 s g k res :
  rmatch (Seq r1 r2) s g k = Some res ->
  exists s' g', rmatch r2 s' g' k = Some res.
Proof.
  change (rmatch (Seq r1 r2) s g k)
    with (rmatch r1 s g (fun s' g' => rmatch r2 s' g' k)).
  apply rmatch_through.
Qed.

Lemma rmatch_Group n r s g k :
  rmatch (Group n r) s g k
  = rmatch r s g (fun s' g' => k s' (set_group n (consumed s s') g')).
Proof. reflexivity. Qed.

(** An identifier that [extract_youtube_id] returns has 11 characters. *)
Lemma extract_youtube_id_length (url : option string) (youtube_id : string) :
  App.extract_youtube_id url = Some youtube_id ->
  String.length youtube_id = 11%nat.
Proof.
  unfold App.extract_youtube_id.
  destruct url as [[|a u]|]; try discriminate.
  unfold re_match.
  destruct (rmatch App.youtube_regex (String a u) [] (fun _ g => Some g))
    as [res|] eqn:E; [|discriminate].
  unfold App.youtube_regex in E.
  repeat (apply rmatch_Seq_second in E; destruct E as [? [? E]]).
  rewrite rmatch_Group in E. apply rmatch_Rep_NoneOf in E.
  destruct E as [s' [Hl E]]. injection E as <-.
  rewrite group_set_group. intros [= <-].
  unfold consumed. rewrite length_substring_0 by lia. lia.
Qed.

End RegexFacts.

(** C9: the watch URL yields its 11-character identifier; an absent URL
    and a URL of another site yield none. *)
Theorem extract_youtube_id_examples :
  App.extract_youtube_id
    (Some "https://www.youtube.com/watch?v=dQw4w9WgXcQ"%string)
  = Some "dQw4w9WgXcQ"%string /\
  String.length "dQw4w9WgXcQ" = 11%nat /\
  App.extract_youtube_id None = None /\
  App.extract_youtube_id (Some "https://example.com/video"%string) = None.
Proof. repeat split; vm_compute; reflexivity. Qed.

(** ** Runs of the ratings builder, the evaluator and the recommenders *)

Section ConcreteRatings.
Import Evaluation Recommender Reference Examples.

(** The build on the well-formed dataset: two rows for student 1 at 3.0,
    one row for student 2 at 5.5. *)
Lemma create_ratings_df_dataset :
  @create_ratings_df builtins disk "dataset/dataset_etudiants.csv"
  = ([], Ok (DataFrame ratings_columns
               [("1", OStr "a", 3); ("1", OStr "b", 3);
                ("2", OStr "x", 5.5)]%string%float)) /\
  score 50 2 = 3%float /\
  score 100 1 = 5.5%float /\
  score 200 1 = 5.5%float /\
  score 1000 2 = 6%float.
Proof.
  apply (@create_ratings_df_one_row_per_skill builtins disk
           "dataset/dataset_etudiants.csv"
           [row 1 "Ada" "['a', 'b']" 50; row 2 "Bob" "['x']" 100]
           [[OStr "a"; OStr "b"]; [OStr "x"]]).
  - reflexivity.
  - repeat constructor.
Defined.

(** C2, as stated, fails on the dataset whose second row is malformed:
    the build does not end in an exception, it returns an empty table. *)
Lemma create_ratings_df_malformed_returns :
  @parse_cell builtins (CellStr "[python, 'java'")
  = Raise (Exn SyntaxError "invalid syntax") /\
  outcome (@create_ratings_df builtins disk "dataset/malformed.csv")
  = Ok (DataFrame [] []) /\
  (forall e,
     outcome (@create_ratings_df builtins disk "dataset/malformed.csv")
     <> Raise e).
Proof.
  split; [vm_compute; reflexivity|].
  split; [vm_compute; reflexivity|].
  intros e. vm_compute. discriminate.
Qed.

(** The same dataset under the amended statement. *)
Lemma create_ratings_df_malformed_empty :
  exists s' e',
    @first_parse_error builtins
      [row 1 "Ada" "['a', 'b']" 50; row 2 "Bob" "[python, 'java'" 100] s' e' /\
    @create_ratings_df builtins disk "dataset/malformed.csv"
    = (["Error parsing 'Compétences' column: " ++ exn_msg e']%string,
       Ok (DataFrame [] [])) /\
    @evaluate_surprise_models builtins disk good_run "dataset/malformed.csv"
    = (["Error parsing 'Compétences' column: " ++ exn_msg e']%string,
       Ok (ReportError "No valid ratings data available")).
Proof.
  apply (@create_ratings_df_parse_error_empty builtins disk good_run
           "dataset/malformed.csv"
           [row 1 "Ada" "['a', 'b']" 50; row 2 "Bob" "[python, 'java'" 100]
           (row 2 "Bob" "[python, 'java'" 100)
           (Exn SyntaxError "invalid syntax")).
  - reflexivity.
  - right. left. reflexivity.
  - reflexivity.
Defined.

(** The report of a run on five ratings whose cross-validations returned
    five folds. *)
Lemma evaluate_surprise_models_dataset :
  outcome (@evaluate_surprise_models builtins disk good_run
             "dataset/five_ratings.csv")
  = Ok (Report (Metrics 1.5 0.75) (Metrics 1.5 0.75))%float.
Proof.
  apply (proj1 (proj2 (proj2
           (@evaluate_surprise_models_report builtins disk good_run
              "dataset/five_ratings.csv")))
           (DataFrame ratings_columns
              [("1", OStr "a", 3.25); ("1", OStr "b", 3.25);
               ("1", OStr "c", 3.25); ("2", OStr "x", 6);
               ("2", OStr "y", 6)]%string%float)
           five_folds five_folds).
  - reflexivity.
  - reflexivity.
  - reflexivity.
  - reflexivity.
  - repeat constructor.
Defined.

(** C7, as stated, fails on a table with fewer ratings than folds: the
    default dataset gives three ratings, the cross-validation over 5 folds
    is refused, and the evaluator returns the error object of that
    exception instead of RMSE and MAE. *)
Lemma evaluate_surprise_models_few_ratings :
  outcome (@create_ratings_df builtins disk "dataset/dataset_etudiants.csv")
  = Ok (DataFrame ratings_columns
          [("1", OStr "a", 3); ("1", OStr "b", 3);
           ("2", OStr "x", 5.5)]%string%float) /\
  empty (DataFrame ratings_columns
           [("1", OStr "a", 3); ("1", OStr "b", 3);
            ("2", OStr "x", 5.5)]%string%float) = false /\
  outcome (@evaluate_surprise_models builtins disk good_run
             "dataset/dataset_etudiants.csv")
  = Ok (ReportError
          "Incorrect value for n_splits=3. Must be >=2 and less than the number of ratings").
Proof. repeat split; vm_compute; reflexivity. Qed.

(** A failing fit and a failing prediction both end in the empty list. *)
Lemma cf_recommendations_failing_fit :
  degraded (@get_knn_recommendations builtins disk failing_fit 1 5)
           "KNN Error: training failed" /\
  degraded (@get_svd_recommendations builtins disk failing_test [] 1 5)
           "SVD Error: prediction failed".
Proof.
  split.
  - apply (proj1 (@cf_recommendations_degrade_to_empty
                    builtins disk failing_fit [] 1 5)
             (Exn ValueError "training failed")).
    left. reflexivity.
  - apply (proj1 (proj2 (@cf_recommendations_degrade_to_empty
                           builtins disk failing_test [] 1 5))
             (Exn ValueError "prediction failed")).
    right. eexists. split; reflexivity.
Defined.

End ConcreteRatings.

(** * Further properties of the modelled code *)

(** ** More on the content recommender *)

Section ContentExtras.
Import Store.

Lemma StronglySorted_app_inv {A} (R : A -> A -> Prop) (l1 l2 : list A) :
  StronglySorted R (l1 ++ l2) ->
  forall a b, In a l1 -> In b l2 -> R a b.
Proof.
  induction l1 as [|x l1 IH]; simpl; intros Hs a b Ha Hb; [destruct Ha|].
  apply StronglySorted_inv in Hs. destruct Hs as [Hs Hf].
  destruct Ha as [->|Ha]; [|now apply IH].
  rewrite Forall_forall in Hf. apply Hf, in_or_app. now right.
Qed.

(** X1.  The ten records kept are the best rated: what the truncation drops is
    nothing when at most ten courses match, and is never rated above a
    record that is kept. *)
Theorem generate_recommendations_keeps_best
    (user_profile : option profile) (all_contents_raw : contents_raw) :
  exists dropped,
    Permutation
      (App.generate_recommendations user_profile all_contents_raw ++ dropped)
      (App.candidates user_profile all_contents_raw) /\
    ((List.length (App.candidates user_profile all_contents_raw) <= 10)%nat ->
     dropped = []) /\
    Forall (fun kept => Forall (rating_order kept) dropped)
           (App.generate_recommendations user_profile all_contents_raw).
Proof.
  rewrite generate_recommendations_candidates.
  set (s := sorted Qltb rec_Rating true
              (App.candidates user_profile all_contents_raw)).
  exists (skipn 10 s). split; [|split].
  - rewrite firstn_skipn. apply sorted_reverse_perm.
  - intros Hlen. apply skipn_all2. unfold s.
    rewrite (Permutation_length
               (sorted_reverse_perm Qltb rec_Rating
                  (App.candidates user_profile all_contents_raw))).
    exact Hlen.
  - apply Forall_forall. intros kept Hk. apply Forall_forall. intros d Hd.
    apply (StronglySorted_app_inv rating_order (firstn 10 s) (skipn 10 s));
      [|assumption|assumption].
    rewrite firstn_skipn.
    apply (sorted_reverse_descending Qltb rec_Rating Qle
             Qltb_le Qltb_ge Qle_trans).
Qed.

Lemma candidates_complete (p : profile) raw it :
  is_empty_dict p = false ->
  In it (App.items raw) ->
  ~ In (str_ident (fst it)) (App.interacted_course_ids p) ->
  App.matches (App.keywords p) (snd it) = true ->
  In (App.record_of (str_ident (fst it)) (snd it))
     (App.candidates (Some p) raw).
Proof.
  intros E Hit Hn Hm. rewrite (candidates_flat_map p raw E).
  apply in_flat_map. exists it. split; [assumption|].
  unfold select. rewrite Hm.
  destruct (mem (str_ident (fst it)) (App.interacted_course_ids p)) eqn:Em.
  - apply mem_In in Em. contradiction.
  - now left.
Qed.

Lemma lower_strs_In_iff (k : string) (l : list scalar) :
  In k (lower_strs l) <-> exists s, In (SStr s) l /\ k = lower s.
Proof.
  induction l as [|v l IH]; simpl.
  - split; [tauto | now intros [? [[] _]]].
  - destruct v as [s0| | | |]; simpl; rewrite IH.
    1:{ split.
        - intros [E|[s [Hs E]]].
          + exists s0. split; [now left | now symmetry].
          + exists s. split; [now right | exact E].
        - intros [s [[Hs|Hs] E]].
          + injection Hs as <-. left. now symmetry.
          + right. now exists s. }
    all: split;
      [ intros [s [Hs E]]; exists s; split; [now right | exact E]
      | intros [s [[Hs|Hs] E]]; [discriminate | now exists s] ].
Qed.

Lemma str_ids_In (cid : string) (l : list scalar) :
  In cid (str_ids l) <->
  exists v, In v l /\
            match v with
            | SStr s => cid = s
            | SInt z => cid = str_int z
            | SBool b => cid = (if b then "True" else "False")%string
            | SFloat _ | SOther => False
            end.
Proof.
  induction l as [|v l IH]; simpl.
  - split; [tauto | now intros [? [[] _]]].
  - destruct v as [s0|z0|b0|x0|]; simpl; rewrite IH.
    1-3: split;
      [ intros [E|[v [Hv E]]];
        [ eexists; split; [left; reflexivity | now symmetry]
        | exists v; split; [now right | exact E] ]
      | intros [v [[<-|Hv] E]]; [left; now symmetry | right; now exists v] ].
    all: split;
      [ intros [v [Hv E]]; exists v; split; [now right | exact E]
      | intros [v [[<-|Hv] E]]; [destruct E | now exists v] ].
Qed.

Lemma matches_mentions (p : profile) (c : content) :
  App.matches (App.keywords p) c = true <-> mentions p c.
Proof.
  unfold App.matches, mentions. rewrite existsb_exists. split.
  - intros [k [Hk Hc]]. unfold App.keywords in Hk.
    assert (Htag : exists tag,
               In (SStr tag) (get [] (Competences p)
                              ++ get [] (Centres_d_Interet p)) /\
               k = lower tag).
    { apply in_app_or in Hk. destruct Hk as [Hk|Hk];
        apply lower_strs_In_iff in Hk; destruct Hk as [tag [Ht E]];
        exists tag; (split; [apply in_or_app; auto | exact E]). }
    destruct Htag as [tag [Ht ->]].
    apply orb_true_iff in Hc. destruct Hc as [Hc|Hc];
      [apply orb_true_iff in Hc; destruct Hc as [Hc|Hc]|].
    + exists tag, (get EmptyString (Category c)).
      split; [exact Ht|]. split; [now left | exact Hc].
    + exists tag, (get EmptyString (Description c)).
      split; [exact Ht|]. split; [right; now left | exact Hc].
    + exists tag, (get EmptyString (Title c)).
      split; [exact Ht|]. split; [right; right; now left | exact Hc].
  - intros [tag [text [Ht [Hx Hc]]]]. exists (lower tag). split.
    + unfold App.keywords. apply in_or_app. apply in_app_or in Ht.
      destruct Ht as [Ht|Ht]; [left|right];
        apply lower_strs_In_iff; now exists tag.
    + destruct Hx as [<-|[<-|[<-|[]]]]; rewrite Hc;
        rewrite ?orb_true_r; reflexivity.
Qed.

Lemma interacted_ids (p : profile) (cid : string) :
  In cid (App.interacted_course_ids p) <-> interacted p cid.
Proof. unfold App.interacted_course_ids, interacted. apply str_ids_In. Qed.

(** X2.  When at most ten courses match, the output holds exactly the records
    of the stored courses that the profile does not list as interacted
    with, under their identifier (own ["id"], else key or position), and in
    whose category, description or title a skill or interest occurs. *)
Theorem generate_recommendations_exact
    (p : profile) (all_contents_raw : contents_raw) (r : recommendation) :
  is_empty_dict p = false ->
  (List.length (App.candidates (Some p) all_contents_raw) <= 10)%nat ->
  In r (App.generate_recommendations (Some p) all_contents_raw) <->
  exists default c,
    stored_under all_contents_raw default c /\
    ~ interacted p (identifier default c) /\
    mentions p c /\
    r = App.record_of (identifier default c) c.
Proof.
  intros E Hlen. split.
  - intros Hr.
    apply generate_recommendations_incl, candidates_provenance in Hr.
    destruct Hr as [[a c] [Hit [Hn [Hm ->]]]].
    apply items_stored in Hit. destruct Hit as [default [Hs Ha]].
    simpl in Hs, Ha, Hn, Hm. subst a. rewrite str_ident_attach in Hn.
    exists default, c. split; [exact Hs|]. split.
    + intros Hi. apply Hn. now apply interacted_ids.
    + split; [now apply matches_mentions|].
      simpl. now rewrite str_ident_attach.
  - intros [default [c [Hs [Hn [Hm ->]]]]].
    rewrite generate_recommendations_candidates.
    rewrite firstn_all2.
    + eapply Permutation_in; [symmetry; apply sorted_reverse_perm|].
      rewrite <- str_ident_attach.
      apply (candidates_complete p all_contents_raw (attach default c, c) E).
      * apply items_stored. now exists default.
      * simpl. rewrite str_ident_attach. intros Hi. apply Hn.
        now apply interacted_ids.
      * now apply matches_mentions.
    + rewrite (Permutation_length
                 (sorted_reverse_perm Qltb rec_Rating
                    (App.candidates (Some p) all_contents_raw))).
      exact Hlen.
Qed.

Lemma contains_empty (t : string) : contains EmptyString t = true.
Proof. destruct t; reflexivity. Qed.

Lemma lower_strs_In (s : string) (l : list scalar) :
  In (SStr s) l -> In (lower s) (lower_strs l).
Proof.
  induction l as [|v l IH]; [intros []|].
  intros [->|H]; simpl; [now left|].
  destruct v; auto. right. auto.
Qed.

(** X3.  A blank skill or interest makes every course match: the empty string
    occurs in every text. *)
Theorem blank_keyword_matches_everything (p : profile) (c : content) :
  In (SStr EmptyString) (get [] (Competences p) ++ get [] (Centres_d_Interet p)) ->
  App.matches (App.keywords p) c = true.
Proof.
  intros H. unfold App.matches. apply existsb_exists.
  exists EmptyString. split; [|now rewrite contains_empty].
  unfold App.keywords. apply in_or_app. apply in_app_or in H.
  destruct H as [H|H]; [left|right];
    exact (lower_strs_In EmptyString _ H).
Qed.

(** X4.  The identifier the recommender works with for a stored course is
    the value of the course's own ["id"], printed, when it has one: it
    replaces what the comprehension puts first.  Otherwise it is the
    position in the raw list, the entries that are no records counted, or
    the key of the dictionary. *)
Theorem items_identifiers
    (all_contents_raw : contents_raw) (cid : string) (c : content) :
  (exists a, In (a, c) (App.items all_contents_raw) /\ str_ident a = cid) <->
  exists default,
    stored_under all_contents_raw default c /\
    cid = match id c with
          | Some v => str_id_value v
          | None =>
              match default with
              | Key k => k
              | Index i => str_int (Z.of_nat i)
              | Own v => str_id_value v
              end
          end.
Proof.
  split.
  - intros [a [Hin <-]]. apply items_stored in Hin.
    destruct Hin as [default [Hs Ha]]. simpl in Hs, Ha. subst a.
    exists default. split; [exact Hs|].
    unfold attach. destruct (id c); [reflexivity | now destruct default].
  - intros [default [Hs ->]]. exists (attach default c). split.
    + apply items_stored. now exists default.
    + unfold attach. destruct (id c); [reflexivity | now destruct default].
Qed.

Lemma to_int_not_nil (z : Z) :
  Z.to_int z <> Decimal.Pos Decimal.Nil /\
  Z.to_int z <> Decimal.Neg Decimal.Nil.
Proof.
  assert (N : Decimal.norm (Z.to_int z) = Z.to_int z)
    by (rewrite <- DecimalZ.to_of, DecimalZ.of_to; reflexivity).
  split; intros E; rewrite E in N; discriminate.
Qed.

(** [str] is injective on integers. *)
Lemma str_int_inj (x y : Z) : str_int x = str_int y -> x = y.
Proof.
  unfold str_int. intros E.
  apply DecimalZ.to_int_inj.
  destruct (to_int_not_nil x) as [X1 X2], (to_int_not_nil y) as [Y1 Y2].
  pose proof (NilZero.isi (Z.to_int x) X1 X2) as Hx.
  pose proof (NilZero.isi (Z.to_int y) Y1 Y2) as Hy.
  rewrite E in Hx. congruence.
Qed.

Lemma list_items_from (l : list entry) (n : nat) it :
  (forall c, In (Item c) l -> id c = None) ->
  In it (list_items n l) -> exists i, (n <= i)%nat /\ fst it = Index i.
Proof.
  intros Hnone Hit. apply list_items_In in Hit.
  destruct Hit as [i [Hle [Hn Ha]]]. exists i. split; [exact Hle|].
  apply nth_error_In in Hn. unfold attach in Ha.
  now rewrite (Hnone _ Hn) in Ha.
Qed.

Lemma list_items_NoDup (l : list entry) (n : nat) :
  (forall c, In (Item c) l -> id c = None) ->
  NoDup (map (fun it => str_ident (fst it)) (list_items n l)).
Proof.
  revert n. induction l as [|[c|] l IH]; intros n Hnone; simpl.
  - constructor.
  - assert (Hl : forall c', In (Item c') l -> id c' = None)
      by (intros c' Hc'; apply Hnone; now right).
    constructor; [|now apply IH].
    intros H. apply in_map_iff in H. destruct H as [it [E Hit]].
    destruct (list_items_from l (S n) it Hl Hit) as [i [Hi Ei]].
    rewrite Ei in E. unfold attach in E.
    rewrite (Hnone c (or_introl eq_refl)) in E.
    simpl in E. apply str_int_inj in E. lia.
  - apply IH. intros c Hc. apply Hnone. now right.
Qed.

Lemma dict_items_keys (d : list (string * entry)) :
  NoDup (map fst d) ->
  (forall k c, In (k, Item c) d -> id c = None) ->
  NoDup (map (fun it => str_ident (fst it)) (dict_items d)).
Proof.
  induction d as [|[k [c|]] d IH]; simpl; intros H Hnone.
  - constructor.
  - inversion H as [|? ? Hk Hd]; subst.
    assert (Hl : forall k' c', In (k', Item c') d -> id c' = None)
      by (intros k' c' Hc'; apply (Hnone k'); now right).
    constructor; [|now apply IH].
    intros Hin. apply Hk. apply in_map_iff in Hin.
    destruct Hin as [it [E Hit]]. apply dict_items_In in Hit.
    destruct Hit as [k' [Hk' Ha]].
    rewrite Ha in E. unfold attach in E.
    rewrite (Hl k' (snd it) Hk'), (Hnone k c (or_introl eq_refl)) in E.
    simpl in E. subst k'.
    apply in_map_iff. now exists (k, Item (snd it)).
  - inversion H; subst. apply IH; [assumption|].
    intros k' c' Hc'. apply (Hnone k'). now right.
Qed.

Lemma select_ids kws interacted (l : list (ident * content)) :
  NoDup (map (fun it => str_ident (fst it)) l) ->
  NoDup (map rec_id (flat_map (select kws interacted) l)).
Proof.
  induction l as [|it l IH]; simpl; intros H; [constructor|].
  inversion H as [|? ? Hn Hl]; subst.
  rewrite map_app. unfold select at 1.
  destruct (mem (str_ident (fst it)) interacted); simpl; [auto|].
  destruct (App.matches kws (snd it)); simpl; [|auto].
  constructor; [|auto].
  intros Hin. apply Hn. apply in_map_iff in Hin.
  destruct Hin as [r [Er Hr]]. apply in_flat_map in Hr.
  destruct Hr as [it' [Hit' Hr]]. apply in_map_iff. exists it'.
  split; [|assumption].
  unfold select in Hr.
  destruct (mem (str_ident (fst it')) interacted); [destruct Hr|].
  destruct (App.matches kws (snd it')); [|destruct Hr].
  destruct Hr as [<-|[]]. exact Er.
Qed.

Lemma NoDup_firstn {A} (n : nat) (l : list A) : NoDup l -> NoDup (firstn n l).
Proof.
  intros H. rewrite <- (firstn_skipn n l) in H.
  now apply NoDup_app_remove_r in H.
Qed.

(** X5.  When no stored course has an ["id"] of its own (and the keys of a
    dictionary catalog are pairwise different), no course is recommended
    twice: the identifiers of the output are pairwise different. *)
Theorem generate_recommendations_no_duplicate
    (user_profile : option profile) (all_contents_raw : contents_raw) :
  without_own_id all_contents_raw ->
  NoDup (map rec_id
           (App.generate_recommendations user_profile all_contents_raw)).
Proof.
  intros Hd. rewrite generate_recommendations_candidates.
  rewrite <- firstn_map. apply NoDup_firstn.
  eapply Permutation_NoDup;
    [apply Permutation_map; symmetry; apply sorted_reverse_perm|].
  destruct user_profile as [p|]; [|constructor].
  destruct (is_empty_dict p) eqn:E;
    [unfold App.candidates; rewrite E; constructor|].
  rewrite (candidates_flat_map p all_contents_raw E).
  apply select_ids.
  destruct all_contents_raw as [|d|l|]; simpl in *.
  - constructor.
  - destruct Hd as [Hk Hnone]. now apply dict_items_keys.
  - now apply list_items_NoDup.
  - constructor.
Qed.

(** X6.  The copy in [recommendation_methods.py] either returns the empty
    list, and then [app.py] returns the empty list too, or raises
    [NameError]; it raises whenever [app.py] recommends something. *)
Theorem methods_generate_recommendations_or_NameError
    (user_profile : option profile) (all_contents_raw : contents_raw) :
  (RecommendationMethods.generate_recommendations user_profile all_contents_raw
   = Ok [] /\
   App.generate_recommendations user_profile all_contents_raw = []) \/
  (exists e,
     RecommendationMethods.generate_recommendations
       user_profile all_contents_raw = Raise e /\
     exn_kind_of e = NameError).
Proof.
  destruct (RecommendationMethods.generate_recommendations
              user_profile all_contents_raw) as [out|e] eqn:E.
  - left. pose proof (methods_generate_recommendations_nil _ _ _ E). subst out.
    split; [reflexivity|].
    now apply methods_generate_recommendations_refines.
  - right. exists e. split; [reflexivity|].
    revert E. unfold RecommendationMethods.generate_recommendations.
    destruct user_profile as [p|]; [|discriminate].
    destruct (is_empty_dict p); [discriminate|].
    assert (G : forall kws interacted l acc,
              foldM (RecommendationMethods.step kws interacted) l acc = Raise e ->
              exn_kind_of e = NameError).
    { intros kws interacted l. induction l as [|it l IH]; intros acc; simpl;
        [discriminate|].
      unfold RecommendationMethods.step at 1.
      destruct (mem (str_ident (fst it)) interacted); simpl; [apply IH|].
      destruct (RecommendationMethods.matches kws (snd it)); simpl;
        [intros [= <-]; reflexivity | apply IH]. }
    assert (F : forall l,
      bind (RecommendationMethods.user_interests_of (get [] (Centres_d_Interet p)))
        (fun user_interests =>
           bind (foldM (RecommendationMethods.step
                          (lower_strs (get [] (Competences p)) ++ user_interests)
                          (str_ids (get [] (Derniers_Cours_Interagis p)))) l [])
                (fun recommendations =>
                   Ok (firstn 10 (sorted Qltb rec_Rating true recommendations))))
      = Raise e -> exn_kind_of e = NameError).
    { intros l. destruct (get [] (Centres_d_Interet p)); simpl;
        [|intros [= <-]; reflexivity].
      destruct (foldM _ l []) eqn:Fm; simpl; [discriminate|].
      intros [= <-]. eapply G. exact Fm. }
    destruct all_contents_raw; try discriminate; apply F.
Qed.

End ContentExtras.

(** ** The profile vectorizer *)

Section VectorExtras.
Import Store RecommendationMethods.

Lemma set_nth_length i x v : List.length (set_nth i x v) = List.length v.
Proof.
  revert i. induction v as [|y v IH]; intros [|i]; simpl; auto.
Qed.

Lemma nth_error_set_nth i j x v :
  nth_error (set_nth i x v) j
  = if Nat.eqb i j
    then match nth_error v j with Some _ => Some x | None => None end
    else nth_error v j.
Proof.
  revert i j. induction v as [|y v IH]; intros [|i] [|j]; simpl; auto;
    now destruct (Nat.eqb i j).
Qed.

Lemma index_Some x l i : index x l = Some i -> nth_error l i = Some x.
Proof.
  revert i. induction l as [|y l IH]; intros i; simpl; [discriminate|].
  destruct (String.eqb y x) eqn:E.
  - intros [= <-]. apply String.eqb_eq in E. now subst.
  - destruct (index x l); [|discriminate]. intros [= <-]. now apply IH.
Qed.

Lemma index_None x l : index x l = None -> ~ In x l.
Proof.
  induction l as [|y l IH]; simpl; [tauto|].
  destruct (String.eqb y x) eqn:E; [discriminate|].
  destruct (index x l); [discriminate|].
  intros _ [->|H]; [now rewrite String.eqb_refl in E | now apply IH].
Qed.

Lemma mem_cons x y l : mem x (y :: l) = String.eqb x y || mem x l.
Proof. reflexivity. Qed.

Lemma vectorize_fold (terms : list string) (pts : list string) :
  NoDup terms ->
  forall (marked : string -> bool) (v : list Z),
    List.length v = List.length terms ->
    (forall i t, nth_error terms i = Some t ->
                 nth_error v i = Some (if marked t then 1 else 0)%Z) ->
    let v' :=
      fold_left (fun vector term =>
                   match index term terms with
                   | Some i => set_nth i 1%Z vector
                   | None => vector
                   end) pts v in
    List.length v' = List.length terms /\
    forall i t, nth_error terms i = Some t ->
                nth_error v' i = Some (if marked t || mem t pts then 1 else 0)%Z.
Proof.
  intros Hnd. induction pts as [|x pts IH]; intros marked v Hlen Hv;
    cbn [fold_left].
  - split; [assumption|]. intros i t Ht. simpl. rewrite orb_false_r.
    now apply Hv.
  - destruct (index x terms) as [j|] eqn:Ex.
    + destruct (IH (fun t => marked t || String.eqb t x) (set_nth j 1%Z v))
        as [L N].
      * now rewrite set_nth_length.
      * intros i t Ht. rewrite nth_error_set_nth, (Hv i t Ht).
        apply index_Some in Ex.
        destruct (Nat.eqb j i) eqn:Eji.
        -- apply Nat.eqb_eq in Eji. subst i.
           assert (t = x) by congruence. subst t.
           now rewrite String.eqb_refl, orb_true_r.
        -- destruct (String.eqb t x) eqn:Etx; [|now rewrite orb_false_r].
           apply String.eqb_eq in Etx. subst t. exfalso.
           apply Nat.eqb_neq in Eji. apply Eji.
           apply (proj1 (NoDup_nth_error terms) Hnd j i);
             [apply nth_error_Some; congruence | congruence].
      * split; [exact L|]. intros i t Ht. rewrite (N i t Ht).
        rewrite mem_cons, orb_assoc. reflexivity.
    + destruct (IH marked v Hlen Hv) as [L N]. split; [exact L|].
      intros i t Ht. rewrite (N i t Ht), mem_cons.
      destruct (String.eqb t x) eqn:Etx; [|reflexivity].
      apply String.eqb_eq in Etx. subst t. exfalso.
      apply (index_None _ _ Ex). eapply nth_error_In. exact Ht.
Qed.

Lemma vectorize_user_profile_entries
    (user_profile : profile) (all_possible_terms : list string) :
  NoDup all_possible_terms ->
  List.length (vectorize_user_profile user_profile all_possible_terms)
  = List.length all_possible_terms /\
  forall i t,
    nth_error all_possible_terms i = Some t ->
    nth_error (vectorize_user_profile user_profile all_possible_terms) i
    = Some (if mem t (profile_terms user_profile) then 1 else 0)%Z.
Proof.
  intros Hnd. unfold vectorize_user_profile.
  apply (vectorize_fold all_possible_terms (profile_terms user_profile) Hnd
           (fun _ => false)).
  - unfold zeros. apply repeat_length.
  - intros i t Ht. unfold zeros.
    apply nth_error_repeat. apply nth_error_Some. congruence.
Qed.


Lemma sorted_set_In (l : list string) (t : string) :
  In t (sorted_set l) <-> In t l.
Proof.
  unfold sorted_set. rewrite <- (nodup_In string_dec l t). split; intros H.
  - eapply Permutation_in; [apply stable_sort_perm | exact H].
  - eapply Permutation_in; [symmetry; apply stable_sort_perm | exact H].
Qed.

Lemma sorted_set_NoDup (l : list string) : NoDup (sorted_set l).
Proof.
  unfold sorted_set.
  eapply Permutation_NoDup; [symmetry; apply stable_sort_perm|].
  apply NoDup_nodup.
Qed.

(** X8.  The vocabulary [KNN_similarity] builds from all users loses no tag:
    every term of every user has a position in it, and the user's vector
    has a 1 there. *)
Theorem vocabulary_covers_every_user
    (all_users_data : list (string * profile)) (uid : string) (u : profile)
    (t : string) :
  In (uid, u) all_users_data ->
  In t (profile_terms u) ->
  let all_possible_terms :=
    sorted_set (flat_map (fun u => profile_terms (snd u)) all_users_data) in
  exists i,
    nth_error all_possible_terms i = Some t /\
    nth_error (vectorize_user_profile u all_possible_terms) i = Some 1%Z.
Proof.
  intros Hu Ht V.
  assert (Hin : In t V).
  { apply sorted_set_In, in_flat_map. now exists (uid, u). }
  apply In_nth_error in Hin. destruct Hin as [i Hi]. exists i.
  split; [exact Hi|].
  destruct (vectorize_user_profile_entries u V (sorted_set_NoDup _)) as [_ N].
  rewrite (N i t Hi).
  replace (mem t (profile_terms u)) with true; [reflexivity|].
  symmetry. now apply mem_In.
Qed.

End VectorExtras.

(** ** More on the ratings builder *)

Section RatingsExtras.
Import Evaluation Recommender.
Context `{Builtins} `{Files} `{Surprise}.

Lemma io_bind_outcome {A B} (m : io A) (f : A -> io B) :
  outcome (io_bind m f)
  = match outcome m with
    | Ok a => outcome (f a)
    | Raise e => Raise e
    end.
Proof. destruct m as [out [a|e]]; simpl; [now destruct (f a) | reflexivity]. Qed.

Lemma chars_length (s : string) : List.length (chars s) = String.length s.
Proof. induction s; simpl; congruence. Qed.

Lemma iter_len (v : pyobj) (items : list pyobj) :
  iter v = Ok items -> len v = Ok (List.length items).
Proof.
  destruct v; simpl; intros E; try discriminate; injection E as <-;
    [now rewrite chars_length | reflexivity].
Qed.

Lemma row_ratings_items ratings (s : student) (v : pyobj) items :
  iter v = Ok items ->
  row_ratings ratings (s, v) = Ok (ratings ++ student_ratings s items)%list.
Proof.
  intros E. unfold row_ratings, student_ratings. cbn [fst snd].
  rewrite (iter_len _ _ E), E. cbn [bind].
  now rewrite (fold_left_append
                 (fun c => (str_int (ID_Etudiant s), c,
                            normalized_score (Nombre_Interactions s)
                              (List.length items)))).
Qed.

Lemma parse_cells_items df itemss :
  Forall2 (fun s l => cell_items (Competences s) l) df itemss ->
  exists parsed,
    mapM parse_cell (map Competences df) = Ok parsed /\
    Forall2 (fun v l => iter v = Ok l) parsed itemss.
Proof.
  induction 1 as [|s l df itemss [v [Hp Hi]] _ [parsed [Hm Hf]]]; simpl.
  - exists []. split; [reflexivity | constructor].
  - exists (v :: parsed). rewrite Hp, Hm. split; [reflexivity|].
    now constructor.
Qed.

Lemma foldM_row_ratings_items df parsed itemss acc :
  List.length df = List.length parsed ->
  Forall2 (fun v l => iter v = Ok l) parsed itemss ->
  foldM row_ratings (combine df parsed) acc
  = Ok (acc ++ flat_map (fun sl => student_ratings (fst sl) (snd sl))
                        (combine df itemss))%list.
Proof.
  intros Hlen Hf. revert df acc Hlen.
  induction Hf as [|v l parsed itemss Hv _ IH]; intros [|s df] acc Hlen;
    simpl in Hlen; try discriminate.
  - simpl. now rewrite app_nil_r.
  - cbn [combine foldM flat_map fst snd].
    rewrite (row_ratings_items _ _ _ _ Hv). cbn [bind].
    rewrite IH by congruence. now rewrite <- app_assoc.
Qed.

Lemma mapM_length {A B} (f : A -> result B) (l : list A) (ys : list B) :
  mapM f l = Ok ys -> List.length ys = List.length l.
Proof.
  revert ys. induction l as [|x l IH]; simpl; intros ys.
  - now intros [= <-].
  - destruct (f x); simpl; [|discriminate].
    destruct (mapM f l) as [zs|]; simpl; [|discriminate].
    intros [= <-]. simpl. now rewrite (IH zs eq_refl).
Qed.

Lemma create_ratings_df_rows
    (csv_path : string) (df : list student) (itemss : list (list pyobj)) :
  read_csv csv_path = Ok df ->
  Forall2 (fun s items => cell_items (Competences s) items) df itemss ->
  create_ratings_df csv_path
  = ([], Ok (DataFrame ratings_columns
               (flat_map (fun sl => student_ratings (fst sl) (snd sl))
                         (combine df itemss)))).
Proof.
  intros Hread Hc. destruct (parse_cells_items _ _ Hc) as [parsed [Hm Hf]].
  unfold create_ratings_df. rewrite Hread. unfold lift at 1.
  rewrite io_bind_ok, Hm.
  rewrite (foldM_row_ratings_items df parsed itemss []); [reflexivity| |exact Hf].
  rewrite (mapM_length _ _ _ Hm). now rewrite length_map.
Qed.

(** X9.  Whatever the skills cells parse to is iterated: a cell that holds a
    quoted string gives one rating row per character of the string, as a
    list gives one per element. *)
Theorem create_ratings_df_iterates_cells
    (csv_path : string) (df : list student) (itemss : list (list pyobj)) :
  read_csv csv_path = Ok df ->
  Forall2 (fun s items => cell_items (Competences s) items) df itemss ->
  create_ratings_df csv_path
  = ([], Ok (DataFrame ratings_columns
               (flat_map (fun sl => student_ratings (fst sl) (snd sl))
                         (combine df itemss)))).
Proof.
  intros Hread Hc. destruct (parse_cells_items _ _ Hc) as [parsed [Hm Hf]].
  unfold create_ratings_df. rewrite Hread. unfold lift at 1.
  rewrite io_bind_ok, Hm.
  rewrite (foldM_row_ratings_items df parsed itemss []); [reflexivity| |exact Hf].
  rewrite (mapM_length _ _ _ Hm). now rewrite length_map.
Qed.

Lemma row_ratings_sized_or_TypeError (s : student) (v : pyobj) :
  (exists items, iter v = Ok items) \/
  (exists e, exn_kind_of e = TypeError /\
             forall ratings, row_ratings ratings (s, v) = Raise e).
Proof.
  destruct v as [t|l|z|].
  - left. eexists. reflexivity.
  - left. eexists. reflexivity.
  - right. exists (Exn TypeError "object of type 'int' has no len()").
    split; reflexivity.
  - right. exists (Exn TypeError "object of type 'float' has no len()").
    split; reflexivity.
Qed.

Lemma foldM_row_ratings_raises df parsed s :
  Forall2 (fun s v => parse_cell (Competences s) = Ok v) df parsed ->
  In s df -> cell_unsized (Competences s) ->
  exists e, exn_kind_of e = TypeError /\
            forall acc, foldM row_ratings (combine df parsed) acc = Raise e.
Proof.
  induction 1 as [|s0 v0 df parsed Hp _ IH]; intros Hin Hu; [destruct Hin|].
  cbn [combine foldM].
  destruct (row_ratings_sized_or_TypeError s0 v0) as [[items Hi]|[e [Hk He]]].
  - destruct Hin as [->|Hin].
    + destruct Hu as [v [Hv Hcase]]. assert (v = v0) by congruence. subst v.
      destruct Hcase as [->|[z ->]]; discriminate.
    + destruct (IH Hin Hu) as [e [Hk He]]. exists e. split; [exact Hk|].
      intros acc. rewrite (row_ratings_items _ _ _ _ Hi). cbn [bind]. apply He.
  - exists e. split; [exact Hk|]. intros acc. now rewrite He.
Qed.

Lemma mapM_all_ok {A B} (f : A -> result B) (l : list A) :
  Forall (fun x => exists y, f x = Ok y) l ->
  exists ys, mapM f l = Ok ys /\ Forall2 (fun x y => f x = Ok y) l ys.
Proof.
  induction 1 as [|x l [y Hy] _ [ys [Hm Hf]]]; simpl.
  - exists []. split; [reflexivity | constructor].
  - exists (y :: ys). rewrite Hy, Hm. split; [reflexivity | now constructor].
Qed.

(** X10.  A skills cell that holds no text and no list (an empty cell, read as
    NaN, or a number) is not caught by the parse guard: when all cells
    parse, [create_ratings_df] raises [TypeError] and prints nothing, and
    [evaluate_surprise_models] reports that error. *)
Theorem create_ratings_df_unsized_cell_raises
    (csv_path : string) (df : list student) (s : student) :
  read_csv csv_path = Ok df ->
  Forall (fun s => exists v, parse_cell (Competences s) = Ok v) df ->
  In s df ->
  cell_unsized (Competences s) ->
  exists e,
    exn_kind_of e = TypeError /\
    create_ratings_df csv_path = ([], Raise e) /\
    evaluate_surprise_models csv_path
    = (["Error in evaluate_surprise_models: " ++ exn_msg e]%string,
       Ok (ReportError (exn_msg e))).
Proof.
  intros Hread Hall Hin Hu.
  assert (Hall' : Forall (fun c => exists v, parse_cell c = Ok v)
                         (map Competences df)).
  { apply Forall_forall. intros c Hc. apply in_map_iff in Hc.
    destruct Hc as [s' [<- Hs']]. rewrite Forall_forall in Hall. auto. }
  destruct (mapM_all_ok parse_cell _ Hall') as [parsed [Hm Hf]].
  assert (Hf' : Forall2 (fun s v => parse_cell (Competences s) = Ok v) df parsed).
  { clear -Hf. remember (map Competences df) as cs eqn:E. revert df E.
    induction Hf as [|c v cs parsed Hc _ IH]; intros [|s df] E;
      try discriminate; [constructor|].
    injection E as -> ->. constructor; [exact Hc | now apply IH]. }
  destruct (foldM_row_ratings_raises df parsed s Hf' Hin Hu) as [e [Hk He]].
  exists e. split; [exact Hk|].
  assert (Hc : create_ratings_df csv_path = ([], Raise e)).
  { unfold create_ratings_df. rewrite Hread. unfold lift at 1.
    rewrite io_bind_ok, Hm, (He []). reflexivity. }
  split; [exact Hc|].
  unfold evaluate_surprise_models, evaluate_body. rewrite Hc. reflexivity.
Qed.

(** X11.  A dataset that cannot be read makes [create_ratings_df] raise the
    reader's exception (the parse guard does not cover the read), and
    [evaluate_surprise_models] reports it. *)
Theorem unreadable_dataset (csv_path : string) (e : exn) :
  read_csv csv_path = Raise e ->
  create_ratings_df csv_path = ([], Raise e) /\
  evaluate_surprise_models csv_path
  = (["Error in evaluate_surprise_models: " ++ exn_msg e]%string,
     Ok (ReportError (exn_msg e))).
Proof.
  intros Hread.
  assert (Hc : create_ratings_df csv_path = ([], Raise e))
    by (unfold create_ratings_df; rewrite Hread; reflexivity).
  split; [exact Hc|].
  unfold evaluate_surprise_models, evaluate_body. rewrite Hc. reflexivity.
Qed.

(** X12.  A dataset in which no student has a skill yields a table with its
    three columns and no row, which the evaluator reports as having no
    valid ratings. *)
Theorem no_skill_no_ratings (csv_path : string) (df : list student) :
  read_csv csv_path = Ok df ->
  Forall (fun s => cell_items (Competences s) []) df ->
  create_ratings_df csv_path = ([], Ok (DataFrame ratings_columns [])) /\
  evaluate_surprise_models csv_path
  = ([], Ok (ReportError "No valid ratings data available")).
Proof.
  intros Hread Hall.
  assert (Hc : create_ratings_df csv_path
               = ([], Ok (DataFrame ratings_columns []))).
  { rewrite (create_ratings_df_rows csv_path df
               (map (fun _ => []) df) Hread).
    - f_equal. f_equal. f_equal. clear. induction df; simpl; auto.
    - clear -Hall. induction Hall; simpl; constructor; auto. }
  split; [exact Hc|].
  unfold evaluate_surprise_models, evaluate_body. rewrite Hc. reflexivity.
Qed.

Lemma create_ratings_df_on_parse_error
    (csv_path : string) (df : list student) (s : student) (e : exn) :
  read_csv csv_path = Ok df ->
  In s df ->
  parse_cell (Competences s) = Raise e ->
  exists s' e',
    first_parse_error df s' e' /\
    create_ratings_df csv_path
    = (["Error parsing 'Compétences' column: " ++ exn_msg e']%string,
       Ok (DataFrame [] [])).
Proof.
  intros Hread Hin Hs.
  destruct (mapM_parse_first_raise df s e Hin Hs) as [s' [e' [Hfirst Hm]]].
  exists s', e'. split; [exact Hfirst|].
  unfold create_ratings_df. rewrite Hread. unfold lift at 1.
  rewrite io_bind_ok, Hm. reflexivity.
Qed.

(** X13.  On a dataset with a malformed skills cell the training helpers
    print the parse error of the first malformed record and fail with
    [KeyError]: the empty table the builder returns has no column [user].
    The two recommenders then print that parse error, print their own
    error line and return the empty list. *)
Theorem training_on_malformed_dataset
    (df : list student) (s : student) (e : exn)
    (table : list features) (user_id : Z) (top_n : nat) :
  read_csv default_csv_path = Ok df ->
  In s df ->
  parse_cell (Competences s) = Raise e ->
  exists s' e' err,
    first_parse_error df s' e' /\
    exn_kind_of err = KeyError /\
    train_knn_model
    = (["Error parsing 'Compétences' column: " ++ exn_msg e']%string,
       Raise err) /\
    train_svd_model
    = (["Error parsing 'Compétences' column: " ++ exn_msg e']%string,
       Raise err) /\
    get_knn_recommendations user_id top_n
    = (["Error parsing 'Compétences' column: " ++ exn_msg e';
        "KNN Error: " ++ exn_msg err]%string, Ok []) /\
    get_svd_recommendations table user_id top_n
    = (["Error parsing 'Compétences' column: " ++ exn_msg e';
        "SVD Error: " ++ exn_msg err]%string, Ok []).
Proof.
  intros Hread Hin Hs.
  destruct (create_ratings_df_on_parse_error _ _ _ _ Hread Hin Hs)
    as [s' [e' [Hfirst Hc]]].
  exists s', e'.
  exists (Exn KeyError "None of [Index(['user', 'item', 'rating'], dtype='object')] are in the [columns]").
  assert (Ht : forall a,
    train a
    = ([("Error parsing 'Compétences' column: " ++ exn_msg e')%string],
       Raise (Exn KeyError "None of [Index(['user', 'item', 'rating'], dtype='object')] are in the [columns]"))).
  { intros a. unfold train. rewrite Hc. reflexivity. }
  split; [exact Hfirst|].
  split; [|split; [apply Ht | split; [apply Ht | split]]].
  - reflexivity.
  - unfold get_knn_recommendations, knn_body, train_knn_model.
    rewrite Ht. reflexivity.
  - unfold get_svd_recommendations, svd_body, train_svd_model.
    rewrite Ht. reflexivity.
Qed.

End RatingsExtras.

(** ** More on the video-link normalizer *)

Section RegexExtras.
Import Re.

Lemma rmatch_Rep_NoneOf_chars (cs : list ascii) (n : nat) s g k res :
  rmatch (Rep n (NoneOf cs)) s g k = Some res ->
  exists pre s',
    s = (pre ++ s')%string /\ String.length pre = n /\
    all_chars (fun c => negb (existsb (Ascii.eqb c) cs)) pre = true /\
    k s' g = Some res.
Proof.
  revert s. induction n as [|n IH]; intros s; simpl.
  - intros E. exists EmptyString, s. auto.
  - destruct s as [|a s]; [discriminate|].
    destruct (existsb (Ascii.eqb a) cs) eqn:Ea; [discriminate|].
    intros E. apply IH in E. destruct E as [pre [s' [-> [Hl [Hc E]]]]].
    exists (String a pre), s'. simpl. rewrite Ea, Hc, Hl. auto.
Qed.

Lemma consumed_app (pre rest : string) : consumed (pre ++ rest) rest = pre.
Proof.
  unfold consumed.
  replace (String.length (pre ++ rest) - String.length rest)%nat
    with (String.length pre).
  - induction pre as [|a pre IH]; simpl.
    + now destruct rest.
    + now rewrite IH.
  - assert (L : String.length (pre ++ rest)
               = (String.length pre + String.length rest)%nat).
    { induction pre as [|a pre IH]; simpl; [reflexivity|now rewrite IH]. }
    rewrite L. lia.
Qed.

(** X14.  An identifier that [extract_youtube_id] returns has 11 characters,
    none of which is [&], [=], [%] or [?]. *)
Theorem extract_youtube_id_wellformed
    (url : option string) (youtube_id : string) :
  App.extract_youtube_id url = Some youtube_id ->
  String.length youtube_id = 11%nat /\ all_chars id_char youtube_id = true.
Proof.
  unfold App.extract_youtube_id.
  destruct url as [[|a u]|]; try discriminate.
  unfold re_match.
  destruct (rmatch App.youtube_regex (String a u) [] (fun _ g => Some g))
    as [res|] eqn:E; [|discriminate].
  unfold App.youtube_regex in E.
  repeat (apply rmatch_Seq_second in E; destruct E as [? [? E]]).
  rewrite rmatch_Group in E. apply rmatch_Rep_NoneOf_chars in E.
  destruct E as [pre [s' [-> [Hl [Hc E]]]]]. injection E as <-.
  rewrite group_set_group, consumed_app. intros [= <-]. split; assumption.
Qed.

Lemma rmatch_Rep_NoneOf_app (cs : list ascii) (pre rest : string) g k :
  all_chars (fun c => negb (existsb (Ascii.eqb c) cs)) pre = true ->
  rmatch (Rep (String.length pre) (NoneOf cs)) (pre ++ rest) g k = k rest g.
Proof.
  induction pre as [|a pre IH]; simpl; [reflexivity|].
  intros Hc. apply andb_true_iff in Hc. destruct Hc as [Ha Hc].
  apply negb_true_iff in Ha. rewrite Ha. now apply IH.
Qed.

(** X15.  The identifier comes back from the URLs built on it: for every
    well-formed identifier and whatever follows it, the watch URL and the
    embed URL yield the identifier. *)
Theorem extract_youtube_id_of_built_url (youtube_id rest : string) :
  String.length youtube_id = 11%nat ->
  all_chars id_char youtube_id = true ->
  App.extract_youtube_id
    (Some ("https://www.youtube.com/watch?v=" ++ youtube_id ++ rest)%string)
  = Some youtube_id /\
  App.extract_youtube_id
    (Some ("https://www.youtube.com/embed/" ++ youtube_id ++ rest)%string)
  = Some youtube_id.
Proof.
  intros Hl Hc.
  pose proof (rmatch_Rep_NoneOf_app ["&"; "="; "%"; "?"]%char
                youtube_id rest) as R.
  rewrite Hl in R.
  split.
  - unfold App.extract_youtube_id, re_match, App.youtube_regex.
    cbn -[Rep consumed plus_loop].
    rewrite R by exact Hc. cbn -[consumed]. now rewrite consumed_app.
  - unfold App.extract_youtube_id, re_match, App.youtube_regex.
    cbn -[Rep consumed plus_loop].
    rewrite R by exact Hc. cbn -[consumed]. now rewrite consumed_app.
Qed.

End RegexExtras.

(** ** More on the collaborative-filtering recommenders *)

Section CollaborativeExtras.
Import Evaluation Recommender.
Context `{Builtins} `{Files} `{Surprise}.

Lemma knn_body_nil (user_id : Z) (top_n : nat) recs :
  outcome (knn_body user_id top_n) = Ok recs -> recs = [].
Proof.
  unfold knn_body. rewrite io_bind_outcome.
  destruct (outcome train_knn_model) as [tm|e]; [|discriminate].
  rewrite io_bind_outcome. unfold lift at 1. cbn [outcome snd].
  destruct (test_anti_testset (snd tm) (fst tm)) as [preds|e]; [|discriminate].
  rewrite io_bind_outcome.
  destruct (map iid (filter (fun p => String.eqb (uid p) (str_int user_id)) preds))
    as [|x l]; [|discriminate].
  cbn [sorted_by_est lift outcome snd firstn].
  rewrite firstn_nil. rewrite io_bind_outcome.
  unfold lift at 1. cbn [outcome snd].
  destruct (bind load_data preprocess_features) as [df|e]; [|discriminate].
  cbn. rewrite firstn_nil. now intros [= <-].
Qed.

(** X16.  [get_knn_recommendations] returns the empty list for every user, every
    [top_n], every dataset and every trained model: a user with predictions
    makes the sort key [x.est] fail on an item name, a user without any has
    no skill to look up. *)
Theorem get_knn_recommendations_always_empty (user_id : Z) (top_n : nat) :
  outcome (get_knn_recommendations user_id top_n) = Ok [].
Proof.
  unfold get_knn_recommendations.
  rewrite (try_except_print (knn_body user_id top_n) "KNN Error: " (fun _ => [])).
  destruct (outcome (knn_body user_id top_n)) as [recs|e] eqn:E; [|reflexivity].
  apply knn_body_nil in E. now subst.
Qed.

(** X17.  When the user has predictions, the call prints the attribute error. *)
Theorem get_knn_recommendations_attribute_error
    (user_id : Z) (top_n : nat) tm predictions p :
  outcome train_knn_model = Ok tm ->
  test_anti_testset (snd tm) (fst tm) = Ok predictions ->
  In p (predictions_for user_id predictions) ->
  exists q,
    In q (predictions_for user_id predictions) /\
    degraded (get_knn_recommendations user_id top_n)
      ("KNN Error: '" ++ type_name (iid q) ++ "' object has no attribute 'est'").
Proof.
  intros Ht Hp Hin. unfold predictions_for in *.
  destruct (filter (fun p => String.eqb (uid p) (str_int user_id)) predictions)
    as [|q l] eqn:Ef; [destruct Hin|].
  exists q. split; [now left|].
  apply (caught (knn_body user_id top_n) "KNN Error: "
           (Exn AttributeError
              ("'" ++ type_name (iid q) ++ "' object has no attribute 'est'"))).
  unfold knn_body. rewrite (io_bind_outcome_ok _ _ _ Ht), Hp.
  rewrite io_bind_outcome. cbn [lift outcome snd].
  rewrite Ef, io_bind_outcome. reflexivity.
Qed.

Lemma nom_of_In (df : list features) (n : Z) (nom : string) :
  nom_of df n = Ok nom ->
  exists f, In f df /\ ID_Etudiant (row f) = n /\ Nom (row f) = nom.
Proof.
  unfold nom_of.
  destruct (filter (fun f => Z.eqb (ID_Etudiant (row f)) n) df) as [|f l] eqn:E;
    [discriminate|].
  intros [= <-].
  assert (Hf : In f (filter (fun f => Z.eqb (ID_Etudiant (row f)) n) df))
    by (rewrite E; now left).
  apply filter_In in Hf. destruct Hf as [Hf Hn]. apply Z.eqb_eq in Hn.
  now exists f.
Qed.

Lemma mapM_Raise_In {A} (col : A -> cell) (l : list A) (e : exn) :
  mapM parse_cell (map col l) = Raise e ->
  exists x, In x l /\ parse_cell (col x) = Raise e.
Proof.
  induction l as [|x l IH]; simpl; [discriminate|].
  destruct (parse_cell (col x)) as [v|e0] eqn:Ex; simpl.
  - destruct (mapM parse_cell (map col l)) as [vs|e1]; simpl; [discriminate|].
    intros [= <-]. destruct (IH eq_refl) as [y [Hy Hp]]. exists y. auto.
  - intros [= <-]. exists x. auto.
Qed.

Lemma mapM_Forall2 {A B} (f : A -> result B) (l : list A) (ys : list B) :
  mapM f l = Ok ys -> Forall2 (fun x y => f x = Ok y) l ys.
Proof.
  revert ys. induction l as [|x l IH]; simpl; intros ys.
  - intros [= <-]. constructor.
  - destruct (f x) as [y|] eqn:Ex; simpl; [|discriminate].
    destruct (mapM f l) as [zs|]; simpl; [|discriminate].
    intros [= <-]. constructor; [assumption | now apply IH].
Qed.

(** X18.  What [get_svd_recommendations] returns: at most [top_n] records; each
    one carries the estimate of one of the user's predictions, and the name
    of a student of the global table whose identifier is the integer that
    the predicted item (a skill of the ratings table) reads as. *)
Theorem get_svd_recommendations_sound
    (df : list features) (user_id : Z) (top_n : nat) tm predictions recs :
  outcome train_svd_model = Ok tm ->
  test_anti_testset (snd tm) (fst tm) = Ok predictions ->
  outcome (get_svd_recommendations df user_id top_n) = Ok recs ->
  (List.length recs <= top_n)%nat /\
  Forall (fun r =>
            exists p n f,
              In p (predictions_for user_id predictions) /\
              svd_Score r = est p /\
              py_int (iid p) = Ok n /\
              In f df /\ ID_Etudiant (row f) = n /\ Nom (row f) = svd_Nom r)
         recs.
Proof.
  intros Ht Hp. unfold get_svd_recommendations.
  rewrite (try_except_print (svd_body df user_id top_n) "SVD Error: " (fun _ => [])).
  destruct (outcome (svd_body df user_id top_n)) as [recs'|e] eqn:E;
    cbn [outcome snd]; intros [= <-]; [|split; [simpl; lia | constructor]].
  unfold svd_body in E.
  rewrite (io_bind_outcome_ok _ _ _ Ht), Hp in E.
  rewrite io_bind_outcome in E. cbn [lift outcome snd] in E.
  fold (predictions_for user_id predictions) in E.
  split.
  - rewrite (mapM_length _ _ _ E). apply firstn_le_length.
  - apply mapM_Forall2 in E.
    assert (Hsub : forall p,
               In p (firstn top_n
                       (sorted PrimFloat.ltb est true
                          (predictions_for user_id predictions))) ->
               In p (predictions_for user_id predictions)).
    { intros p Hin.
      apply (Permutation_in p
               (@sorted_reverse_perm _ _ PrimFloat.ltb est
                  (predictions_for user_id predictions))).
      exact (In_firstn _ _ _ Hin). }
    revert Hsub. induction E as [|p r l rs Hpr _ IH]; intros Hsub; constructor.
    + destruct (py_int (iid p)) as [n|] eqn:En; [|discriminate].
      cbn [bind] in Hpr.
      destruct (nom_of df n) as [nom|] eqn:Enom; [|discriminate].
      cbn [bind] in Hpr. injection Hpr as <-.
      apply nom_of_In in Enom. destruct Enom as [f [Hf [Hn Hnom]]].
      exists p, n, f. repeat split; try assumption.
      apply Hsub. now left.
    + apply IH. intros q Hq. apply Hsub. now right.
Qed.

(** X19.  The items of the ratings table are skills. When none of the items
    predicted for the user reads as an integer, [int(p.iid)] raises on the
    best prediction and the call returns the empty list. *)
Theorem get_svd_recommendations_skill_names
    (df : list features) (user_id : Z) (top_n : nat) tm predictions p :
  outcome train_svd_model = Ok tm ->
  test_anti_testset (snd tm) (fst tm) = Ok predictions ->
  In p (predictions_for user_id predictions) ->
  (forall q, In q (predictions_for user_id predictions) ->
             exists e, py_int (iid q) = Raise e) ->
  (0 < top_n)%nat ->
  exists q e,
    In q (predictions_for user_id predictions) /\
    py_int (iid q) = Raise e /\
    degraded (get_svd_recommendations df user_id top_n)
      ("SVD Error: " ++ exn_msg e).
Proof.
  intros Ht Hp Hin Hall Hn.
  pose proof (@sorted_reverse_perm _ _ PrimFloat.ltb est
                (predictions_for user_id predictions)) as Hperm.
  destruct (sorted PrimFloat.ltb est true (predictions_for user_id predictions))
    as [|q l] eqn:Es.
  { apply Permutation_nil in Hperm.
    rewrite Hperm in Hin. destruct Hin. }
  assert (Hq : In q (predictions_for user_id predictions))
    by (apply (Permutation_in q Hperm); now left).
  destruct (Hall q Hq) as [e He].
  exists q, e. split; [assumption|]. split; [assumption|].
  apply (caught (svd_body df user_id top_n) "SVD Error: " e).
  unfold svd_body. rewrite (io_bind_outcome_ok _ _ _ Ht), Hp.
  rewrite io_bind_outcome. cbn [lift outcome snd].
  fold (predictions_for user_id predictions). rewrite Es.
  destruct top_n as [|k]; [lia|]. cbn [firstn mapM]. rewrite He. reflexivity.
Qed.

(** [preprocess_features] has no guard: a cell of any of the four list
    columns that does not parse, [Coéquipiers] included, makes it raise. *)
Lemma preprocess_features_malformed_cell
    (df : list student) (s : student) (e : exn) :
  In s df ->
  parse_cell (Coequipiers s) = Raise e \/
  parse_cell (Communautes s) = Raise e \/
  parse_cell (Competences s) = Raise e \/
  parse_cell (Centres_d_Interet s) = Raise e ->
  exists s' e',
    In s' df /\
    (parse_cell (Coequipiers s') = Raise e' \/
     parse_cell (Communautes s') = Raise e' \/
     parse_cell (Competences s') = Raise e' \/
     parse_cell (Centres_d_Interet s') = Raise e') /\
    preprocess_features df = Raise e'.
Proof.
  intros Hin Hbad. unfold preprocess_features.
  assert (Hcol : forall (col : student -> cell) e0,
             parse_cell (col s) = Raise e0 ->
             exists s' e', In s' df /\ parse_cell (col s') = Raise e' /\
                           mapM parse_cell (map col df) = Raise e').
  { intros col e0 Hc.
    destruct (mapM_raises parse_cell (map col df) (col s) e0
                (in_map col df s Hin) Hc) as [y [e' [Hy [Hfy Hm]]]].
    apply in_map_iff in Hy. destruct Hy as [s' [<- Hs']].
    now exists s', e'. }
  destruct (mapM parse_cell (map Coequipiers df)) as [coeq|e1] eqn:E1.
  2:{ destruct (mapM_Raise_In _ _ _ E1) as [s' [Hs' Hp]].
      exists s', e1. auto. }
  destruct (mapM parse_cell (map Communautes df)) as [com|e2] eqn:E2.
  2:{ destruct (mapM_Raise_In _ _ _ E2) as [s' [Hs' Hp]].
      exists s', e2. cbn [bind]. auto. }
  destruct (mapM parse_cell (map Competences df)) as [comp|e3] eqn:E3.
  2:{ destruct (mapM_Raise_In _ _ _ E3) as [s' [Hs' Hp]].
      exists s', e3. cbn [bind]. auto 6. }
  destruct (mapM parse_cell (map Centres_d_Interet df)) as [ci|e4] eqn:E4.
  2:{ destruct (mapM_Raise_In _ _ _ E4) as [s' [Hs' Hp]].
      exists s', e4. cbn [bind]. auto 6. }
  exfalso.
  destruct Hbad as [Hc|[Hc|[Hc|Hc]]];
    destruct (Hcol _ _ Hc) as [s' [e' [_ [_ Hm]]]]; congruence.
Qed.

End CollaborativeExtras.

(** ** The profile update *)

Section ProfileUpdateExtras.
Import PyMore ProfileUpdate.

Lemma lstrip_head (s : string) :
  lstrip s = EmptyString \/
  exists c t, lstrip s = String c t /\ is_space c = false.
Proof.
  induction s as [|c s IH]; simpl; [now left|].
  destruct (is_space c) eqn:Ec; [exact IH|]. right. now exists c, s.
Qed.

Lemma rstrip_rstrip (s : string) : rstrip (rstrip s) = rstrip s.
Proof.
  induction s as [|c s IH]; simpl; [reflexivity|].
  destruct (rstrip s) as [|c' r] eqn:Er.
  - destruct (is_space c) eqn:Ec; simpl; [reflexivity | now rewrite Ec].
  - change (match rstrip (String c' r) with
            | EmptyString =>
                if is_space c then EmptyString else String c EmptyString
            | String _ _ as r0 => String c r0
            end = String c (String c' r)).
    now rewrite IH.
Qed.

Lemma rstrip_head (c : ascii) (t : string) :
  is_space c = false -> exists t', rstrip (String c t) = String c t'.
Proof.
  intros Ec. simpl. destruct (rstrip t) as [|c' r].
  - rewrite Ec. now exists EmptyString.
  - now exists (String c' r).
Qed.

Lemma strip_strip (s : string) : strip (strip s) = strip s.
Proof.
  unfold strip at 2 3.
  destruct (lstrip_head s) as [->|[c [t [-> Ec]]]]; [reflexivity|].
  destruct (rstrip_head c t Ec) as [t' Et].
  unfold strip. rewrite Et. cbn [lstrip]. rewrite Ec, <- Et.
  apply rstrip_rstrip.
Qed.

Lemma all_chars_lstrip (f : ascii -> bool) (s : string) :
  all_chars f s = true -> all_chars f (lstrip s) = true.
Proof.
  induction s as [|c s IH]; simpl; [auto|].
  intros Hc. apply andb_true_iff in Hc. destruct Hc as [Hc Hs].
  destruct (is_space c); [auto|]. simpl. now rewrite Hc, Hs.
Qed.

Lemma all_chars_rstrip (f : ascii -> bool) (s : string) :
  all_chars f s = true -> all_chars f (rstrip s) = true.
Proof.
  induction s as [|c s IH]; simpl; [auto|].
  intros Hc. apply andb_true_iff in Hc. destruct Hc as [Hc Hs].
  specialize (IH Hs). destruct (rstrip s) as [|c' r].
  - destruct (is_space c); simpl; [reflexivity | now rewrite Hc].
  - change (f c && all_chars f (String c' r) = true). now rewrite Hc, IH.
Qed.

Lemma all_chars_strip (f : ascii -> bool) (s : string) :
  all_chars f s = true -> all_chars f (strip s) = true.
Proof. intros Hs. now apply all_chars_rstrip, all_chars_lstrip. Qed.

Lemma split_pieces (sep : ascii) (s : string) :
  Forall (fun piece => all_chars (fun c => negb (Ascii.eqb c sep)) piece = true)
         (split sep s).
Proof.
  induction s as [|c s IH]; simpl; [now repeat constructor|].
  destruct (Ascii.eqb c sep) eqn:Ec; [now constructor|].
  destruct (split sep s) as [|piece pieces].
  - repeat constructor. simpl. now rewrite Ec.
  - inversion IH as [|? ? Hp Hps]; subst. constructor; [|assumption].
    simpl. now rewrite Ec, Hp.
Qed.

Lemma nonblank_tidy (s : string) : nonblank s = true -> tidy (strip s).
Proof.
  unfold nonblank, tidy. intros Hs. split; [|apply strip_strip].
  intros E. now rewrite E in Hs.
Qed.

Lemma tidy_nonblank (tag : string) : tidy tag -> nonblank tag = true.
Proof.
  unfold nonblank, tidy. intros [Hne ->]. destruct tag; congruence.
Qed.

Lemma map_filter_Forall {A} (f : A -> string) (l : list A) :
  Forall tidy (map (fun x => strip (f x)) (filter (fun x => nonblank (f x)) l)).
Proof.
  induction l as [|x l IH]; simpl; [constructor|].
  destruct (nonblank (f x)) eqn:Ex; [|exact IH].
  simpl. constructor; [now apply nonblank_tidy | exact IH].
Qed.

Lemma field_value_Tags (field : string) (v : value) (tags : list string) :
  field_value field v = Tags tags ->
  mem field list_fields = true /\ Forall tidy tags.
Proof.
  unfold field_value. destruct (mem field list_fields) eqn:El.
  - intros E. split; [reflexivity|].
    destruct v; injection E as <-; try constructor.
    + apply (map_filter_Forall (fun s => s)).
    + apply (map_filter_Forall str).
  - destruct (mem field notify_fields); discriminate.
Qed.

Lemma update_data_flat_map (profile_data : list (string * value)) :
  update_data profile_data
  = flat_map (fun field =>
                match lookup field profile_data with
                | Some value => [(field, field_value field value)]
                | None => []
                end) allowed_fields.
Proof.
  unfold update_data.
  assert (G : forall fields acc,
             fold_left (step profile_data) fields acc
             = (acc ++ flat_map (fun field =>
                          match lookup field profile_data with
                          | Some value => [(field, field_value field value)]
                          | None => []
                          end) fields)%list).
  { induction fields as [|f fields IH]; intros acc; simpl.
    - now rewrite app_nil_r.
    - rewrite IH. unfold step. destruct (lookup f profile_data); simpl.
      + now rewrite <- app_assoc.
      + reflexivity. }
  apply G.
Qed.

Lemma update_data_In (profile_data : list (string * value))
    (field : string) (st : stored) :
  In (field, st) (update_data profile_data) <->
  In field allowed_fields /\
  exists value, lookup field profile_data = Some value /\
                st = field_value field value.
Proof.
  rewrite update_data_flat_map, in_flat_map. split.
  - intros [f [Hf Hin]]. destruct (lookup f profile_data) as [v|] eqn:El;
      [|destruct Hin].
    destruct Hin as [[= <- <-]|[]]. split; [assumption|]. now exists v.
  - intros [Hf [v [Hl ->]]]. exists field. split; [assumption|].
    rewrite Hl. now left.
Qed.

Lemma update_profile_calls
    (rt_db : option (list (string * stored) -> result unit))
    (profile_data : list (string * value)) :
  fst (update_profile rt_db profile_data) = [] \/
  fst (update_profile rt_db profile_data) = [update_data profile_data].
Proof.
  unfold update_profile. destruct rt_db as [update|]; [|now left].
  destruct (update_data profile_data) as [|x l] eqn:E; [now left|].
  destruct (update (x :: l)); now right.
Qed.

(** X20.  The handler writes nothing but the allow-listed fields of the request:
    what it passes to the database holds a field exactly when the field is
    allow-listed and present in the body, with the value derived from the
    body; every other key of the body is dropped.  It writes at most once,
    and not at all when no allow-listed field is present. *)
Theorem update_profile_writes_allowed_fields_only
    (rt_db : option (list (string * stored) -> result unit))
    (profile_data : list (string * value)) :
  (List.length (fst (update_profile rt_db profile_data)) <= 1)%nat /\
  Forall (fun written =>
            written <> [] /\
            NoDup (map fst written) /\
            forall field st,
              In (field, st) written <->
              In field allowed_fields /\
              exists value, lookup field profile_data = Some value /\
                            st = field_value field value)
         (fst (update_profile rt_db profile_data)) /\
  ((forall field, In field allowed_fields ->
                  lookup field profile_data = None) ->
   fst (update_profile rt_db profile_data) = []).
Proof.
  split; [|split].
  - destruct (update_profile_calls rt_db profile_data) as [->| ->]; simpl; lia.
  - assert (Hc : forall written,
               In written (fst (update_profile rt_db profile_data)) ->
               written = update_data profile_data /\ written <> []).
    { unfold update_profile. destruct rt_db as [update|]; [|intros ? []].
      destruct (update_data profile_data) as [|x l] eqn:E; [intros ? []|].
      destruct (update (x :: l)); intros written [<-|[]]; now split. }
    apply Forall_forall. intros written Hw.
    destruct (Hc written Hw) as [-> Hne]. split; [exact Hne|]. split.
    + rewrite update_data_flat_map.
      assert (G : forall fields,
                 NoDup fields ->
                 NoDup (map fst
                          (flat_map (fun field =>
                             match lookup field profile_data with
                             | Some value => [(field, field_value field value)]
                             | None => []
                             end) fields)) /\
                 forall k, In k (map fst
                          (flat_map (fun field =>
                             match lookup field profile_data with
                             | Some value => [(field, field_value field value)]
                             | None => []
                             end) fields)) -> In k fields).
      { induction 1 as [|f fields Hnin Hnd [IH1 IH2]]; simpl.
        - split; [constructor | tauto].
        - destruct (lookup f profile_data); simpl.
          + split; [constructor; auto | intuition].
          + split; [assumption | intuition]. }
      apply G. unfold allowed_fields.
      repeat (constructor; [simpl; intuition discriminate|]). constructor.
    + apply update_data_In.
  - intros Hnone. unfold update_profile. destruct rt_db as [update|]; [|reflexivity].
    rewrite update_data_flat_map.
    assert (G : forall fields,
               (forall field, In field fields -> lookup field profile_data = None) ->
               flat_map (fun field =>
                           match lookup field profile_data with
                           | Some value => [(field, field_value field value)]
                           | None => []
                           end) fields = []).
    { induction fields as [|f fields IH]; intros Hf; simpl; [reflexivity|].
      rewrite (Hf f (or_introl eq_refl)). apply IH. intros g Hg. apply Hf. now right. }
    now rewrite (G allowed_fields Hnone).
Qed.

(** X21.  Every tag written is tidy: it is not empty and has no white space
    around; a tag list derived from a string has no comma in any tag;
    anything but a string or a list becomes the empty tag list. *)
Theorem update_profile_tags_tidy
    (rt_db : option (list (string * stored) -> result unit))
    (profile_data : list (string * value)) :
  Forall (fun written =>
            forall field tags,
              In (field, Tags tags) written ->
              Forall tidy tags /\
              exists value,
                lookup field profile_data = Some value /\
                match value with
                | VStr _ =>
                    Forall (fun tag =>
                              all_chars (fun c => negb (Ascii.eqb c ","%char)) tag
                              = true) tags
                | VList l => (List.length tags <= List.length l)%nat
                | _ => tags = []
                end)
         (fst (update_profile rt_db profile_data)).
Proof.
  destruct (update_profile_calls rt_db profile_data) as [->| ->];
    constructor; [|constructor].
  intros field tags Hin. apply update_data_In in Hin.
  destruct Hin as [_ [v [Hl E]]]. symmetry in E.
  destruct (field_value_Tags _ _ _ E) as [Hm Ht]. split; [exact Ht|].
  exists v. split; [exact Hl|].
  unfold field_value in E. rewrite Hm in E.
  destruct v; injection E as <-; try reflexivity.
  - pose proof (split_pieces ","%char s) as Hp. clear Ht.
    induction Hp as [|piece pieces Hpiece _ IH]; simpl; [constructor|].
    destruct (nonblank piece); [|exact IH].
    simpl. constructor; [now apply all_chars_strip | exact IH].
  - rewrite length_map. apply filter_length_le.
Qed.

(** X22.  Sending a stored tag list back stores the same list. *)
Theorem field_value_resubmitted
    (field : string) (v : value) (tags : list string) :
  field_value field v = Tags tags ->
  field_value field (VList (map EStr tags)) = Tags tags.
Proof.
  intros E. destruct (field_value_Tags _ _ _ E) as [Hm Ht].
  unfold field_value. rewrite Hm. f_equal.
  clear E. induction Ht as [|tag tags Htag _ IH]; simpl; [reflexivity|].
  rewrite (tidy_nonblank _ Htag). simpl. destruct Htag as [_ ->]. now rewrite IH.
Qed.

End ProfileUpdateExtras.

(** ** The home page *)

Section PagesExtras.
Import Store PyMore Pages.



Lemma pages_bound (n pp : nat) :
  (0 < pp)%nat ->
  (n <= (n + pp - 1) / pp * pp)%nat /\
  (forall k, k < (n + pp - 1) / pp -> k * pp < n)%nat.
Proof.
  intros Hpp.
  pose proof (Nat.div_mod_eq (n + pp - 1) pp) as E.
  pose proof (Nat.mod_upper_bound (n + pp - 1) pp) as Hr.
  set (q := ((n + pp - 1) / pp)%nat) in *.
  set (r := ((n + pp - 1) mod pp)%nat) in *.
  split; [nia|]. intros k Hk. nia.
Qed.









(** X24.  One entry that is no record (the hole an erased course leaves in a
    list) empties the home page: no course and no recommendation is shown
    on any page, to any user, while the page count still counts every
    entry. *)
Theorem home_malformed_entry
    (all_contents_raw : contents_raw)
    (user : option (result (option profile)))
    (page per_page : positive) :
  In NotADict (contents_list all_contents_raw) ->
  let data := home (Some (Ok all_contents_raw)) user page per_page in
  data_general_courses data = [] /\
  data_recommendations data = [] /\
  (0 < data_total_pages data)%nat /\
  (List.length (contents_list all_contents_raw)
   <= data_total_pages data * Pos.to_nat per_page)%nat.
Proof.
  intros Hin data.
  destruct (mapM_raises rating_key (contents_list all_contents_raw) NotADict
              (Exn AttributeError "'NoneType' object has no attribute 'get'")
              Hin eq_refl) as [y [e' [_ [_ Hm]]]].
  assert (Hd : data
               = PageData [] []
                   ((List.length (contents_list all_contents_raw)
                     + Pos.to_nat per_page - 1) / Pos.to_nat per_page)
                   (Pos.to_nat page) (Pos.to_nat per_page)).
  { unfold data, home, sorted_by_rating. now rewrite Hm. }
  rewrite Hd. cbn [data_general_courses data_recommendations data_total_pages].
  pose proof (Pos2Nat.is_pos per_page) as Hpp.
  destruct (pages_bound (List.length (contents_list all_contents_raw))
              (Pos.to_nat per_page) Hpp) as [Hup _].
  assert (Hn : (0 < List.length (contents_list all_contents_raw))%nat).
  { destruct (contents_list all_contents_raw); [destruct Hin | simpl; lia]. }
  repeat split; [nia | exact Hup].
Qed.

(** Without a database, or when fetching the catalog fails, the page is
    empty and has no pages; an anonymous visitor, or a failing profile
    fetch, gets the courses without recommendations. *)
Theorem home_degrades
    (rt_db : option (result contents_raw))
    (user : option (result (option profile)))
    (page per_page : positive) :
  let data := home rt_db user page per_page in
  ((rt_db = None \/ exists e, rt_db = Some (Raise e)) ->
   data_general_courses data = [] /\ data_recommendations data = [] /\
   data_total_pages data = 0%nat) /\
  ((user = None \/ exists e, user = Some (Raise e)) ->
   data_recommendations data = [] /\
   data_general_courses data
   = data_general_courses (home rt_db None page per_page)).
Proof.
  intros data. split.
  - intros [->|[e ->]]; now repeat split.
  - intros Hu. unfold data, home.
    destruct rt_db as [[raw|e]|]; try (now split).
    destruct (sorted_by_rating (contents_list raw)); [|now split].
    destruct Hu as [->|[e ->]]; now split.
Qed.

End PagesExtras.

(** ** The rankings by interactions and by similarity *)

Section SimilarExtras.
Import Evaluation Recommender PyMore Similar.
Context `{Builtins} `{Files} `{Sklearn} `{Pandas}.

(** X25.  The global ranking shows the six students with the most interactions,
    most active first (all of them when there are fewer than six): no
    student left out has more interactions than one shown. *)
Theorem get_global_recommendations_top6 (df : list features) :
  sort_values_contract ->
  exists shown rest,
    Permutation (shown ++ rest) df /\
    get_global_recommendations df = map global_record shown /\
    List.length shown = Nat.min 6 (List.length df) /\
    StronglySorted by_interactions shown /\
    Forall (fun s => Forall (by_interactions s) rest) shown.
Proof.
  intros Hsort. destruct (Hsort df) as [Hperm Hs].
  exists (firstn 6 (sort_values df)), (skipn 6 (sort_values df)).
  split; [|split; [|split; [|split]]].
  - rewrite firstn_skipn. exact Hperm.
  - reflexivity.
  - rewrite length_firstn.
    now rewrite (Permutation_length Hperm).
  - now apply StronglySorted_firstn.
  - rewrite <- (firstn_skipn 6 (sort_values df)) in Hs.
    apply Forall_forall. intros a Ha. apply Forall_forall. intros b Hb.
    exact (StronglySorted_app_inv _ _ _ Hs a b Ha Hb).
Qed.

Lemma enumerate_In {A} (i k : nat) (x : A) (l : list A) :
  In (i, x) (enumerate k l) -> (k <= i)%nat /\ nth_error l (i - k) = Some x.
Proof.
  revert k. induction l as [|y l IH]; intros k; simpl; [tauto|].
  intros [[= -> ->]|Hin].
  - split; [lia|]. now rewrite Nat.sub_diag.
  - destruct (IH _ Hin) as [Hle Hn]. split; [lia|].
    replace (i - k)%nat with (S (i - S k)) by lia. exact Hn.
Qed.

Lemma enumerate_fst {A} (k : nat) (l : list A) :
  map fst (enumerate k l) = seq k (List.length l).
Proof.
  revert k. induction l as [|y l IH]; intros k; simpl;
    [reflexivity | now rewrite IH].
Qed.

Lemma NoDup_map_filter {A B} (key : A -> B) (keep : A -> bool)
    (xs : list A) :
  NoDup (map key xs) -> NoDup (map key (filter keep xs)).
Proof.
  intros Hnd. induction xs as [|x xs IH]; simpl; [constructor|].
  simpl in Hnd. apply NoDup_cons_iff in Hnd. destruct Hnd as [Hnin Hnd].
  destruct (keep x); simpl; [|now apply IH].
  constructor; [|now apply IH].
  intros Hin. apply Hnin. apply in_map_iff in Hin.
  destruct Hin as [y [Ey Hy]]. apply filter_In in Hy.
  apply in_map_iff. exists y. tauto.
Qed.

Lemma filter_enumerate_first {A} (p : A -> bool) (l : list A)
    (k idx : nat) (others : list nat) :
  map fst (filter (fun ir => p (snd ir)) (enumerate k l)) = idx :: others ->
  (k <= idx)%nat /\
  (exists x, nth_error l (idx - k) = Some x /\ p x = true) /\
  forall j x, (k <= j < idx)%nat -> nth_error l (j - k) = Some x -> p x = false.
Proof.
  revert k. induction l as [|a l IH]; intros k; simpl; [discriminate|].
  destruct (p a) eqn:Ea; simpl.
  - intros [= <- _]. split; [lia|]. split.
    + exists a. now rewrite Nat.sub_diag.
    + intros j x Hj. lia.
  - intros E. destruct (IH _ E) as [Hle [[x [Hx Hp]] Hb]].
    split; [lia|]. split.
    + exists x. split; [|exact Hp].
      replace (idx - k)%nat with (S (idx - S k)) by lia. exact Hx.
    + intros j y Hj Hy. destruct (Nat.eq_dec j k) as [->|Hne].
      * rewrite Nat.sub_diag in Hy. injection Hy as <-. exact Ea.
      * apply (Hb j y); [lia|].
        replace (j - k)%nat with (S (j - S k)) in Hy by lia. exact Hy.
Qed.

(** X26.  What the ranking by similarity returns: at most [top_n] students of
    the dataset, each listed once, taken at positions other than the
    position of the first row that carries [user_id], each with its entry
    of that row of the similarity matrix.  The requesting student is left
    out by position: with identifiers that are unique in the dataset, no
    record carries [user_id]. *)
Theorem get_user_recommendations_sound
    (user_id : Z) (top_n : nat) df0 df cosine_sim recs :
  load_data = Ok df0 ->
  preprocess_features df0 = Ok df ->
  compute_similarity_matrix df = Ok cosine_sim ->
  get_user_recommendations user_id top_n = Ok recs ->
  (List.length recs <= top_n)%nat /\
  (recs = [] \/
   exists idx me sim_row positions,
     first_row_of user_id df idx me /\
     nth_error cosine_sim idx = Some sim_row /\
     NoDup positions /\ ~ In idx positions /\
     Forall2 (fun i r =>
                exists student,
                  nth_error df i = Some student /\
                  u_ID r = ID_Etudiant (row student) /\
                  u_Nom r = Nom (row student) /\
                  nth_error sim_row i = Some (u_Similarity r))
             positions recs) /\
  (NoDup (map (fun f => ID_Etudiant (row f)) df) ->
   Forall (fun r => u_ID r <> user_id) recs).
Proof.
  intros Hload Hpre Hsim. unfold get_user_recommendations.
  rewrite Hload. cbn [bind]. rewrite Hpre. cbn [bind]. rewrite Hsim. cbn [bind].
  destruct (map fst (filter (fun ir => Z.eqb (ID_Etudiant (row (snd ir))) user_id)
                            (enumerate 0 df))) as [|idx others] eqn:Ei.
  { intros [= <-]. split; [simpl; lia|]. split; [now left | constructor]. }
  assert (Hidx : exists me, first_row_of user_id df idx me).
  { destruct (filter_enumerate_first
                (fun f => Z.eqb (ID_Etudiant (row f)) user_id) df 0 idx others Ei)
      as [_ [[me [Hme Hid]] Hbefore]].
    rewrite Nat.sub_0_r in Hme. exists me. split; [exact Hme|].
    split; [now apply Z.eqb_eq|].
    intros j f Hj Hf. apply Z.eqb_neq. apply (Hbefore j f); [lia|].
    now rewrite Nat.sub_0_r. }
  destruct Hidx as [me Hfirst].
  pose proof (proj1 Hfirst) as Hme.
  pose proof (proj1 (proj2 Hfirst)) as Hid.
  unfold at_index at 1.
  destruct (nth_error cosine_sim idx) as [sim_row|] eqn:Erow; [|discriminate].
  cbn [bind].
  set (sim_scores :=
         firstn top_n
           (filter (fun score => negb (Nat.eqb (fst score) idx))
                   (sorted PrimFloat.ltb snd true (enumerate 0 sim_row)))).
  intros Hm.
  assert (Hlen : (List.length recs <= top_n)%nat).
  { rewrite (mapM_length _ _ _ Hm). unfold sim_scores. apply firstn_le_length. }
  assert (Hscores : forall score, In score sim_scores ->
                      fst score <> idx /\
                      nth_error sim_row (fst score) = Some (snd score)).
  { intros [i x] Hin. unfold sim_scores in Hin.
    apply In_firstn, filter_In in Hin. destruct Hin as [Hin Hne].
    apply (Permutation_in _ (sorted_reverse_perm PrimFloat.ltb
                               (@snd nat float) (enumerate 0 sim_row))) in Hin.
    apply enumerate_In in Hin. rewrite Nat.sub_0_r in Hin.
    simpl in *. split; [|tauto].
    apply negb_true_iff, Nat.eqb_neq in Hne. exact Hne. }
  assert (Hnd : NoDup (map fst sim_scores)).
  { unfold sim_scores. rewrite <- firstn_map. apply NoDup_firstn.
    apply NoDup_map_filter.
    apply (Permutation_NoDup
             (Permutation_sym
                (Permutation_map fst
                   (sorted_reverse_perm PrimFloat.ltb (@snd nat float)
                      (enumerate 0 sim_row))))).
    rewrite enumerate_fst. apply seq_NoDup. }
  apply mapM_Forall2 in Hm.
  assert (Hrecs : Forall2 (fun i r =>
                    exists student,
                      nth_error df i = Some student /\
                      u_ID r = ID_Etudiant (row student) /\
                      u_Nom r = Nom (row student) /\
                      nth_error sim_row i = Some (u_Similarity r))
                    (map fst sim_scores) recs).
  { clear Hnd Hlen. revert Hscores.
    induction Hm as [|score r l rs Hr _ IH]; intros Hscores; simpl;
      constructor.
    - unfold at_index in Hr.
      destruct (nth_error df (fst score)) as [student|] eqn:Es;
        [|discriminate].
      cbn [bind] in Hr. injection Hr as <-. exists student. simpl.
      repeat split; try assumption.
      apply Hscores. now left.
    - apply IH. intros s Hs. apply Hscores. now right. }
  split; [exact Hlen|]. split.
  - right. exists idx, me, sim_row, (map fst sim_scores).
    split; [exact Hfirst|]. split; [exact Erow|]. split; [exact Hnd|].
    split; [|exact Hrecs].
    intros Hin. apply in_map_iff in Hin. destruct Hin as [s [Es Hs]].
    exact (proj1 (Hscores s Hs) Es).
  - intros Hids.
    assert (Hpos : forall i, In i (map fst sim_scores) -> i <> idx).
    { intros i Hin. apply in_map_iff in Hin. destruct Hin as [s [<- Hs]].
      exact (proj1 (Hscores s Hs)). }
    set (positions := map fst sim_scores) in *. clearbody positions.
    clear Hm Hlen Hnd. revert Hpos. induction Hrecs as [|i r l rs [student [Hs [Hu _]]] _ IH];
      intros Hpos; constructor.
    + rewrite Hu. intros Eid. apply (Hpos i (or_introl eq_refl)).
      apply (proj1 (NoDup_nth_error (map (fun f => ID_Etudiant (row f)) df)) Hids i idx).
      * rewrite length_map. apply nth_error_Some. congruence.
      * rewrite !nth_error_map, Hs, Hme. simpl. congruence.
    + apply IH. intros j Hj. apply Hpos. now right.
Qed.

(** X27.  A student the dataset does not hold gets the empty list, once the
    dataset is read and the similarity matrix is computed. *)
Theorem get_user_recommendations_unknown_student
    (user_id : Z) (top_n : nat) df0 df :
  load_data = Ok df0 ->
  preprocess_features df0 = Ok df ->
  (forall f, In f df -> ID_Etudiant (row f) <> user_id) ->
  get_user_recommendations user_id top_n
  = bind (compute_similarity_matrix df) (fun _ => Ok []).
Proof.
  intros Hload Hpre Hnone. unfold get_user_recommendations.
  rewrite Hload. cbn [bind]. rewrite Hpre. cbn [bind].
  destruct (compute_similarity_matrix df) as [cosine_sim|e]; [|reflexivity].
  cbn [bind].
  assert (E : filter (fun ir => Z.eqb (ID_Etudiant (row (snd ir))) user_id)
                     (enumerate 0 df) = []).
  { clear Hpre cosine_sim. generalize 0%nat.
    induction df as [|f l IH]; intros k; simpl; [reflexivity|].
    destruct (Z.eqb_spec (ID_Etudiant (row f)) user_id) as [E|_].
    - exfalso. apply (Hnone f); [now left | exact E].
    - apply IH. intros g Hg. apply Hnone. now right. }
  now rewrite E.
Qed.

(** X28.  Nothing guards the ranking by similarity against the dataset: a cell
    of a list column that does not parse makes the call raise. *)
Theorem get_user_recommendations_malformed_cell
    (user_id : Z) (top_n : nat) df0 (s : student) (e : exn) :
  load_data = Ok df0 ->
  In s df0 ->
  parse_cell (Coequipiers s) = Raise e \/
  parse_cell (Communautes s) = Raise e \/
  parse_cell (Competences s) = Raise e \/
  parse_cell (Centres_d_Interet s) = Raise e ->
  exists s' e',
    In s' df0 /\
    (parse_cell (Coequipiers s') = Raise e' \/
     parse_cell (Communautes s') = Raise e' \/
     parse_cell (Competences s') = Raise e' \/
     parse_cell (Centres_d_Interet s') = Raise e') /\
    preprocess_features df0 = Raise e' /\
    get_user_recommendations user_id top_n = Raise e'.
Proof.
  intros Hload Hin Hbad.
  destruct (preprocess_features_malformed_cell df0 s e Hin Hbad)
    as [s' [e' [Hs' [Hbad' Hp]]]].
  exists s', e'. repeat split; try assumption.
  unfold get_user_recommendations. rewrite Hload. cbn [bind]. now rewrite Hp.
Qed.

End SimilarExtras.

(** ** Adding a student to the dataset *)

Section DatasetExtras.
Import Evaluation Recommender Similar.
Context `{Builtins} `{Files} `{Sklearn} `{Disk}.



End DatasetExtras.

(** ** The further properties on the example data *)

Section ConcreteExtras.
Import Store RecommendationMethods Evaluation Recommender.
Import PyMore Pages ProfileUpdate Similar.
Import Reference Examples MoreExamples.

Lemma generate_recommendations_exact_rust :
  In (App.record_of "0" (course "Intro to Rust" "Systems" 4))
     (App.generate_recommendations (Some rust_user) two_courses) <->
  exists default c,
    stored_under two_courses default c /\
    ~ interacted rust_user (identifier default c) /\
    mentions rust_user c /\
    App.record_of "0" (course "Intro to Rust" "Systems" 4)
    = App.record_of (identifier default c) c.
Proof.
  apply (generate_recommendations_exact rust_user two_courses
           (App.record_of "0" (course "Intro to Rust" "Systems" 4))).
  - reflexivity.
  - vm_compute. lia.
Defined.

Lemma blank_keyword_matches_cooking :
  App.matches (App.keywords blank_user) (course "Cooking 101" "Food" 9) = true.
Proof.
  apply (blank_keyword_matches_everything blank_user
           (course "Cooking 101" "Food" 9)).
  simpl. left. reflexivity.
Defined.

Lemma generate_recommendations_no_duplicate_keyed :
  NoDup (map rec_id
           (App.generate_recommendations (Some rust_user) keyed_courses)).
Proof.
  apply (generate_recommendations_no_duplicate (Some rust_user) keyed_courses).
  split.
  - simpl. repeat constructor; simpl; intuition discriminate.
  - intros k c [E|[E|[]]]; injection E as _ <-; reflexivity.
Defined.


Lemma vocabulary_covers_bob :
  exists i,
    nth_error
      (sorted_set (flat_map (fun u => profile_terms (snd u)) three_users)) i
    = Some "python"%string /\
    nth_error
      (vectorize_user_profile (member "Bob" [SStr "python"])
         (sorted_set (flat_map (fun u => profile_terms (snd u)) three_users)))
      i
    = Some 1%Z.
Proof.
  apply (vocabulary_covers_every_user three_users "u2"
           (member "Bob" [SStr "python"]) "python").
  - right. left. reflexivity.
  - vm_compute. left. reflexivity.
Defined.

Lemma create_ratings_df_quoted_skill :
  @create_ratings_df builtins odd_disk "dataset/quoted.csv"
  = ([], Ok (DataFrame ratings_columns
               [("1", OStr "a", 3); ("1", OStr "b", 3);
                ("2", OStr "s", 6.5); ("2", OStr "q", 6.5);
                ("2", OStr "l", 6.5)]%string%float)).
Proof.
  apply (@create_ratings_df_iterates_cells builtins odd_disk
           "dataset/quoted.csv"
           [row 1 "Ada" "['a', 'b']" 50; row 2 "Bob" "'sql'" 100]
           [[OStr "a"; OStr "b"]; [OStr "s"; OStr "q"; OStr "l"]]).
  - reflexivity.
  - repeat constructor; eexists; split; reflexivity.
Defined.

Lemma create_ratings_df_number_skill :
  exists e,
    exn_kind_of e = TypeError /\
    @create_ratings_df builtins odd_disk "dataset/number.csv" = ([], Raise e) /\
    @evaluate_surprise_models builtins odd_disk good_run "dataset/number.csv"
    = (["Error in evaluate_surprise_models: " ++ exn_msg e]%string,
       Ok (ReportError (exn_msg e))).
Proof.
  apply (@create_ratings_df_unsized_cell_raises builtins odd_disk good_run
           "dataset/number.csv"
           [row 1 "Ada" "['a', 'b']" 50; row 2 "Bob" "7" 100]
           (row 2 "Bob" "7" 100)).
  - reflexivity.
  - repeat constructor; eexists; reflexivity.
  - right. left. reflexivity.
  - exists (OInt 7). split; [reflexivity|]. right. now exists 7%Z.
Defined.

Lemma unreadable_dataset_missing :
  @create_ratings_df builtins disk "dataset/missing.csv"
  = ([], Raise (Exn OSError
                  "[Errno 2] No such file or directory: 'dataset/missing.csv'")) /\
  @evaluate_surprise_models builtins disk good_run "dataset/missing.csv"
  = (["Error in evaluate_surprise_models: [Errno 2] No such file or directory: 'dataset/missing.csv'"]%string,
     Ok (ReportError
           "[Errno 2] No such file or directory: 'dataset/missing.csv'")).
Proof.
  apply (@unreadable_dataset builtins disk good_run "dataset/missing.csv"
           (Exn OSError
              "[Errno 2] No such file or directory: 'dataset/missing.csv'")).
  reflexivity.
Defined.

Lemma no_skill_no_ratings_idle :
  @create_ratings_df builtins odd_disk "dataset/idle.csv"
  = ([], Ok (DataFrame ratings_columns [])) /\
  @evaluate_surprise_models builtins odd_disk good_run "dataset/idle.csv"
  = ([], Ok (ReportError "No valid ratings data available")).
Proof.
  apply (@no_skill_no_ratings builtins odd_disk good_run "dataset/idle.csv"
           [row 1 "Ada" "[]" 50; row 2 "Bob" "[]" 100]).
  - reflexivity.
  - repeat constructor; eexists; split; reflexivity.
Defined.

Lemma training_on_malformed_default :
  exists s' e' err,
    @first_parse_error builtins
      [row 1 "Ada" "['a', 'b']" 50; row 2 "Bob" "[python, 'java'" 100] s' e' /\
    exn_kind_of err = KeyError /\
    @train_knn_model builtins odd_disk good_run
    = (["Error parsing 'Compétences' column: " ++ exn_msg e']%string,
       Raise err) /\
    @train_svd_model builtins odd_disk good_run
    = (["Error parsing 'Compétences' column: " ++ exn_msg e']%string,
       Raise err) /\
    @get_knn_recommendations builtins odd_disk good_run 1 5
    = (["Error parsing 'Compétences' column: " ++ exn_msg e';
        "KNN Error: " ++ exn_msg err]%string, Ok []) /\
    @get_svd_recommendations builtins odd_disk good_run [] 1 5
    = (["Error parsing 'Compétences' column: " ++ exn_msg e';
        "SVD Error: " ++ exn_msg err]%string, Ok []).
Proof.
  apply (@training_on_malformed_dataset builtins odd_disk good_run
           [row 1 "Ada" "['a', 'b']" 50; row 2 "Bob" "[python, 'java'" 100]
           (row 2 "Bob" "[python, 'java'" 100)
           (Exn SyntaxError "invalid syntax") [] 1 5).
  - reflexivity.
  - right. left. reflexivity.
  - reflexivity.
Defined.

Lemma extract_youtube_id_wellformed_watch :
  String.length "dQw4w9WgXcQ" = 11%nat /\
  all_chars id_char "dQw4w9WgXcQ" = true.
Proof.
  apply (extract_youtube_id_wellformed
           (Some "https://www.youtube.com/watch?v=dQw4w9WgXcQ"%string)
           "dQw4w9WgXcQ").
  vm_compute. reflexivity.
Defined.

Lemma extract_youtube_id_of_built_url_timed :
  App.extract_youtube_id
    (Some ("https://www.youtube.com/watch?v=" ++ "dQw4w9WgXcQ" ++ "&t=42s")%string)
  = Some "dQw4w9WgXcQ"%string /\
  App.extract_youtube_id
    (Some ("https://www.youtube.com/embed/" ++ "dQw4w9WgXcQ" ++ "&t=42s")%string)
  = Some "dQw4w9WgXcQ"%string.
Proof.
  apply (extract_youtube_id_of_built_url "dQw4w9WgXcQ" "&t=42s");
    reflexivity.
Defined.

Lemma get_knn_recommendations_attribute_error_run :
  exists q,
    In q (predictions_for 1
            [Prediction "1" (OStr "x") 4; Prediction "2" (OStr "a") 3]%float) /\
    degraded (@get_knn_recommendations builtins disk good_run 1 5)
      ("KNN Error: '" ++ type_name (iid q) ++ "' object has no attribute 'est'").
Proof.
  eapply (@get_knn_recommendations_attribute_error builtins disk good_run
            1 5 _ _ (Prediction "1" (OStr "x") 4%float)).
  - vm_compute. reflexivity.
  - reflexivity.
  - left. reflexivity.
Defined.

Lemma get_svd_recommendations_sound_run :
  (List.length [SvdRecommendation "Bob" 4.5%float] <= 1)%nat /\
  Forall (fun r =>
            exists p n f,
              In p (predictions_for 1
                      [Prediction "1" (OStr "2") 4.5; Prediction "1" (OStr "x") 3;
                       Prediction "2" (OStr "1") 2]%float) /\
              svd_Score r = est p /\
              @py_int builtins (iid p) = Ok n /\
              In f table /\ ID_Etudiant (Recommender.row f) = n /\ Nom (Recommender.row f) = svd_Nom r)
         [SvdRecommendation "Bob" 4.5%float].
Proof.
  eapply (@get_svd_recommendations_sound builtins disk numeric_run
            table 1 1 _ _ [SvdRecommendation "Bob" 4.5%float]).
  - vm_compute. reflexivity.
  - reflexivity.
  - vm_compute. reflexivity.
Defined.

Lemma get_svd_recommendations_skill_names_run :
  exists q e,
    In q (predictions_for 1
            [Prediction "1" (OStr "x") 4; Prediction "2" (OStr "a") 3]%float) /\
    @py_int builtins (iid q) = Raise e /\
    degraded (@get_svd_recommendations builtins disk good_run table 1 5)
      ("SVD Error: " ++ exn_msg e).
Proof.
  eapply (@get_svd_recommendations_skill_names builtins disk good_run
            table 1 5 _ _ (Prediction "1" (OStr "x") 4%float)).
  - vm_compute. reflexivity.
  - reflexivity.
  - left. reflexivity.
  - intros q Hq. vm_compute in Hq. destruct Hq as [<-|[]].
    eexists. vm_compute. reflexivity.
  - lia.
Defined.

Lemma field_value_resubmitted_skills :
  field_value "Compétences" (VList (map EStr ["python"; "sql"]%string))
  = Tags ["python"; "sql"]%string.
Proof.
  apply (field_value_resubmitted "Compétences" (VStr " python , ,sql ")
           ["python"; "sql"]%string).
  vm_compute. reflexivity.
Defined.


Lemma home_malformed_entry_sparse :
  data_general_courses
    (home (Some (Ok sparse_courses)) (Some (Ok (Some rust_user))) 1 6) = [] /\
  data_recommendations
    (home (Some (Ok sparse_courses)) (Some (Ok (Some rust_user))) 1 6) = [] /\
  (0 < data_total_pages
         (home (Some (Ok sparse_courses)) (Some (Ok (Some rust_user))) 1 6))%nat /\
  (List.length (contents_list sparse_courses)
   <= data_total_pages
        (home (Some (Ok sparse_courses)) (Some (Ok (Some rust_user))) 1 6)
      * Pos.to_nat 6)%nat.
Proof.
  apply (home_malformed_entry sparse_courses (Some (Ok (Some rust_user))) 1 6).
  right. left. reflexivity.
Defined.

Lemma by_insertion_contract : @sort_values_contract by_insertion.
Proof.
  intros df. split.
  - apply (sorted_reverse_perm Z.ltb
             (fun f => Nombre_Interactions (Recommender.row f)) df).
  - apply (sorted_reverse_descending Z.ltb
             (fun f => Nombre_Interactions (Recommender.row f)) Z.le).
    + intros a b Hab. apply Z.ltb_lt in Hab. lia.
    + intros a b Hab. apply Z.ltb_ge in Hab. exact Hab.
    + intros a b c. apply Z.le_trans.
Qed.

Lemma get_global_recommendations_top6_table :
  exists shown rest,
    Permutation (shown ++ rest) table /\
    @get_global_recommendations by_insertion table = map global_record shown /\
    List.length shown = Nat.min 6 (List.length table) /\
    StronglySorted by_interactions shown /\
    Forall (fun s => Forall (by_interactions s) rest) shown.
Proof.
  apply (@get_global_recommendations_top6 by_insertion table).
  exact by_insertion_contract.
Defined.

Lemma get_user_recommendations_sound_ada :
  (List.length [UserRecommendation 2 "Bob" 0.5%float] <= 6)%nat /\
  ([UserRecommendation 2 "Bob" 0.5%float] = [] \/
   exists idx me sim_row positions,
     first_row_of 1 table idx me /\
     nth_error [[1; 0.5]; [0.5; 1]]%float idx = Some sim_row /\
     NoDup positions /\ ~ In idx positions /\
     Forall2 (fun i r =>
                exists student,
                  nth_error table i = Some student /\
                  u_ID r = ID_Etudiant (Recommender.row student) /\
                  u_Nom r = Nom (Recommender.row student) /\
                  nth_error sim_row i = Some (u_Similarity r))
             positions [UserRecommendation 2 "Bob" 0.5%float]) /\
  (NoDup (map (fun f => ID_Etudiant (Recommender.row f)) table) ->
   Forall (fun r => u_ID r <> 1%Z) [UserRecommendation 2 "Bob" 0.5%float]).
Proof.
  apply (@get_user_recommendations_sound builtins disk half_similar 1 6
           [row 1 "Ada" "['a', 'b']" 50; row 2 "Bob" "['x']" 100]
           table [[1; 0.5]; [0.5; 1]]%float
           [UserRecommendation 2 "Bob" 0.5%float]).
  - reflexivity.
  - vm_compute. reflexivity.
  - reflexivity.
  - vm_compute. reflexivity.
Defined.

Lemma get_user_recommendations_unknown_7 :
  @get_user_recommendations builtins disk half_similar 7 6
  = bind (@compute_similarity_matrix half_similar table) (fun _ => Ok []).
Proof.
  apply (@get_user_recommendations_unknown_student builtins disk half_similar
           7 6 [row 1 "Ada" "['a', 'b']" 50; row 2 "Bob" "['x']" 100] table).
  - reflexivity.
  - vm_compute. reflexivity.
  - intros f [<-|[<-|[]]]; discriminate.
Defined.

Lemma get_user_recommendations_malformed_default :
  exists s' e',
    In s' [row 1 "Ada" "['a', 'b']" 50; row 2 "Bob" "[python, 'java'" 100] /\
    (@parse_cell builtins (Coequipiers s') = Raise e' \/
     @parse_cell builtins (Communautes s') = Raise e' \/
     @parse_cell builtins (Competences s') = Raise e' \/
     @parse_cell builtins (Centres_d_Interet s') = Raise e') /\
    @preprocess_features builtins
      [row 1 "Ada" "['a', 'b']" 50; row 2 "Bob" "[python, 'java'" 100]
    = Raise e' /\
    @get_user_recommendations builtins odd_disk half_similar 1 6 = Raise e'.
Proof.
  apply (@get_user_recommendations_malformed_cell builtins odd_disk
           half_similar 1 6
           [row 1 "Ada" "['a', 'b']" 50; row 2 "Bob" "[python, 'java'" 100]
           (row 2 "Bob" "[python, 'java'" 100)
           (Exn SyntaxError "invalid syntax")).
  - reflexivity.
  - right. left. reflexivity.
  - right. right. left. reflexivity.
Defined.


(** At the largest 64-bit identifier the new identifier wraps around. *)
Example add_user_to_dataset_wraps :
  replaced (@add_user_to_dataset builtins full_disk half_similar writable
              (row 0 "Cy" "['z']" 10))
  = Some [row 9223372036854775807 "Ada" "['a']" 50;
          row (-9223372036854775808) "Cy" "['z']" 10].
Proof. vm_compute. reflexivity. Qed.

End ConcreteExtras.
